(** * Interactive geometry editor: tools, hit detection, move/delete, GeoJSON

    A shallow embedding of the editor's core (utils/geometry.js,
    utils/drawing.js, utils/hitDetection.js, core/ToolManager.js,
    core/AppState.js, core/StyleManager.js, ui/KeyboardShortcuts.js, the
    tools under tools/, io/IOManager.js and the wiring of main.js).

    Modelling conventions.
    - A JavaScript number is a real number ([R]); rounding of IEEE doubles,
      NaN and the infinities are not modelled.  Comparisons are the decidable
      comparisons of [R] turned into booleans.
    - A JavaScript object of a fixed shape is a record; a property that may
      be absent ([undefined]) or [null] is an [option].
    - An array is a [list]; an in-place mutation of an array or object that
      lives in the tool registry is an update of the registry slot that
      holds it.  The identity of a tool object is its slot in the registry
      [Map]; the identity of a committed entity is the pair of its tool's
      slot and its index in the tool's collection.
    - A method that can raise a [TypeError] returns its completion next to
      the state it leaves behind, or [None] where the state it leaves is
      of no interest.
    - The elevation lookups are asynchronous and outside the steps modelled
      here: an entity is created with a [null] elevation, and the
      properties hold for entities with any elevation. *)

From Stdlib Require Import String Ascii Reals Lra Lia Bool Arith ZArith List.
Import ListNotations.
Local Open Scope string_scope.
Local Open Scope list_scope.
Local Open Scope R_scope.
Set Warnings "-register-all".

(** ** JavaScript numbers *)

Definition Rltb (a b : R) : bool := if Rlt_dec a b then true else false.
Definition Rleb (a b : R) : bool := if Rle_dec a b then true else false.
Definition Reqb (a b : R) : bool := if Req_dec_T a b then true else false.

(** [x.toFixed(decimals) + suffix]: the digits are not computed, the
    template keeps the number shown, the number of decimals and the unit. *)
Inductive FixedString : Type :=
  Fixed (shown : R) (decimals : nat) (suffix : string).

(** ** utils/geometry.js *)

Module GeoUtils.

Record LatLng : Type := mkLatLng { lat : R; lng : R }.

Definition EARTH_RADIUS : R := 6378137.

Definition toRad (degrees : R) : R := degrees * PI / 180.
Definition toDeg (radians : R) : R := radians * 180 / PI.

(** [Math.atan2] on finite arguments. *)
Definition atan2 (y x : R) : R :=
  if Rlt_dec 0 x then atan (y / x)
  else if Rlt_dec x 0 then
    (if Rle_dec 0 y then atan (y / x) + PI else atan (y / x) - PI)
  else if Rlt_dec 0 y then PI / 2
  else if Rlt_dec y 0 then - (PI / 2)
  else 0.

Definition distance (a b : LatLng) : R :=
  let dLat := toRad (lat b - lat a) in
  let dLng := toRad (lng b - lng a) in
  let sinLat := sin (dLat / 2) in
  let sinLng := sin (dLng / 2) in
  let c :=
    sinLat * sinLat +
    cos (toRad (lat a)) * cos (toRad (lat b)) * sinLng * sinLng in
  2 * EARTH_RADIUS * atan2 (sqrt c) (sqrt (1 - c)).

Definition project (center : LatLng) (dist brg : R) : LatLng :=
  let b := toRad brg in
  let lat1 := toRad (lat center) in
  let lng1 := toRad (lng center) in
  let lat2 :=
    asin (sin lat1 * cos (dist / EARTH_RADIUS) +
          cos lat1 * sin (dist / EARTH_RADIUS) * cos b) in
  let lng2 :=
    lng1 +
    atan2 (sin b * sin (dist / EARTH_RADIUS) * cos lat1)
          (cos (dist / EARTH_RADIUS) - sin lat1 * sin lat2) in
  mkLatLng (toDeg lat2) (toDeg lng2).

(** Reading [points[i]] inside the loops below never leaves the array;
    the default only makes [nth] total. *)
Definition origin : LatLng := mkLatLng 0 0.
Definition at_ (points : list LatLng) (i : nat) : LatLng := nth i points origin.

(** [for (let i = 0; i < points.length; i++) { j = (i + 1) % length; ... }] *)
Definition polygonArea (points : list LatLng) : R :=
  if (length points <? 3)%nat then 0
  else
    let area :=
      fold_left
        (fun area i =>
           let j := ((i + 1) mod length points)%nat in
           area + lng (at_ points i) * lat (at_ points j)
                - lng (at_ points j) * lat (at_ points i))
        (seq 0 (length points)) 0 in
    let area := Rabs area / 2 in
    let metersPerDegree := 111320 in
    area * metersPerDegree * metersPerDegree.

(** [for (let i = 0; i < points.length - 1; i++) total += distance(...)] *)
Definition polylineLength (points : list LatLng) : R :=
  if (length points <? 2)%nat then 0
  else
    fold_left
      (fun total i => total + distance (at_ points i) (at_ points (i + 1)))
      (seq 0 (length points - 1)) 0.

(** [for (let a = -angle / 2; a <= angle / 2; a += step)]: the body runs
    once for every [a] the condition lets through, [fuel] bounds the
    number of turns. *)
Fixpoint sectorArc (fuel : nat) (center : LatLng) (radius brg : R)
         (a hi : R) : list (R * R) :=
  match fuel with
  | O => []
  | S fuel' =>
      if Rleb a hi then
        let p := project center radius (brg + a) in
        (lng p, lat p) :: sectorArc fuel' center radius brg (a + 3) hi
      else []
  end.

(** The number of turns of the loop: none for a negative angle, else one
    for each multiple of the step that fits in the angle. *)
Definition sectorSteps (angle : R) : nat :=
  if Rltb angle 0 then O else S (Z.to_nat (Int_part (angle / 3))).

(** [coords] as pairs [(lng, lat)], the centre first and last. *)
Definition sectorCoordinates (center : LatLng) (radius brg angle : R)
  : list (R * R) :=
  [(lng center, lat center)] ++
  sectorArc (sectorSteps angle) center radius brg (- angle / 2) (angle / 2) ++
  [(lng center, lat center)].

Definition formatDistance (meters : R) (decimals : nat) : FixedString :=
  if Rltb meters 1000 then Fixed meters decimals " m"
  else Fixed (meters / 1000) decimals " km".

(** The default value of the parameter [decimals]. *)
Definition formatDistance_default (meters : R) : FixedString :=
  formatDistance meters 2.

(** [a % b]: the remainder of the division truncated towards zero, with
    the sign of the dividend. *)
Definition truncate (r : R) : Z :=
  if Rle_dec 0 r then Int_part r else (- Int_part (- r))%Z.

Definition jsRem (a b : R) : R := a - b * IZR (truncate (a / b)).

Definition bearing (a b : LatLng) : R :=
  let y := sin (toRad (lng b - lng a)) * cos (toRad (lat b)) in
  let x :=
    cos (toRad (lat a)) * sin (toRad (lat b)) -
    sin (toRad (lat a)) * cos (toRad (lat b)) * cos (toRad (lng b - lng a)) in
  jsRem (toDeg (atan2 y x) + 360) 360.


(** [for (let i = 0, j = polygon.length - 1; i < polygon.length; j = i++)]:
    [j] is the index before [i], the last index for the first [i]. *)
Definition pointInPolygon (point : LatLng) (polygon : list LatLng) : bool :=
  fold_left
    (fun inside i =>
       let j := match i with
                | O => (length polygon - 1)%nat
                | S i' => i'
                end in
       let xi := lng (at_ polygon i) in
       let yi := lat (at_ polygon i) in
       let xj := lng (at_ polygon j) in
       let yj := lat (at_ polygon j) in
       let intersect :=
         xorb (Rltb (lat point) yi) (Rltb (lat point) yj) &&
         Rltb (lng point) ((xj - xi) * (lat point - yi) / (yj - yi) + xi) in
       if intersect then negb inside else inside)
    (seq 0 (length polygon)) false.






End GeoUtils.

(** ** utils/drawing.js *)

Module DrawUtils.

Record Px : Type := mkPx { x : R; y : R }.

Definition hypot (a b : R) : R := sqrt (a * a + b * b).

Definition distToSegment (p a b : Px) : R :=
  let dx := x b - x a in
  let dy := y b - y a in
  if Reqb dx 0 && Reqb dy 0 then hypot (x p - x a) (y p - y a)
  else
    let t := ((x p - x a) * dx + (y p - y a) * dy) / (dx * dx + dy * dy) in
    let clamped := Rmax 0 (Rmin 1 t) in
    let x' := x a + clamped * dx in
    let y' := y a + clamped * dy in
    hypot (x p - x') (y p - y').

End DrawUtils.

Import GeoUtils.

(** ** core/StyleManager.js *)

Module StyleManager.

Record PointsStyle : Type := { ps_color : string; ps_symbol : string }.
Record LineStyle : Type := { ls_color : string; ls_style : string }.
Record PolygonStyle : Type := { gs_color : string; gs_alpha : R }.
Record SectorStyle : Type := { ss_color : string; ss_angle : R }.
Record TextStyle : Type :=
  { ts_value : string; ts_color : string; ts_size : R }.

(** [this.styles]; [getStyle(toolName)] hands out a copy of one field. *)
Record Styles : Type := {
  points : PointsStyle;
  line : LineStyle;
  polygon : PolygonStyle;
  sector : SectorStyle;
  text : TextStyle
}.

Definition getDefaults : Styles := {|
  points := {| ps_color := "black"; ps_symbol := "circle" |};
  line := {| ls_color := "black"; ls_style := "solid" |};
  polygon := {| gs_color := "green"; gs_alpha := 25 / 100 |};
  sector := {| ss_color := "black"; ss_angle := 60 |};
  text := {| ts_value := ""; ts_color := "black"; ts_size := 14 |}
|}.

End StyleManager.

Import StyleManager.

(** ** The entities the tools own *)

(** [{ lat, lng, elev, color, symbol }] *)
Record PointItem : Type := {
  p_lat : R; p_lng : R; p_elev : option R;
  p_color : string; p_symbol : string
}.

(** [{ lat, lng, ...styles.text }], or [{ lat, lng, text, color, size }] when
    imported: [text] and [value] are [None] when the property is absent. *)
Record TextItem : Type := {
  t_lat : R; t_lng : R;
  t_text : option string; t_value : option string;
  t_color : string; t_size : R
}.

(** [{ lat, lng, elev }] *)
Record LineVertex : Type := { v_lat : R; v_lng : R; v_elev : option R }.

(** [{ points, color, style }] *)
Record LineItem : Type := {
  l_points : list LineVertex; l_color : string; l_style : string
}.

(** [{ points, color, alpha }], the vertices are [{ lat, lng }] *)
Record PolygonItem : Type := {
  g_points : list LatLng; g_color : string; g_alpha : R
}.

(** [{ center, radius, bearing, elev, color, angle }] *)
Record SectorItem : Type := {
  s_center : LatLng; s_radius : R; s_bearing : R; s_elev : option R;
  s_color : string; s_angle : R
}.

(** What a collection hands to the hit detector and to the move tool. *)
Inductive Item : Type :=
| IPoint (p : PointItem)
| IText (t : TextItem)
| ILine (l : LineItem)
| IPolygon (g : PolygonItem)
| ISector (s : SectorItem).

Definition vertexLatLng (v : LineVertex) : LatLng :=
  mkLatLng (v_lat v) (v_lng v).

(** Property reads used for shape sniffing: [item.lat], [item.lng],
    [item.points] (the coordinates of the vertices), [item.center]. *)
Definition item_lat (item : Item) : option R :=
  match item with
  | IPoint p => Some (p_lat p)
  | IText t => Some (t_lat t)
  | _ => None
  end.

Definition item_lng (item : Item) : option R :=
  match item with
  | IPoint p => Some (p_lng p)
  | IText t => Some (t_lng t)
  | _ => None
  end.

Definition item_points (item : Item) : option (list LatLng) :=
  match item with
  | ILine l => Some (map vertexLatLng (l_points l))
  | IPolygon g => Some (g_points g)
  | _ => None
  end.

Definition item_center (item : Item) : option LatLng :=
  match item with
  | ISector s => Some (s_center s)
  | _ => None
  end.

Definition isSome {A : Type} (o : option A) : bool :=
  match o with Some _ => true | None => false end.

(** ** tools/BaseTool.js and the five entity tools *)

Inductive Completion : Type := Normal | TypeError.

(** [array.splice(index, 1)] *)
Definition splice1 {A : Type} (index : nat) (l : list A) : list A :=
  firstn index l ++ skipn (S index) l.

Module PointsTool.

(** [points] aliases [items]; [_draft] stays [null] for this class. *)
Record t : Type := { points : list PointItem }.

Definition create : t := {| points := [] |}.

(** The elevation lookup resolves later, outside this step. *)
Definition add (st : Styles) (latlng : LatLng) (this : t) : t :=
  let point := {|
    p_lat := lat latlng; p_lng := lng latlng; p_elev := None;
    p_color := ps_color (StyleManager.points st);
    p_symbol := ps_symbol (StyleManager.points st) |} in
  {| points := points this ++ [point] |}.

Definition finish (this : t) : t := this.
Definition cancel (this : t) : t := this.
Definition clear (this : t) : t := {| points := [] |}.

End PointsTool.

Module PolylineTool.

Record t : Type := {
  lines : list LineItem;
  _draft : option LineItem;
  _hover : option LatLng
}.

Definition create : t := {| lines := []; _draft := None; _hover := None |}.

Definition add (st : Styles) (latlng : LatLng) (this : t) : t :=
  let draft :=
    match _draft this with
    | Some d => d
    | None => {| l_points := [];
                 l_color := ls_color (StyleManager.line st);
                 l_style := ls_style (StyleManager.line st) |}
    end in
  let p := {| v_lat := lat latlng; v_lng := lng latlng; v_elev := None |} in
  {| lines := lines this;
     _draft := Some {| l_points := l_points draft ++ [p];
                       l_color := l_color draft;
                       l_style := l_style draft |};
     _hover := _hover this |}.

Definition finish (this : t) : t :=
  match _draft this with
  | Some d =>
      if (1 <? length (l_points d))%nat
      then {| lines := lines this ++ [d]; _draft := None; _hover := None |}
      else {| lines := lines this; _draft := None; _hover := None |}
  | None => {| lines := lines this; _draft := None; _hover := None |}
  end.

Definition onMouseMove (latlng : LatLng) (this : t) : t :=
  if isSome (_draft this)
  then {| lines := lines this; _draft := _draft this; _hover := Some latlng |}
  else this.

Definition cancel (this : t) : t :=
  {| lines := lines this; _draft := None; _hover := _hover this |}.

Definition clear (this : t) : t :=
  {| lines := []; _draft := None; _hover := _hover this |}.

End PolylineTool.

Module PolygonTool.

Record t : Type := {
  polygons : list PolygonItem;
  _draft : option PolygonItem;
  _hover : option LatLng
}.

Definition create : t :=
  {| polygons := []; _draft := None; _hover := None |}.

Definition add (st : Styles) (latlng : LatLng) (this : t) : t :=
  let draft :=
    match _draft this with
    | Some d => d
    | None => {| g_points := [];
                 g_color := gs_color (StyleManager.polygon st);
                 g_alpha := gs_alpha (StyleManager.polygon st) |}
    end in
  {| polygons := polygons this;
     _draft := Some {| g_points :=
                         g_points draft ++ [mkLatLng (lat latlng) (lng latlng)];
                       g_color := g_color draft;
                       g_alpha := g_alpha draft |};
     _hover := _hover this |}.

Definition finish (this : t) : t :=
  match _draft this with
  | Some d =>
      if (2 <? length (g_points d))%nat
      then {| polygons := polygons this ++ [d];
              _draft := None; _hover := None |}
      else {| polygons := polygons this; _draft := None; _hover := None |}
  | None => {| polygons := polygons this; _draft := None; _hover := None |}
  end.

Definition onMouseMove (latlng : LatLng) (this : t) : t :=
  if isSome (_draft this)
  then {| polygons := polygons this; _draft := _draft this;
          _hover := Some latlng |}
  else this.

Definition cancel (this : t) : t :=
  {| polygons := polygons this; _draft := None; _hover := _hover this |}.

Definition clear (this : t) : t :=
  {| polygons := []; _draft := None; _hover := _hover this |}.

End PolygonTool.

Module SectorTool.

Record t : Type := {
  sectors : list SectorItem;
  _draft : option SectorItem
}.

Definition create : t := {| sectors := []; _draft := None |}.

(** First click fixes the centre, second click commits the draft as it is. *)
Definition add (st : Styles) (latlng : LatLng) (this : t) : t :=
  match _draft this with
  | None =>
      {| sectors := sectors this;
         _draft := Some {|
           s_center := mkLatLng (lat latlng) (lng latlng);
           s_radius := 0; s_bearing := 0; s_elev := None;
           s_color := ss_color (StyleManager.sector st);
           s_angle := ss_angle (StyleManager.sector st) |} |}
  | Some d => {| sectors := sectors this ++ [d]; _draft := None |}
  end.

(** Inherited [BaseTool.finish]. *)
Definition finish (this : t) : t :=
  match _draft this with
  | Some d => {| sectors := sectors this ++ [d]; _draft := None |}
  | None => this
  end.

Definition cancel (this : t) : t :=
  {| sectors := sectors this; _draft := None |}.

Definition clear (this : t) : t := {| sectors := []; _draft := None |}.

(** [onMouseMove]: the radius and the bearing of the draft follow the
    pointer. *)
Definition onMouseMove (latlng : LatLng) (this : t) : t :=
  match _draft this with
  | None => this
  | Some d =>
      let c := s_center d in
      {| sectors := sectors this;
         _draft := Some {|
           s_center := c;
           s_radius := distance c latlng;
           s_bearing := bearing c latlng;
           s_elev := s_elev d;
           s_color := s_color d;
           s_angle := s_angle d |} |}
  end.

(** [setAngle(deg)]: the style manager and the tool afterwards. *)
Definition setAngle (deg : R) (st : Styles) (this : t) : Styles * t :=
  ({| StyleManager.points := StyleManager.points st;
      StyleManager.line := StyleManager.line st;
      StyleManager.polygon := StyleManager.polygon st;
      StyleManager.sector :=
        {| ss_color := ss_color (StyleManager.sector st); ss_angle := deg |};
      StyleManager.text := StyleManager.text st |},
   match _draft this with
   | None => this
   | Some d =>
       {| sectors := sectors this;
          _draft := Some {|
            s_center := s_center d;
            s_radius := s_radius d;
            s_bearing := s_bearing d;
            s_elev := s_elev d;
            s_color := s_color d;
            s_angle := deg |} |}
   end).

End SectorTool.

(** [String.prototype.trim] on the white space of the ASCII range. *)
Definition isWhiteSpace (c : ascii) : bool :=
  match nat_of_ascii c with
  | 9%nat | 10%nat | 11%nat | 12%nat | 13%nat | 32%nat => true
  | _ => false
  end.

Fixpoint trimStart (s : string) : string :=
  match s with
  | EmptyString => EmptyString
  | String c rest => if isWhiteSpace c then trimStart rest else s
  end.

Fixpoint trimEnd (s : string) : string :=
  match s with
  | EmptyString => EmptyString
  | String c rest =>
      let rest' := trimEnd rest in
      if isWhiteSpace c && String.eqb rest' EmptyString
      then EmptyString else String c rest'
  end.

Definition trim (s : string) : string := trimEnd (trimStart s).

Module TextTool.

Record t : Type := {
  texts : list TextItem;
  _draft : option TextItem
}.

Definition create : t := {| texts := []; _draft := None |}.

(** [{ lat, lng, ...this.getStyleSnapshot('text') }]: the snapshot has the
    properties [value], [color] and [size], and no property [text]. *)
Definition add (st : Styles) (latlng : LatLng) (this : t) : t :=
  {| texts := texts this;
     _draft := Some {|
       t_lat := lat latlng; t_lng := lng latlng;
       t_text := None;
       t_value := Some (ts_value (StyleManager.text st));
       t_color := ts_color (StyleManager.text st);
       t_size := ts_size (StyleManager.text st) |} |}.

(** [if (this._draft && this._draft.text.trim() !== '') push;
     this._draft = null]: calling [trim] on an absent [text] raises before
    anything is written. *)
Definition finish (this : t) : t * Completion :=
  match _draft this with
  | None => ({| texts := texts this; _draft := None |}, Normal)
  | Some d =>
      match t_text d with
      | None => (this, TypeError)
      | Some s =>
          if negb (String.eqb (trim s) "")
          then ({| texts := texts this ++ [d]; _draft := None |}, Normal)
          else ({| texts := texts this; _draft := None |}, Normal)
      end
  end.

Definition cancel (this : t) : t :=
  {| texts := texts this; _draft := None |}.

Definition clear (this : t) : t := {| texts := []; _draft := None |}.

End TextTool.

(** ** The tool objects the registry holds *)

Inductive ToolInst : Type :=
| TPoints (tool : PointsTool.t)
| TPolyline (tool : PolylineTool.t)
| TPolygon (tool : PolygonTool.t)
| TSector (tool : SectorTool.t)
| TText (tool : TextTool.t)
| TMove
| TDelete.

(** [tool.isMoveTool] *)
Definition isMoveTool (tool : ToolInst) : bool :=
  match tool with TMove => true | _ => false end.

(** The array behind [tool.items] and its alias ([points], [lines],
    [polygons], [sectors], [texts]); the move and delete tools have none. *)
Definition tool_items (tool : ToolInst) : option (list Item) :=
  match tool with
  | TPoints t => Some (map IPoint (PointsTool.points t))
  | TPolyline t => Some (map ILine (PolylineTool.lines t))
  | TPolygon t => Some (map IPolygon (PolygonTool.polygons t))
  | TSector t => Some (map ISector (SectorTool.sectors t))
  | TText t => Some (map IText (TextTool.texts t))
  | TMove | TDelete => None
  end.

(** [tool._draft] *)
Definition tool_draft (tool : ToolInst) : option Item :=
  match tool with
  | TPoints _ => None
  | TPolyline t => option_map ILine (PolylineTool._draft t)
  | TPolygon t => option_map IPolygon (PolygonTool._draft t)
  | TSector t => option_map ISector (SectorTool._draft t)
  | TText t => option_map IText (TextTool._draft t)
  | TMove | TDelete => None
  end.

(** [array.length = 0] on the collection of a tool, the draft untouched. *)
Definition truncateItems (tool : ToolInst) : ToolInst :=
  match tool with
  | TPoints t => TPoints {| PointsTool.points := [] |}
  | TPolyline t =>
      TPolyline {| PolylineTool.lines := [];
                   PolylineTool._draft := PolylineTool._draft t;
                   PolylineTool._hover := PolylineTool._hover t |}
  | TPolygon t =>
      TPolygon {| PolygonTool.polygons := [];
                  PolygonTool._draft := PolygonTool._draft t;
                  PolygonTool._hover := PolygonTool._hover t |}
  | TSector t =>
      TSector {| SectorTool.sectors := [];
                 SectorTool._draft := SectorTool._draft t |}
  | TText t =>
      TText {| TextTool.texts := []; TextTool._draft := TextTool._draft t |}
  | TMove => TMove
  | TDelete => TDelete
  end.

(** [BaseTool.clear()], dispatched on the class of the tool. *)
Definition tool_clear (tool : ToolInst) : ToolInst :=
  match tool with
  | TPoints t => TPoints (PointsTool.clear t)
  | TPolyline t => TPolyline (PolylineTool.clear t)
  | TPolygon t => TPolygon (PolygonTool.clear t)
  | TSector t => TSector (SectorTool.clear t)
  | TText t => TText (TextTool.clear t)
  | TMove => TMove
  | TDelete => TDelete
  end.

(** [list.splice(index, 1)] on the collection of a tool. *)
Definition spliceItems (index : nat) (tool : ToolInst) : ToolInst :=
  match tool with
  | TPoints t =>
      TPoints {| PointsTool.points := splice1 index (PointsTool.points t) |}
  | TPolyline t =>
      TPolyline {| PolylineTool.lines := splice1 index (PolylineTool.lines t);
                   PolylineTool._draft := PolylineTool._draft t;
                   PolylineTool._hover := PolylineTool._hover t |}
  | TPolygon t =>
      TPolygon {| PolygonTool.polygons :=
                    splice1 index (PolygonTool.polygons t);
                  PolygonTool._draft := PolygonTool._draft t;
                  PolygonTool._hover := PolygonTool._hover t |}
  | TSector t =>
      TSector {| SectorTool.sectors := splice1 index (SectorTool.sectors t);
                 SectorTool._draft := SectorTool._draft t |}
  | TText t =>
      TText {| TextTool.texts := splice1 index (TextTool.texts t);
               TextTool._draft := TextTool._draft t |}
  | TMove => TMove
  | TDelete => TDelete
  end.

(** [tool.finish()], dispatched on the class of the tool: the tool
    afterwards and how the call completed; [None] for the delete tool,
    which has no method [finish].  [MoveTool.finish] writes the fields of
    the move tool only, which are kept apart from the registry. *)
Definition tool_finish (tool : ToolInst) : option (ToolInst * Completion) :=
  match tool with
  | TPoints t => Some (TPoints (PointsTool.finish t), Normal)
  | TPolyline t => Some (TPolyline (PolylineTool.finish t), Normal)
  | TPolygon t => Some (TPolygon (PolygonTool.finish t), Normal)
  | TSector t => Some (TSector (SectorTool.finish t), Normal)
  | TText t =>
      Some (TText (fst (TextTool.finish t)), snd (TextTool.finish t))
  | TMove => Some (TMove, Normal)
  | TDelete => None
  end.

(** [BaseTool.getItemCount()] *)
Definition tool_getItemCount (tool : ToolInst) : nat :=
  match tool_items tool with
  | Some items => length items
  | None => O
  end.

(** ** utils/hitDetection.js *)

Import DrawUtils.

(** A tool object together with its identity (its slot in the registry). *)
Definition ToolRef : Type := nat.
Definition ToolObj : Type := (ToolRef * ToolInst)%type.

Module HitDetector.

(** [this.map.latLngToScreen] is the projection of the map widget;
    [tolerance] defaults to 8 pixels. *)
Record t : Type := {
  latLngToScreen : LatLng -> Px;
  tolerance : R
}.

Definition create (proj : LatLng -> Px) : t :=
  {| latLngToScreen := proj; tolerance := 8 |}.

Definition setTolerance (tol : R) (this : t) : t :=
  {| latLngToScreen := latLngToScreen this; tolerance := tol |}.

Record Bounds : Type := {
  minLat : R; maxLat : R; minLng : R; maxLng : R
}.

(** [{ tool: list, index: i }]: the list is named by the tool owning it. *)
Record DeleteHit : Type := { dh_tool : ToolRef; dh_index : nat }.

(** [{ item, tool, toolName }] *)
Record AreaHit : Type := { ah_item : Item; ah_tool : ToolRef }.

(** What [pick] returns is the live entity object: its value, and its
    identity as the place where it is stored. *)
Record PickHit : Type := {
  ph_item : Item; ph_tool : ToolRef; ph_index : nat
}.

Section Methods.
Variable this : t.

Definition distancePx (a b : Px) : R :=
  let dx := x b - x a in
  let dy := y b - y a in
  sqrt (dx * dx + dy * dy).

Definition hitTestPoint (point : LatLng) (mousePx : Px) : bool :=
  let pointPx := latLngToScreen this point in
  Rltb (distancePx mousePx pointPx) (tolerance this).

Definition hitTestSector (center : LatLng) (mousePx : Px) : bool :=
  let centerPx := latLngToScreen this center in
  Rltb (distancePx mousePx centerPx) (tolerance this).

(** The loop runs over [i = 0 .. points.length - 2] and returns at the
    first segment closer than the tolerance. *)
Definition hitTestPolyline (points : list LatLng) (mousePx : Px) : bool :=
  if (length points <? 2)%nat then false
  else
    existsb
      (fun i =>
         let a := latLngToScreen this (at_ points i) in
         let b := latLngToScreen this (at_ points (i + 1)) in
         Rltb (distToSegment mousePx a b) (tolerance this))
      (seq 0 (length points - 1)).

Definition hitTest (item : Item) (mousePx : Px) : bool :=
  if isSome (item_lat item) && negb (isSome (item_points item)) then
    match item with
    | IPoint p => hitTestPoint (mkLatLng (p_lat p) (p_lng p)) mousePx
    | IText t => hitTestPoint (mkLatLng (t_lat t) (t_lng t)) mousePx
    | _ => false
    end
  else
    match item_center item with
    | Some center => hitTestSector center mousePx
    | None =>
        match item_points item with
        | Some points => hitTestPolyline points mousePx
        | None => false
        end
    end.

(** [tool.items || tool.points || ... || []]: an array is truthy even
    when it is empty. *)
Definition extractItems (tool : ToolInst) : list Item :=
  match tool_items tool with
  | Some items => items
  | None => []
  end.

(** [tool.points || tool.texts || ... || null] *)
Definition extractList (tool : ToolInst) : option (list Item) :=
  tool_items tool.

(** The inner loop of [pick] and [pickForDelete]: the first index at or
    after [i] whose item is hit. *)
Fixpoint firstHit (mousePx : Px) (i : nat) (items : list Item)
  : option (nat * Item) :=
  match items with
  | [] => None
  | item :: rest =>
      if hitTest item mousePx then Some (i, item)
      else firstHit mousePx (S i) rest
  end.

Fixpoint pickPx (mousePx : Px) (tools : list ToolObj) : option PickHit :=
  match tools with
  | [] => None
  | (ref, tool) :: rest =>
      match firstHit mousePx 0 (extractItems tool) with
      | Some (i, item) =>
          Some {| ph_item := item; ph_tool := ref; ph_index := i |}
      | None => pickPx mousePx rest
      end
  end.

Definition pick (latlng : LatLng) (tools : list ToolObj)
  : option PickHit :=
  pickPx (latLngToScreen this latlng) tools.

Fixpoint pickForDeletePx (mousePx : Px) (tools : list ToolObj)
  : option DeleteHit :=
  match tools with
  | [] => None
  | (ref, tool) :: rest =>
      match extractList tool with
      | None => pickForDeletePx mousePx rest
      | Some list =>
          match firstHit mousePx 0 list with
          | Some (i, _) => Some {| dh_tool := ref; dh_index := i |}
          | None => pickForDeletePx mousePx rest
          end
      end
  end.

Definition pickForDelete (latlng : LatLng) (tools : list ToolObj)
  : option DeleteHit :=
  pickForDeletePx (latLngToScreen this latlng) tools.

Definition pickAll (latlng : LatLng) (tools : list ToolObj)
  : list AreaHit :=
  let mousePx := latLngToScreen this latlng in
  flat_map
    (fun '(ref, tool) =>
       map (fun item => {| ah_item := item; ah_tool := ref |})
           (filter (fun item => hitTest item mousePx) (extractItems tool)))
    tools.

Definition pointInBounds (point : LatLng) (bounds : Bounds) : bool :=
  Rleb (minLat bounds) (lat point) && Rleb (lat point) (maxLat bounds) &&
  Rleb (minLng bounds) (lng point) && Rleb (lng point) (maxLng bounds).

Definition isInBounds (item : Item) (bounds : Bounds) : bool :=
  if isSome (item_lat item) && negb (isSome (item_points item)) then
    match item with
    | IPoint p => pointInBounds (mkLatLng (p_lat p) (p_lng p)) bounds
    | IText t => pointInBounds (mkLatLng (t_lat t) (t_lng t)) bounds
    | _ => false
    end
  else
    match item_center item with
    | Some center => pointInBounds center bounds
    | None =>
        match item_points item with
        | Some points => existsb (fun p => pointInBounds p bounds) points
        | None => false
        end
    end.

Definition pickInBounds (bounds : Bounds) (tools : list ToolObj)
  : list AreaHit :=
  flat_map
    (fun '(ref, tool) =>
       map (fun item => {| ah_item := item; ah_tool := ref |})
           (filter (fun item => isInBounds item bounds)
                   (extractItems tool)))
    tools.

End Methods.

End HitDetector.

(** ** core/ToolManager.js *)

Module ToolManager.

(** [tools] is the [Map] from names to tool objects ([null] for the
    explore mode), kept in insertion order. *)
Record t : Type := {
  tools : list (string * option ToolInst);
  activeTool : option string;
  registrationOrder : list string
}.

Definition create : t :=
  {| tools := []; activeTool := None; registrationOrder := [] |}.

Definition has (name : string) (m : list (string * option ToolInst)) : bool :=
  existsb (fun e => String.eqb (fst e) name) m.

(** [Map.prototype.set]: an existing key keeps its place. *)
Fixpoint set (name : string) (tool : option ToolInst)
         (m : list (string * option ToolInst))
  : list (string * option ToolInst) :=
  match m with
  | [] => [(name, tool)]
  | (k, v) :: rest =>
      if String.eqb k name then (k, tool) :: rest
      else (k, v) :: set name tool rest
  end.

Definition includes (name : string) (names : list string) : bool :=
  existsb (String.eqb name) names.

Definition register (name : string) (tool : option ToolInst) (this : t) : t :=
  {| tools := set name tool (tools this);
     registrationOrder :=
       if includes name (registrationOrder this) then registrationOrder this
       else registrationOrder this ++ [name];
     activeTool :=
       match activeTool this with
       | None => Some name
       | Some "" => Some name
       | Some a => Some a
       end |}.

(** The entries of the map, each with its slot. *)
Definition entries (this : t) : list (ToolRef * (string * option ToolInst)) :=
  combine (seq 0 (length (tools this))) (tools this).

(** [Array.from(this.tools.values()).filter(tool => tool !== null)] *)
Definition getAllTools (this : t) : list ToolObj :=
  flat_map
    (fun '(ref, (_, tool)) =>
       match tool with Some inst => [(ref, inst)] | None => [] end)
    (entries this).

Definition excludeNames : list string := ["explore"; "move"; "delete"].

Definition getDrawingTools (this : t) : list ToolObj :=
  flat_map
    (fun '(ref, (name, tool)) =>
       match tool with
       | Some inst =>
           if negb (includes name excludeNames) then [(ref, inst)] else []
       | None => []
       end)
    (entries this).

(** A write through a reference to a tool object lands in its slot. *)
Fixpoint updateSlot (ref : ToolRef) (f : ToolInst -> ToolInst)
         (m : list (string * option ToolInst)) {struct m}
  : list (string * option ToolInst) :=
  match m, ref with
  | [], _ => []
  | (k, v) :: rest, O => (k, option_map f v) :: rest
  | e :: rest, S ref' => e :: updateSlot ref' f rest
  end.

Definition updateTool (ref : ToolRef) (f : ToolInst -> ToolInst) (this : t)
  : t :=
  {| tools := updateSlot ref f (tools this);
     activeTool := activeTool this;
     registrationOrder := registrationOrder this |}.

Definition getTool (ref : ToolRef) (this : t) : option ToolInst :=
  match nth_error (tools this) ref with
  | Some (_, tool) => tool
  | None => None
  end.

(** [Map.prototype.get]: [None] is [undefined], [Some None] a stored
    [null]. *)
Definition get (name : string) (m : list (string * option ToolInst))
  : option (option ToolInst) :=
  match find (fun e => String.eqb (fst e) name) m with
  | Some e => Some (snd e)
  | None => None
  end.

(** [Map.prototype.delete] *)
Definition delete (name : string) (m : list (string * option ToolInst))
  : list (string * option ToolInst) :=
  filter (fun e => negb (String.eqb (fst e) name)) m.

(** [Array.prototype.indexOf]: [None] is [-1]. *)
Fixpoint indexOf (name : string) (names : list string) : option nat :=
  match names with
  | [] => None
  | n :: rest =>
      if String.eqb n name then Some O else option_map S (indexOf name rest)
  end.

(** [this.activeTool === name] *)
Definition isActive (name : string) (this : t) : bool :=
  match activeTool this with
  | Some a => String.eqb a name
  | None => false
  end.

(** [this.registrationOrder[0] || null]: an empty name is falsy. *)
Definition firstOrNull (names : list string) : option string :=
  match names with
  | [] => None
  | first :: _ => if String.eqb first "" then None else Some first
  end.

Definition unregister (name : string) (this : t) : t :=
  if negb (has name (tools this)) then this
  else
    let order :=
      match indexOf name (registrationOrder this) with
      | Some index => splice1 index (registrationOrder this)
      | None => registrationOrder this
      end in
    {| tools := delete name (tools this);
       registrationOrder := order;
       activeTool :=
         if isActive name this then firstOrNull order else activeTool this |}.

(** [this.tools.get(this.activeTool)] *)
Definition getActive (this : t) : option (option ToolInst) :=
  match activeTool this with
  | Some a => get a (tools this)
  | None => None
  end.

Definition getActiveName (this : t) : option string := activeTool this.

(** [getTool(name)]: [this.tools.get(name) || null]. *)
Definition getToolByName (name : string) (this : t) : option ToolInst :=
  match get name (tools this) with
  | Some (Some tool) => Some tool
  | _ => None
  end.

Definition getAllToolNames (this : t) : list string := map fst (tools this).

Definition getToolsInOrder (this : t)
  : list (string * option (option ToolInst)) :=
  map (fun name => (name, get name (tools this))) (registrationOrder this).

Definition hasTool (name : string) (this : t) : bool := has name (tools this).

Definition getToolCount (this : t) : nat := length (tools this).

(** The payload of the event ['tool:changed']. *)
Record ToolChanged : Type := {
  tc_name : string;
  tc_tool : option (option ToolInst);
  tc_previousName : option string;
  tc_previousTool : option (option ToolInst)
}.

(** [setActive(name)]: the state afterwards, the boolean returned and the
    event emitted, if any. *)
Definition setActive (name : string) (this : t)
  : t * bool * option ToolChanged :=
  if negb (has name (tools this)) then (this, false, None)
  else
    let previousTool := activeTool this in
    let this' := {| tools := tools this;
                    activeTool := Some name;
                    registrationOrder := registrationOrder this |} in
    (this', true,
     Some {| tc_name := name;
             tc_tool := getActive this';
             tc_previousName := previousTool;
             tc_previousTool :=
               match previousTool with
               | Some p => get p (tools this)
               | None => None
               end |}).

(** Every one of [items], [points], [lines], [polygons], [sectors] and
    [texts] that a tool has names the same array, which is truncated;
    nothing else of the tool is written. *)
Definition clearAllData (this : t) : t :=
  fold_left
    (fun tm '(ref, _) => updateTool ref truncateItems tm)
    (getDrawingTools this) this.

End ToolManager.

(** ** core/AppState.js *)

(** The names of the collections [getStats] asks for. *)
Inductive Collection : Type :=
| points_ | lines_ | polygons_ | sectors_ | texts_.

(** [tool?.[type]] for the name of a collection. *)
Definition tool_collection (type : Collection) (tool : ToolInst)
  : option (list Item) :=
  match type, tool with
  | points_, TPoints _ => tool_items tool
  | lines_, TPolyline _ => tool_items tool
  | polygons_, TPolygon _ => tool_items tool
  | sectors_, TSector _ => tool_items tool
  | texts_, TText _ => tool_items tool
  | _, _ => None
  end.

(** [tool.toGeoJSON] is a method of the five entity tools only. *)
Definition hasToGeoJSON (tool : ToolInst) : bool :=
  match tool with
  | TMove | TDelete => false
  | _ => true
  end.

Module AppState.

(** [map], a reference to the map widget, is not part of this state. *)
Record t : Type := {
  toolManager : ToolManager.t;
  styleManager : Styles;
  currentMode : string
}.

Definition create : t :=
  {| toolManager := ToolManager.create;
     styleManager := StyleManager.getDefaults;
     currentMode := "explore" |}.

(** The payload of the event ['mode:changed']. *)
Record ModeChanged : Type := {
  mc_mode : string;
  mc_previousMode : string;
  mc_tool : option (option ToolInst)
}.

(** [setMode(mode)]: the state afterwards and the events emitted, the one
    of [setActive] first. *)
Definition setMode (mode : string) (this : t)
  : t * option ToolManager.ToolChanged * option ModeChanged :=
  if String.eqb (currentMode this) mode then (this, None, None)
  else
    let previousMode := currentMode this in
    let '(tm, _, changed) := ToolManager.setActive mode (toolManager this) in
    ({| toolManager := tm; styleManager := styleManager this;
        currentMode := mode |},
     changed,
     Some {| mc_mode := mode; mc_previousMode := previousMode;
             mc_tool := ToolManager.getActive tm |}).

Definition getMode (this : t) : string := currentMode this.

Definition getActiveTool (this : t) : option (option ToolInst) :=
  ToolManager.getActive (toolManager this).

Definition getDrawingTools (this : t) : list ToolObj :=
  filter (fun o => negb (isMoveTool (snd o)) && hasToGeoJSON (snd o))
         (ToolManager.getAllTools (toolManager this)).

(** Each of the six properties a tool has names the one array, which is
    truncated. *)
Definition clearAll (this : t) : t :=
  {| toolManager :=
       fold_left
         (fun tm '(ref, _) => ToolManager.updateTool ref truncateItems tm)
         (ToolManager.getAllTools (toolManager this)) (toolManager this);
     styleManager := styleManager this;
     currentMode := currentMode this |}.

(** [tools.find(t => t?.[type])], then [tool?.[type]?.length || 0]. *)
Definition _countItems (type : Collection) (tools : list ToolObj) : nat :=
  match find (fun o => isSome (tool_collection type (snd o))) tools with
  | Some o =>
      match tool_collection type (snd o) with
      | Some items => length items
      | None => O
      end
  | None => O
  end.

Record Stats : Type := {
  st_points : nat; st_lines : nat; st_polygons : nat;
  st_sectors : nat; st_texts : nat; st_total : nat
}.

Definition getStats (this : t) : Stats :=
  let tools := getDrawingTools this in
  {| st_points := _countItems points_ tools;
     st_lines := _countItems lines_ tools;
     st_polygons := _countItems polygons_ tools;
     st_sectors := _countItems sectors_ tools;
     st_texts := _countItems texts_ tools;
     st_total :=
       fold_left
         (fun sum o =>
            let items := match tool_items (snd o) with
                         | Some items => items
                         | None => []
                         end in
            (sum + length items)%nat)
         tools O |}.

End AppState.

(** ** tools/MoveTool.js *)

Module MoveTool.

(** [_target] is a reference to the live entity, [_origin] the copy taken
    at pointer-down. *)
Record t : Type := {
  _target : option (ToolRef * nat);
  _origin : option Item;
  _start : option LatLng
}.

Definition create : t :=
  {| _target := None; _origin := None; _start := None |}.

(** [JSON.parse(JSON.stringify(obj))]: a structural copy; a [null] stays,
    an absent property stays absent. *)
Definition clone (obj : Item) : Item := obj.

(** [target.points[i].lat = origin.points[i].lat + dLat], index by index;
    reading a vertex the origin does not have raises. *)
Fixpoint shiftVertices {A : Type} (write : A -> R -> R -> A)
         (target : list A) (origin : list LatLng) (dLat dLng : R)
  : option (list A) :=
  match target with
  | [] => Some []
  | v :: target' =>
      match origin with
      | [] => None
      | o :: origin' =>
          match shiftVertices write target' origin' dLat dLng with
          | Some moved =>
              Some (write v (lat o + dLat) (lng o + dLng) :: moved)
          | None => None
          end
      end
  end.

Definition writeVertex (v : LineVertex) (la ln : R) : LineVertex :=
  {| v_lat := la; v_lng := ln; v_elev := v_elev v |}.

Definition writeLatLng (v : LatLng) (la ln : R) : LatLng := mkLatLng la ln.

(** The target after the writes; [None] when a read of the origin fails
    (the origin is not a copy of the target). *)
Definition applyDelta (target origin : Item) (dLat dLng : R) : option Item :=
  if isSome (item_lat target) && negb (isSome (item_points target)) then
    match item_lat origin, item_lng origin with
    | Some ola, Some oln =>
        match target with
        | IPoint p =>
            Some (IPoint {| p_lat := ola + dLat; p_lng := oln + dLng;
                            p_elev := p_elev p; p_color := p_color p;
                            p_symbol := p_symbol p |})
        | IText t =>
            Some (IText {| t_lat := ola + dLat; t_lng := oln + dLng;
                           t_text := t_text t; t_value := t_value t;
                           t_color := t_color t; t_size := t_size t |})
        | _ => None
        end
    | _, _ => None
    end
  else
    match target with
    | ISector s =>
        match item_center origin with
        | Some oc =>
            Some (ISector {| s_center :=
                               mkLatLng (lat oc + dLat) (lng oc + dLng);
                             s_radius := s_radius s;
                             s_bearing := s_bearing s;
                             s_elev := s_elev s; s_color := s_color s;
                             s_angle := s_angle s |})
        | None => None
        end
    | ILine l =>
        match item_points origin with
        | Some opts =>
            match shiftVertices writeVertex (l_points l) opts dLat dLng with
            | Some pts =>
                Some (ILine {| l_points := pts; l_color := l_color l;
                               l_style := l_style l |})
            | None => None
            end
        | None => None
        end
    | IPolygon g =>
        match item_points origin with
        | Some opts =>
            match shiftVertices writeLatLng (g_points g) opts dLat dLng with
            | Some pts =>
                Some (IPolygon {| g_points := pts; g_color := g_color g;
                                  g_alpha := g_alpha g |})
            | None => None
            end
        | None => None
        end
    | _ => Some target
    end.

(** [list[index] = item] for an index inside the list. *)
Fixpoint replaceAt {A : Type} (index : nat) (a : A) (l : list A) {struct l}
  : list A :=
  match l, index with
  | [], _ => []
  | _ :: rest, O => a :: rest
  | b :: rest, S index' => b :: replaceAt index' a rest
  end.

(** The entity a reference points to, and the effect of writing its
    fields in place.  [applyDelta] never changes the kind of an entity,
    so the last case of [storeItem] is not reached from this file. *)
Definition readItem (tm : ToolManager.t) (target : ToolRef * nat)
  : option Item :=
  match ToolManager.getTool (fst target) tm with
  | Some tool => nth_error (HitDetector.extractItems tool) (snd target)
  | None => None
  end.

Definition storeItem (index : nat) (item : Item) (tool : ToolInst)
  : ToolInst :=
  match tool, item with
  | TPoints t, IPoint p =>
      TPoints {| PointsTool.points :=
                   replaceAt index p (PointsTool.points t) |}
  | TPolyline t, ILine l =>
      TPolyline {| PolylineTool.lines :=
                     replaceAt index l (PolylineTool.lines t);
                   PolylineTool._draft := PolylineTool._draft t;
                   PolylineTool._hover := PolylineTool._hover t |}
  | TPolygon t, IPolygon g =>
      TPolygon {| PolygonTool.polygons :=
                    replaceAt index g (PolygonTool.polygons t);
                  PolygonTool._draft := PolygonTool._draft t;
                  PolygonTool._hover := PolygonTool._hover t |}
  | TSector t, ISector s =>
      TSector {| SectorTool.sectors :=
                   replaceAt index s (SectorTool.sectors t);
                 SectorTool._draft := SectorTool._draft t |}
  | TText t, IText x =>
      TText {| TextTool.texts := replaceAt index x (TextTool.texts t);
               TextTool._draft := TextTool._draft t |}
  | _, _ => tool
  end.

Definition writeItem (target : ToolRef * nat) (item : Item)
           (tm : ToolManager.t) : ToolManager.t :=
  ToolManager.updateTool (fst target) (storeItem (snd target) item) tm.

Section Methods.
Variable hitDetector : HitDetector.t.

(** The tool manager is read, only the move tool is written. *)
Definition onMouseDown (latlng : LatLng) (tm : ToolManager.t) (this : t)
  : t :=
  let tools :=
    filter (fun o => negb (isMoveTool (snd o)))
           (ToolManager.getAllTools tm) in
  match HitDetector.pick hitDetector latlng tools with
  | None => this
  | Some hit =>
      {| _target := Some (HitDetector.ph_tool hit, HitDetector.ph_index hit);
         _origin := Some (clone (HitDetector.ph_item hit));
         _start := Some latlng |}
  end.

(** The entity behind [_target] is rewritten from [_origin]; [None]
    when the method raises.  A target that is no longer stored in its
    collection is a detached object, and writing it changes nothing
    that the registry holds. *)
Definition onMouseMove (latlng : LatLng) (tm : ToolManager.t) (this : t)
  : option ToolManager.t :=
  match _target this with
  | None => Some tm
  | Some target =>
      match _start this, _origin this with
      | Some start, Some origin =>
          let dLat := lat latlng - lat start in
          let dLng := lng latlng - lng start in
          match readItem tm target with
          | Some live =>
              match applyDelta live origin dLat dLng with
              | Some moved => Some (writeItem target moved tm)
              | None => None
              end
          | None => Some tm
          end
      | _, _ => None
      end
  end.

Definition finish (this : t) : t :=
  {| _target := None; _origin := None; _start := None |}.

End Methods.

End MoveTool.

(** ** tools/DeleteTool.js *)

Module DeleteTool.

Section Methods.
Variable hitDetector : HitDetector.t.

Definition add (latlng : LatLng) (tm : ToolManager.t) : ToolManager.t :=
  let tools :=
    filter (fun o => negb (isMoveTool (snd o)))
           (ToolManager.getAllTools tm) in
  match HitDetector.pickForDelete hitDetector latlng tools with
  | None => tm
  | Some hit =>
      ToolManager.updateTool (HitDetector.dh_tool hit)
        (spliceItems (HitDetector.dh_index hit)) tm
  end.

End Methods.

End DeleteTool.

(** ** ui/KeyboardShortcuts.js *)

Module KeyboardShortcuts.

(** The modifier keys of a [KeyboardEvent]. *)
Record KeyEvent : Type := {
  ctrlKey : bool; metaKey : bool; shiftKey : bool
}.

(** The method [handleKey] calls. *)
Inductive Action : Type :=
| StopDrawing
| SetMode (mode : string)
| Undo
| Redo
| DeleteSelected
| ClearAll.

(** The object literal [toolShortcuts]; [toolShortcuts[key]] for the name
    of a key (no key of a keyboard is named like a property every object
    inherits). *)
Definition toolShortcuts : list (string * string) :=
  [("e", "explore"); ("p", "points"); ("s", "sector"); ("l", "line");
   ("o", "polygon"); ("t", "text"); ("m", "move"); ("d", "delete")].

Definition shortcut (key : string) : option string :=
  match find (fun kv => String.eqb (fst kv) key) toolShortcuts with
  | Some kv => Some (snd kv)
  | None => None
  end.

(** [handleKey(key, e)]: the action taken, [None] when the key is not
    handled (the method returns [false]).  [key] is already in lower
    case. *)
Definition handleKey (key : string) (e : KeyEvent) : option Action :=
  if String.eqb key "enter" || String.eqb key "escape" then Some StopDrawing
  else
    match shortcut key with
    | Some mode => Some (SetMode mode)
    | None =>
        if (ctrlKey e || metaKey e) && String.eqb key "z" then Some Undo
        else if (ctrlKey e || metaKey e) &&
                (String.eqb key "y" || (shiftKey e && String.eqb key "z"))
        then Some Redo
        else if String.eqb key "delete" || String.eqb key "backspace"
        then Some DeleteSelected
        else if (ctrlKey e || metaKey e) && shiftKey e &&
                String.eqb key "delete"
        then Some ClearAll
        else None
    end.

(** [handleKeyDown(e)] up to the call of [handleKey]: nothing is handled
    while the shortcuts are disabled or the user types in an input field. *)
Definition handleKeyDown (enabled typingInInput : bool) (key : string)
           (e : KeyEvent) : option Action :=
  if negb enabled then None
  else if typingInInput then None
  else handleKey key e.

End KeyboardShortcuts.

(** ** The interchange document *)

(** A JSON value; an object keeps its properties in the order written. *)
Inductive json : Type :=
| JNull
| JBool (b : bool)
| JNum (r : R)
| JStr (s : string)
| JArr (elems : list json)
| JObj (fields : list (string * json)).

Fixpoint assoc (k : string) (fields : list (string * json)) : option json :=
  match fields with
  | [] => None
  | (k', v) :: rest => if String.eqb k' k then Some v else assoc k rest
  end.

(** [o?.k]: [None] is [undefined]. *)
Definition prop (k : string) (o : option json) : option json :=
  match o with
  | Some (JObj fields) => assoc k fields
  | _ => None
  end.

(** [a[i]] *)
Definition elem (i : nat) (a : option json) : option json :=
  match a with
  | Some (JArr elems) => nth_error elems i
  | _ => None
  end.

(** [v === null] *)
Definition isNull (v : json) : bool :=
  match v with JNull => true | _ => false end.

(** [v === 'literal'] *)
Definition isStr (literal : string) (v : option json) : bool :=
  match v with
  | Some (JStr s) => String.eqb s literal
  | _ => false
  end.

(** [!v] *)
Definition falsy (v : option json) : bool :=
  match v with
  | None | Some JNull => true
  | Some (JBool b) => negb b
  | Some (JNum r) => Reqb r 0
  | Some (JStr s) => String.eqb s ""
  | Some (JArr _) | Some (JObj _) => false
  end.

(** [v ?? d] and [v || d] *)
Definition nullish (v : option json) (d : json) : json :=
  match v with
  | None | Some JNull => d
  | Some j => j
  end.

Definition orElse (v : option json) (d : json) : json :=
  match v with
  | Some j => if falsy v then d else j
  | None => d
  end.

(** Storing a value read from the document into a field of an entity
    record.  The records hold numbers, strings and [null]-or-number
    elevations; a value of another type is outside the model ([None]). *)
Definition asNum (j : option json) : option R :=
  match j with Some (JNum r) => Some r | _ => None end.

Definition asStr (j : option json) : option string :=
  match j with Some (JStr s) => Some s | _ => None end.

Definition asElev (j : option json) : option (option R) :=
  match j with
  | Some JNull => Some None
  | Some (JNum r) => Some (Some r)
  | _ => None
  end.

Definition asLatLng (j : option json) : option LatLng :=
  match asNum (prop "lat" j), asNum (prop "lng" j) with
  | Some la, Some ln => Some (mkLatLng la ln)
  | _, _ => None
  end.

Definition elevJson (e : option R) : json :=
  match e with Some r => JNum r | None => JNull end.

(** [[lng, lat]] *)
Definition position (ln la : R) : json := JArr [JNum ln; JNum la].

(** [all f l]: every element converts, in order. *)
Fixpoint traverse {A B : Type} (f : A -> option B) (l : list A)
  : option (list B) :=
  match l with
  | [] => Some []
  | a :: rest =>
      match f a, traverse f rest with
      | Some b, Some bs => Some (b :: bs)
      | _, _ => None
      end
  end.

(** A feature is an object of the document; a [null] in the place of a
    feature makes every [accepts] raise, which the import loop of
    [IOManager] accounts for. *)
Module GeoJSON.

Definition geometryType (f : json) : option json :=
  prop "type" (prop "geometry" (Some f)).
Definition propertiesType (f : json) : option json :=
  prop "type" (prop "properties" (Some f)).
Definition property (k : string) (f : json) : option json :=
  prop k (prop "properties" (Some f)).
Definition coordinates (f : json) : option json :=
  prop "coordinates" (prop "geometry" (Some f)).

(** The static [accepts] of each class. *)
Definition PointsTool_accepts (f : json) : bool :=
  isStr "Point" (geometryType f) && falsy (propertiesType f).
Definition TextTool_accepts (f : json) : bool :=
  isStr "Point" (geometryType f) && isStr "text" (propertiesType f).
Definition PolylineTool_accepts (f : json) : bool :=
  isStr "LineString" (geometryType f).
Definition PolygonTool_accepts (f : json) : bool :=
  isStr "Polygon" (geometryType f) && negb (isStr "sector" (propertiesType f)).
Definition SectorTool_accepts (f : json) : bool :=
  isStr "Polygon" (geometryType f) && isStr "sector" (propertiesType f).

Definition feature (geometry properties : json) : json :=
  JObj [("type", JStr "Feature");
        ("geometry", geometry);
        ("properties", properties)].

(** *** PointsTool *)

Definition PointsTool_toGeoJSON (this : PointsTool.t) : list json :=
  map (fun p =>
         feature
           (JObj [("type", JStr "Point");
                  ("coordinates", position (p_lng p) (p_lat p))])
           (JObj [("elevation", elevJson (p_elev p));
                  ("color", JStr (p_color p));
                  ("symbol", JStr (p_symbol p))]))
      (PointsTool.points this).

Definition PointsTool_fromGeoJSON (f : json) (this : PointsTool.t)
  : option PointsTool.t :=
  if negb (PointsTool_accepts f) then Some this
  else
    match asNum (elem 0 (coordinates f)), asNum (elem 1 (coordinates f)),
          asElev (Some (nullish (property "elevation" f) JNull)),
          asStr (Some (nullish (property "color" f) (JStr "black"))),
          asStr (Some (nullish (property "symbol" f) (JStr "circle")))
    with
    | Some ln, Some la, Some elev, Some color, Some symbol =>
        Some {| PointsTool.points :=
                  PointsTool.points this ++
                  [{| p_lat := la; p_lng := ln; p_elev := elev;
                      p_color := color; p_symbol := symbol |}] |}
    | _, _, _, _, _ => None
    end.

(** *** PolylineTool *)

Definition PolylineTool_toGeoJSON (this : PolylineTool.t) : list json :=
  map (fun l =>
         feature
           (JObj [("type", JStr "LineString");
                  ("coordinates",
                   JArr (map (fun p => position (v_lng p) (v_lat p))
                             (l_points l)))])
           (JObj [("color", JStr (l_color l));
                  ("style", JStr (l_style l));
                  ("distance",
                   JNum (polylineLength (map vertexLatLng (l_points l))))]))
      (PolylineTool.lines this).

Definition lineVertexOf (c : json) : option LineVertex :=
  match asNum (elem 0 (Some c)), asNum (elem 1 (Some c)) with
  | Some ln, Some la => Some {| v_lat := la; v_lng := ln; v_elev := None |}
  | _, _ => None
  end.

Definition PolylineTool_fromGeoJSON (f : json) (this : PolylineTool.t)
  : option PolylineTool.t :=
  if negb (PolylineTool_accepts f) then Some this
  else
    match coordinates f with
    | Some (JArr cs) =>
        match traverse lineVertexOf cs,
              asStr (Some (orElse (property "color" f) (JStr "black"))),
              asStr (Some (orElse (property "style" f) (JStr "solid")))
        with
        | Some pts, Some color, Some style =>
            Some {| PolylineTool.lines :=
                      PolylineTool.lines this ++
                      [{| l_points := pts; l_color := color;
                          l_style := style |}];
                    PolylineTool._draft := PolylineTool._draft this;
                    PolylineTool._hover := PolylineTool._hover this |}
        | _, _, _ => None
        end
    | _ => None
    end.

(** *** PolygonTool *)

(** [p.points[0].lng] raises on a polygon without vertices. *)
Definition PolygonTool_feature (g : PolygonItem) : option json :=
  match g_points g with
  | [] => None
  | first :: _ =>
      Some (feature
              (JObj [("type", JStr "Polygon");
                     ("coordinates",
                      JArr [JArr (map (fun pt => position (lng pt) (lat pt))
                                      (g_points g) ++
                                  [position (lng first) (lat first)])])])
              (JObj [("color", JStr (g_color g));
                     ("alpha", JNum (g_alpha g));
                     ("area", JNum (polygonArea (g_points g)))]))
  end.

Definition PolygonTool_toGeoJSON (this : PolygonTool.t)
  : option (list json) :=
  traverse PolygonTool_feature (PolygonTool.polygons this).

Definition latLngOf (c : json) : option LatLng :=
  match asNum (elem 0 (Some c)), asNum (elem 1 (Some c)) with
  | Some ln, Some la => Some (mkLatLng la ln)
  | _, _ => None
  end.

(** [ring.slice(0, -1)] is [removelast ring]. *)
Definition PolygonTool_fromGeoJSON (f : json) (this : PolygonTool.t)
  : option PolygonTool.t :=
  if negb (PolygonTool_accepts f) then Some this
  else
    match elem 0 (coordinates f) with
    | Some (JArr ring) =>
        match traverse latLngOf (removelast ring),
              asStr (Some (nullish (property "color" f) (JStr "green"))),
              asNum (Some (nullish (property "alpha" f) (JNum (25 / 100))))
        with
        | Some pts, Some color, Some alpha =>
            Some {| PolygonTool.polygons :=
                      PolygonTool.polygons this ++
                      [{| g_points := pts; g_color := color;
                          g_alpha := alpha |}];
                    PolygonTool._draft := PolygonTool._draft this;
                    PolygonTool._hover := PolygonTool._hover this |}
        | _, _, _ => None
        end
    | _ => None
    end.

(** *** SectorTool *)

Definition SectorTool_toGeoJSON (this : SectorTool.t) : list json :=
  map (fun s =>
         feature
           (JObj [("type", JStr "Polygon");
                  ("coordinates",
                   JArr [JArr (map (fun c => position (fst c) (snd c))
                                   (sectorCoordinates
                                      (s_center s) (s_radius s)
                                      (s_bearing s) (s_angle s)))])])
           (JObj [("type", JStr "sector");
                  ("center", JObj [("lat", JNum (lat (s_center s)));
                                   ("lng", JNum (lng (s_center s)))]);
                  ("radius", JNum (s_radius s));
                  ("bearing", JNum (s_bearing s));
                  ("angle", JNum (s_angle s));
                  ("elevation", elevJson (s_elev s));
                  ("color", JStr (s_color s));
                  ("area",
                   JNum (PI * s_radius s * s_radius s * (s_angle s / 360)))]))
      (SectorTool.sectors this).

Definition SectorTool_fromGeoJSON (f : json) (this : SectorTool.t)
  : option SectorTool.t :=
  if negb (SectorTool_accepts f) then Some this
  else
    match asLatLng (property "center" f),
          asNum (property "radius" f),
          asNum (property "bearing" f),
          asNum (property "angle" f),
          asElev (property "elevation" f),
          asStr (Some (orElse (property "color" f) (JStr "black")))
    with
    | Some center, Some radius, Some brg, Some angle, Some elev,
      Some color =>
        Some {| SectorTool.sectors :=
                  SectorTool.sectors this ++
                  [{| s_center := center; s_radius := radius;
                      s_bearing := brg; s_elev := elev;
                      s_color := color; s_angle := angle |}];
                SectorTool._draft := SectorTool._draft this |}
    | _, _, _, _, _, _ => None
    end.

(** *** TextTool *)

(** A property whose value is [undefined] is not written to the
    document. *)
Definition optionalStr (k : string) (v : option string)
  : list (string * json) :=
  match v with Some s => [(k, JStr s)] | None => [] end.

Definition TextTool_toGeoJSON (this : TextTool.t) : list json :=
  map (fun t =>
         feature
           (JObj [("type", JStr "Point");
                  ("coordinates", position (t_lng t) (t_lat t))])
           (JObj ([("type", JStr "text")] ++
                  optionalStr "text" (t_text t) ++
                  [("color", JStr (t_color t));
                   ("size", JNum (t_size t))])))
      (TextTool.texts this).

Definition asOptionalStr (j : option json) : option (option string) :=
  match j with
  | None => Some None
  | Some (JStr s) => Some (Some s)
  | _ => None
  end.

Definition TextTool_fromGeoJSON (f : json) (this : TextTool.t)
  : option TextTool.t :=
  if negb (TextTool_accepts f) then Some this
  else
    match asNum (elem 0 (coordinates f)), asNum (elem 1 (coordinates f)),
          asOptionalStr (property "text" f),
          asStr (Some (orElse (property "color" f) (JStr "black"))),
          asNum (Some (orElse (property "size" f) (JNum 14)))
    with
    | Some ln, Some la, Some txt, Some color, Some size =>
        Some {| TextTool.texts :=
                  TextTool.texts this ++
                  [{| t_lat := la; t_lng := ln; t_text := txt;
                      t_value := None; t_color := color;
                      t_size := size |}];
                TextTool._draft := TextTool._draft this |}
    | _, _, _, _, _ => None
    end.

(** *** Dispatch on the class of a tool object *)

(** [tool?.constructor.accepts?.(feature)]: the move and delete tools
    have no [accepts]. *)
Definition hasAccepts (tool : ToolInst) : bool :=
  match tool with TMove | TDelete => false | _ => true end.

Definition accepts (tool : ToolInst) (f : json) : bool :=
  match tool with
  | TPoints _ => PointsTool_accepts f
  | TPolyline _ => PolylineTool_accepts f
  | TPolygon _ => PolygonTool_accepts f
  | TSector _ => SectorTool_accepts f
  | TText _ => TextTool_accepts f
  | TMove | TDelete => false
  end.

(** [tool.toGeoJSON ? tool.toGeoJSON() : []] *)
Definition toGeoJSON (tool : ToolInst) : option (list json) :=
  match tool with
  | TPoints t => Some (PointsTool_toGeoJSON t)
  | TPolyline t => Some (PolylineTool_toGeoJSON t)
  | TPolygon t => PolygonTool_toGeoJSON t
  | TSector t => Some (SectorTool_toGeoJSON t)
  | TText t => Some (TextTool_toGeoJSON t)
  | TMove | TDelete => Some []
  end.

Definition fromGeoJSON (f : json) (tool : ToolInst) : option ToolInst :=
  match tool with
  | TPoints t => option_map TPoints (PointsTool_fromGeoJSON f t)
  | TPolyline t => option_map TPolyline (PolylineTool_fromGeoJSON f t)
  | TPolygon t => option_map TPolygon (PolygonTool_fromGeoJSON f t)
  | TSector t => option_map TSector (SectorTool_fromGeoJSON f t)
  | TText t => option_map TText (TextTool_fromGeoJSON f t)
  | TMove => Some TMove
  | TDelete => Some TDelete
  end.

End GeoJSON.

(** ** io/IOManager.js *)

Module IOManager.

(** [export()]: the features of the drawing tools in registry order;
    [now] is the time stamp [new Date().toISOString()].  [None] when a
    [toGeoJSON] raises (the method then reports the failure and returns
    [null]). *)
Definition export (now : string) (tm : ToolManager.t) : option json :=
  match traverse (fun o => GeoJSON.toGeoJSON (snd o))
                 (ToolManager.getDrawingTools tm) with
  | Some features =>
      Some (JObj [("type", JStr "FeatureCollection");
                  ("features", JArr (concat features));
                  ("properties", JObj [("exported", JStr now);
                                       ("version", JStr "1.0")])])
  | None => None
  end.

(** The first tool, in the order of [getAllTools()], whose class accepts
    the feature.  Every [accepts] reads [feature.geometry], which raises
    when the feature is [null]. *)
Inductive Search : Type :=
| Found (tool : ToolObj)
| NotFound
| Raised.

Fixpoint firstAccepting (f : json) (tools : list ToolObj) : Search :=
  match tools with
  | [] => NotFound
  | (ref, tool) :: rest =>
      if GeoJSON.hasAccepts tool && isNull f then Raised
      else if GeoJSON.accepts tool f then Found (ref, tool)
      else firstAccepting f rest
  end.

(** The loop over [geojson.features]: the array [tools] holds the tool
    objects themselves, so each feature meets the tools in the state the
    earlier features left them in. *)
Fixpoint importFeatures (features : list json) (tm : ToolManager.t)
         (count : nat) : option (ToolManager.t * nat) :=
  match features with
  | [] => Some (tm, count)
  | f :: rest =>
      match firstAccepting f (ToolManager.getAllTools tm) with
      | Found (ref, tool) =>
          match GeoJSON.fromGeoJSON f tool with
          | Some tool' =>
              importFeatures rest
                (ToolManager.updateTool ref (fun _ => tool') tm)
                (S count)
          | None => None
          end
      | NotFound => importFeatures rest tm count
      | Raised => None
      end
  end.

(** [importGeoJSON(geojson)]: the tool manager after the import and the
    number of features imported; [None] when the import raises or meets
    a value outside the model. *)
Definition importGeoJSON (geojson : json) (tm : ToolManager.t)
  : option (ToolManager.t * nat) :=
  if negb (isStr "FeatureCollection" (prop "type" (Some geojson)))
  then Some (tm, O)
  else
    match prop "features" (Some geojson) with
    | Some (JArr features) => importFeatures features tm O
    | _ => None
    end.

Definition validateGeoJSON (j : json) : bool :=
  match j with
  | JObj _ =>
      isStr "FeatureCollection" (prop "type" (Some j)) &&
      match prop "features" (Some j) with
      | Some (JArr _) => true
      | _ => false
      end
  | _ => false
  end.

End IOManager.

(** ** main.js: the registry the application builds *)

Definition mainRegistry (points : PointsTool.t) (line : PolylineTool.t)
           (polygon : PolygonTool.t) (sector : SectorTool.t)
           (text : TextTool.t) : ToolManager.t :=
  ToolManager.register "delete" (Some TDelete)
   (ToolManager.register "move" (Some TMove)
    (ToolManager.register "text" (Some (TText text))
     (ToolManager.register "sector" (Some (TSector sector))
      (ToolManager.register "polygon" (Some (TPolygon polygon))
       (ToolManager.register "line" (Some (TPolyline line))
        (ToolManager.register "points" (Some (TPoints points))
         (ToolManager.register "explore" None ToolManager.create))))))).

Definition freshRegistry : ToolManager.t :=
  mainRegistry PointsTool.create PolylineTool.create PolygonTool.create
               SectorTool.create TextTool.create.

(** * Vocabulary of the statements *)

(** ** Paths on screen *)

(** The pixel half-way between two pixels. *)
Definition midpointPx (a b : Px) : Px :=
  mkPx ((x a + x b) / 2) ((y a + y b) / 2).

(** The consecutive pairs of a list: the segments of an open path. *)
Fixpoint segments {A : Type} (l : list A) : list (A * A) :=
  match l with
  | a :: (b :: _) as rest => (a, b) :: segments rest
  | _ => []
  end.

(** The segment test of the hit detector, on a pair of vertices. *)
Definition segmentHit (hd : HitDetector.t) (mousePx : Px)
           (ab : LatLng * LatLng) : bool :=
  Rltb (distToSegment mousePx
          (HitDetector.latLngToScreen hd (fst ab))
          (HitDetector.latLngToScreen hd (snd ab)))
       (HitDetector.tolerance hd).


(** ** A flat map and sample entities *)

(** A map widget that shows one degree as one pixel. *)
Definition flatProjection (latlng : LatLng) : Px :=
  mkPx (lng latlng) (lat latlng).

Definition flatDetector : HitDetector.t := HitDetector.create flatProjection.

Definition sampleLine : LineItem := {|
  l_points := [ {| v_lat := 0; v_lng := 0; v_elev := None |};
                {| v_lat := 0; v_lng := 10; v_elev := None |} ];
  l_color := "black"; l_style := "solid" |}.

(** A triangle with its corners at the pixels (0,0), (80,0) and (0,80), and
    a pointer at pixel (0,40), the middle of the edge that closes it. *)
Definition sampleTriangle : PolygonItem := {|
  g_points := [ mkLatLng 0 0; mkLatLng 0 80; mkLatLng 80 0 ];
  g_color := "green"; g_alpha := 25 / 100 |}.

Definition closingPointer : LatLng := mkLatLng 40 0.

(** ** Lengths, candidates, drafts *)

(** The sum of the great-circle distances of consecutive vertices. *)
Fixpoint sumDistances (segs : list (LatLng * LatLng)) : R :=
  match segs with
  | [] => 0
  | ab :: rest => distance (fst ab) (snd ab) + sumDistances rest
  end.

(** The tools the move and delete tools hand to the hit detector. *)
Definition candidates (tm : ToolManager.t) : list ToolObj :=
  filter (fun o => negb (isMoveTool (snd o))) (ToolManager.getAllTools tm).

(** Two tool objects with the same identity and the same committed
    collection; draft and hover state are free. *)
Definition sameCommitted (o o' : ToolObj) : Prop :=
  fst o = fst o' /\ tool_items (snd o) = tool_items (snd o').

(** [BaseTool.cancel()], dispatched on the class of the tool. *)
Definition tool_cancel (tool : ToolInst) : ToolInst :=
  match tool with
  | TPoints t => TPoints (PointsTool.cancel t)
  | TPolyline t => TPolyline (PolylineTool.cancel t)
  | TPolygon t => TPolygon (PolygonTool.cancel t)
  | TSector t => TSector (SectorTool.cancel t)
  | TText t => TText (TextTool.cancel t)
  | TMove => TMove
  | TDelete => TDelete
  end.

(** A line tool with one committed line and a draft of one vertex. *)
Definition pendingDraft : LineItem := {|
  l_points := [ {| v_lat := 1; v_lng := 1; v_elev := None |} ];
  l_color := "black"; l_style := "solid" |}.

Definition lineToolWithDraft : PolylineTool.t := {|
  PolylineTool.lines := [sampleLine];
  PolylineTool._draft := Some pendingDraft;
  PolylineTool._hover := None |}.

(** ** main.js: the pointer events of a drag *)

(** main.js while the move tool is the active tool: pointer-down and
    pointer-move go to [onMouseDown] and [onMouseMove], pointer-up to
    [finish]. *)
Record World : Type := {
  registry : ToolManager.t;
  moveTool : MoveTool.t
}.

Definition pointerDown (hd : HitDetector.t) (latlng : LatLng) (w : World)
  : World :=
  {| registry := registry w;
     moveTool := MoveTool.onMouseDown hd latlng (registry w) (moveTool w) |}.

Definition pointerMove (latlng : LatLng) (w : World) : option World :=
  match MoveTool.onMouseMove latlng (registry w) (moveTool w) with
  | Some tm => Some {| registry := tm; moveTool := moveTool w |}
  | None => None
  end.

Definition pointerUp (w : World) : World :=
  {| registry := registry w; moveTool := MoveTool.finish (moveTool w) |}.

Fixpoint pointerMoves (path : list LatLng) (w : World) : option World :=
  match path with
  | [] => Some w
  | latlng :: rest =>
      match pointerMove latlng w with
      | Some w' => pointerMoves rest w'
      | None => None
      end
  end.

(** A complete drag: pointer-down at [start], pointer-move events along
    [path], pointer-up. *)
Definition drag (hd : HitDetector.t) (start : LatLng) (path : list LatLng)
           (w : World) : option World :=
  option_map pointerUp (pointerMoves path (pointerDown hd start w)).


(** ** Displacement of an entity *)

(** An entity displaced by [(dLat, dLng)]: the coordinate of a point or a
    text, the centre of a sector, every vertex of a line or a polygon. *)
Definition translateVertex (dLat dLng : R) (v : LineVertex) : LineVertex :=
  {| v_lat := v_lat v + dLat; v_lng := v_lng v + dLng; v_elev := v_elev v |}.

Definition translateLatLng (dLat dLng : R) (v : LatLng) : LatLng :=
  mkLatLng (lat v + dLat) (lng v + dLng).

Definition translate (item : Item) (dLat dLng : R) : Item :=
  match item with
  | IPoint p =>
      IPoint {| p_lat := p_lat p + dLat; p_lng := p_lng p + dLng;
                p_elev := p_elev p; p_color := p_color p;
                p_symbol := p_symbol p |}
  | IText t =>
      IText {| t_lat := t_lat t + dLat; t_lng := t_lng t + dLng;
               t_text := t_text t; t_value := t_value t;
               t_color := t_color t; t_size := t_size t |}
  | ILine l =>
      ILine {| l_points := map (translateVertex dLat dLng) (l_points l);
               l_color := l_color l; l_style := l_style l |}
  | IPolygon g =>
      IPolygon {| g_points := map (translateLatLng dLat dLng) (g_points g);
                  g_color := g_color g; g_alpha := g_alpha g |}
  | ISector s =>
      ISector {| s_center := translateLatLng dLat dLng (s_center s);
                 s_radius := s_radius s; s_bearing := s_bearing s;
                 s_elev := s_elev s; s_color := s_color s;
                 s_angle := s_angle s |}
  end.

(** An entity with its position forgotten: what two states of the same
    entity during a drag have in common. *)
Definition unplaced (item : Item) : Item :=
  match item with
  | IPoint p =>
      IPoint {| p_lat := 0; p_lng := 0; p_elev := p_elev p;
                p_color := p_color p; p_symbol := p_symbol p |}
  | IText t =>
      IText {| t_lat := 0; t_lng := 0; t_text := t_text t;
               t_value := t_value t; t_color := t_color t;
               t_size := t_size t |}
  | ILine l =>
      ILine {| l_points :=
                 map (fun v => {| v_lat := 0; v_lng := 0; v_elev := v_elev v |})
                     (l_points l);
               l_color := l_color l; l_style := l_style l |}
  | IPolygon g =>
      IPolygon {| g_points := map (fun _ => mkLatLng 0 0) (g_points g);
                  g_color := g_color g; g_alpha := g_alpha g |}
  | ISector s =>
      ISector {| s_center := mkLatLng 0 0;
                 s_radius := s_radius s; s_bearing := s_bearing s;
                 s_elev := s_elev s; s_color := s_color s;
                 s_angle := s_angle s |}
  end.

Definition samplePoint : PointItem := {|
  p_lat := 0; p_lng := 0; p_elev := None;
  p_color := "black"; p_symbol := "circle" |}.

Definition sampleWorld : World := {|
  registry :=
    mainRegistry {| PointsTool.points := [samplePoint] |} PolylineTool.create
                 PolygonTool.create SectorTool.create TextTool.create;
  moveTool := MoveTool.create |}.


(** ** The round trip through the document *)









(** ** Vocabulary of the further properties *)

(** The quantity under the square roots of [distance]. *)
Definition haversine (a b : LatLng) : R :=
  sin (toRad (lat b - lat a) / 2) * sin (toRad (lat b - lat a) / 2) +
  cos (toRad (lat a)) * cos (toRad (lat b)) *
  sin (toRad (lng b - lng a) / 2) * sin (toRad (lng b - lng a) / 2).




(** The axis-parallel rectangle between two corners, listed around. *)
Definition rectangle (south west north east : R) : list LatLng :=
  [ mkLatLng south west; mkLatLng south east;
    mkLatLng north east; mkLatLng north west ].



(** The place an entity was found at: the tool and the index in its
    collection. *)
Definition pickPlace (h : HitDetector.PickHit) : ToolRef * nat :=
  (HitDetector.ph_tool h, HitDetector.ph_index h).

Definition deletePlace (h : HitDetector.DeleteHit) : ToolRef * nat :=
  (HitDetector.dh_tool h, HitDetector.dh_index h).

Definition pickFound (h : HitDetector.PickHit) : Item * ToolRef :=
  (HitDetector.ph_item h, HitDetector.ph_tool h).

Definition areaFound (h : HitDetector.AreaHit) : Item * ToolRef :=
  (HitDetector.ah_item h, HitDetector.ah_tool h).

(** The calls that change a registry. *)
Inductive RegistryCall : Type :=
| Register (name : string) (tool : option ToolInst)
| Unregister (name : string)
| SetActive (name : string).

Definition call (c : RegistryCall) (tm : ToolManager.t) : ToolManager.t :=
  match c with
  | Register name tool => ToolManager.register name tool tm
  | Unregister name => ToolManager.unregister name tm
  | SetActive name => fst (fst (ToolManager.setActive name tm))
  end.

(** A registry after a sequence of calls on a new [ToolManager]. *)
Definition calls (cs : list RegistryCall) : ToolManager.t :=
  fold_left (fun tm c => call c tm) cs ToolManager.create.

(** What every registry built by calls has in common: the registration
    order lists the names of the map, once each, and the active name, if
    any, is a registered one. *)
Definition consistent (tm : ToolManager.t) : Prop :=
  ToolManager.registrationOrder tm = ToolManager.getAllToolNames tm /\
  NoDup (ToolManager.registrationOrder tm) /\
  match ToolManager.getActiveName tm with
  | Some a => ToolManager.hasTool a tm = true
  | None => True
  end.

(** The state of the application: the registry main.js builds around the
    five entity tools, in some mode. *)
Definition application (mode : string) (points : PointsTool.t)
           (line : PolylineTool.t) (polygon : PolygonTool.t)
           (sector : SectorTool.t) (text : TextTool.t) : AppState.t :=
  {| AppState.toolManager := mainRegistry points line polygon sector text;
     AppState.styleManager := StyleManager.getDefaults;
     AppState.currentMode := mode |}.

(** ** Drawing sessions *)

(** What the user does while a line or a polygon is drawn: a click, with
    the styles the style manager holds at that moment, or a pointer move. *)
Inductive DrawEvent : Type :=
| Click (st : Styles) (latlng : LatLng)
| Hover (latlng : LatLng).

Definition lineEvent (tool : PolylineTool.t) (e : DrawEvent) : PolylineTool.t :=
  match e with
  | Click st latlng => PolylineTool.add st latlng tool
  | Hover latlng => PolylineTool.onMouseMove latlng tool
  end.

Definition polygonEvent (tool : PolygonTool.t) (e : DrawEvent) : PolygonTool.t :=
  match e with
  | Click st latlng => PolygonTool.add st latlng tool
  | Hover latlng => PolygonTool.onMouseMove latlng tool
  end.

(** The places clicked, in order. *)
Fixpoint clicked (es : list DrawEvent) : list LatLng :=
  match es with
  | [] => []
  | Click _ latlng :: rest => latlng :: clicked rest
  | Hover _ :: rest => clicked rest
  end.

(** The styles at the first click. *)
Fixpoint firstStyles (es : list DrawEvent) : option Styles :=
  match es with
  | [] => None
  | Click st _ :: _ => Some st
  | Hover _ :: rest => firstStyles rest
  end.

Definition vertexAt (latlng : LatLng) : LineVertex :=
  {| v_lat := lat latlng; v_lng := lng latlng; v_elev := None |}.

(** The line and the polygon a session draws. *)
Definition drawnLine (es : list DrawEvent) : option LineItem :=
  match firstStyles es with
  | Some st =>
      Some {| l_points := map vertexAt (clicked es);
              l_color := ls_color (StyleManager.line st);
              l_style := ls_style (StyleManager.line st) |}
  | None => None
  end.

Definition drawnPolygon (es : list DrawEvent) : option PolygonItem :=
  match firstStyles es with
  | Some st =>
      Some {| g_points := map (fun p => mkLatLng (lat p) (lng p)) (clicked es);
              g_color := gs_color (StyleManager.polygon st);
              g_alpha := gs_alpha (StyleManager.polygon st) |}
  | None => None
  end.

(** What happens between the two clicks of a sector: pointer moves and
    changes of the opening angle. *)
Inductive SectorEvent : Type :=
| Aim (latlng : LatLng)
| Angle (deg : R).

Definition sectorEvent (s : Styles * SectorTool.t) (e : SectorEvent)
  : Styles * SectorTool.t :=
  match e with
  | Aim latlng => (fst s, SectorTool.onMouseMove latlng (snd s))
  | Angle deg => SectorTool.setAngle deg (fst s) (snd s)
  end.

(** The last place aimed at and the last angle set, with a default. *)
Fixpoint lastAim (es : list SectorEvent) (default : option LatLng)
  : option LatLng :=
  match es with
  | [] => default
  | Aim latlng :: rest => lastAim rest (Some latlng)
  | Angle _ :: rest => lastAim rest default
  end.

Fixpoint lastAngle (es : list SectorEvent) (default : R) : R :=
  match es with
  | [] => default
  | Aim _ :: rest => lastAngle rest default
  | Angle deg :: rest => lastAngle rest deg
  end.

(** ** Documents *)

(** [tool.constructor.name] *)
Definition toolClass (tool : ToolInst) : string :=
  match tool with
  | TPoints _ => "PointsTool"
  | TPolyline _ => "PolylineTool"
  | TPolygon _ => "PolygonTool"
  | TSector _ => "SectorTool"
  | TText _ => "TextTool"
  | TMove => "MoveTool"
  | TDelete => "DeleteTool"
  end.

(** A feature collection with the given features. *)
Definition collection (features : list json) : json :=
  JObj [("type", JStr "FeatureCollection"); ("features", JArr features)].

(** A polygon feature with one ring and no properties. *)
Definition ringFeature (ring : list json) : json :=
  GeoJSON.feature
    (JObj [("type", JStr "Polygon"); ("coordinates", JArr [JArr ring])])
    (JObj []).

(** A point feature with no properties. *)
Definition pointFeature (ln la : R) : json :=
  GeoJSON.feature
    (JObj [("type", JStr "Point"); ("coordinates", position ln la)])
    (JObj []).

(** A tool that has kept its draft and at most gained entities at the end
    of its collection. *)
Definition appendedTo (tool tool' : ToolInst) : Prop :=
  tool_draft tool' = tool_draft tool /\
  exists added,
    tool_items tool' = option_map (fun items => items ++ added) (tool_items tool).

(** A registry with the same names, the same active tool, and every tool
    at most appended to. *)
Definition grownFrom (tm tm' : ToolManager.t) : Prop :=
  ToolManager.getAllToolNames tm' = ToolManager.getAllToolNames tm /\
  ToolManager.registrationOrder tm' = ToolManager.registrationOrder tm /\
  ToolManager.getActiveName tm' = ToolManager.getActiveName tm /\
  forall ref,
    match ToolManager.getTool ref tm with
    | Some tool =>
        exists tool', ToolManager.getTool ref tm' = Some tool' /\
                      appendedTo tool tool'
    | None => ToolManager.getTool ref tm' = None
    end.

(** * Properties *)

(** ** Comparisons and distances *)

Lemma Rltb_true (a b : R) : Rltb a b = true <-> a < b.
Proof. unfold Rltb. destruct (Rlt_dec a b); split; auto; discriminate. Qed.

Lemma Rltb_false (a b : R) : Rltb a b = false <-> b <= a.
Proof.
  unfold Rltb. destruct (Rlt_dec a b); split; intro H; try discriminate; auto.
  - lra.
  - lra.
Qed.

Lemma Reqb_true (a b : R) : Reqb a b = true <-> a = b.
Proof. unfold Reqb. destruct (Req_dec_T a b); split; auto; discriminate. Qed.

Lemma Reqb_false (a b : R) : Reqb a b = false <-> a <> b.
Proof.
  unfold Reqb. destruct (Req_dec_T a b); split; intro H; auto.
  - discriminate.
  - contradiction.
Qed.

Lemma hypot_0_0 : hypot 0 0 = 0.
Proof. unfold hypot. replace (0 * 0 + 0 * 0) with 0 by ring. apply sqrt_0. Qed.

Lemma hypot_nonneg (a b : R) : 0 <= hypot a b.
Proof. apply sqrt_pos. Qed.

Lemma hypot_lower (c a b : R) :
  0 <= c -> c * c <= a * a + b * b -> c <= hypot a b.
Proof.
  intros Hc Hle. unfold hypot.
  rewrite <- (sqrt_square c Hc). now apply sqrt_le_1_alt.
Qed.

Lemma distToSegment_nonneg (p a b : Px) : 0 <= distToSegment p a b.
Proof.
  unfold distToSegment.
  destruct (Reqb (x b - x a) 0 && Reqb (y b - y a) 0); apply hypot_nonneg.
Qed.

Lemma distToSegment_midpoint (a b : Px) :
  distToSegment (midpointPx a b) a b = 0.
Proof.
  unfold distToSegment, midpointPx. cbn [x y].
  destruct (Reqb (x b - x a) 0 && Reqb (y b - y a) 0) eqn:E.
  - apply andb_prop in E. destruct E as [Ex Ey].
    apply Reqb_true in Ex. apply Reqb_true in Ey.
    replace ((x a + x b) / 2 - x a) with 0 by lra.
    replace ((y a + y b) / 2 - y a) with 0 by lra.
    apply hypot_0_0.
  - assert (Hd : (x b - x a) * (x b - x a) + (y b - y a) * (y b - y a) <> 0).
    { intro Hz. apply andb_false_iff in E.
      destruct E as [E | E]; apply Reqb_false in E; apply E.
      - exact (proj1 (Rplus_sqr_eq_0 _ _ Hz)).
      - exact (proj2 (Rplus_sqr_eq_0 _ _ Hz)). }
    set (dx := x b - x a) in *. set (dy := y b - y a) in *.
    replace ((((x a + x b) / 2 - x a) * dx + ((y a + y b) / 2 - y a) * dy)
             / (dx * dx + dy * dy)) with (1 / 2)
      by (subst dx dy; field; exact Hd).
    rewrite (Rmin_right 1 (1 / 2)) by lra.
    rewrite (Rmax_right 0 (1 / 2)) by lra.
    replace ((x a + x b) / 2 - (x a + 1 / 2 * dx)) with 0 by (subst dx; lra).
    replace ((y a + y b) / 2 - (y a + 1 / 2 * dy)) with 0 by (subst dy; lra).
    apply hypot_0_0.
Qed.

(** ** Loops over consecutive vertices *)

Lemma index_pairs_segments (points : list LatLng) :
  map (fun i => (at_ points i, at_ points (i + 1)))
      (seq 0 (length points - 1)) = segments points.
Proof.
  induction points as [| a rest IH]; [reflexivity |].
  destruct rest as [| b rest']; [reflexivity |].
  replace (length (a :: b :: rest') - 1)%nat
    with (S (length (b :: rest') - 1)) by (cbn [length]; lia).
  cbn [seq map]. rewrite <- seq_shift, map_map.
  change (segments (a :: b :: rest')) with ((a, b) :: segments (b :: rest')).
  f_equal. rewrite <- IH.
  apply map_ext. intros i. reflexivity.
Qed.

Lemma existsb_via_map {A B : Type} (f : B -> bool) (g : A -> B) (l : list A) :
  existsb (fun a => f (g a)) l = existsb f (map g l).
Proof. induction l as [| a l IH]; cbn; [reflexivity | now rewrite IH]. Qed.

Lemma fold_left_via_map {A B : Type} (f : R -> B -> R) (g : A -> B)
      (l : list A) (acc : R) :
  fold_left (fun total a => f total (g a)) l acc = fold_left f (map g l) acc.
Proof.
  revert acc. induction l as [| a l IH]; intros acc; cbn; [reflexivity |].
  apply IH.
Qed.

(** What the loop of [hitTestPolyline] scans: the segments of the open
    path through the vertices, and nothing else. *)
Lemma hitTestPolyline_segments (hd : HitDetector.t) (points : list LatLng)
      (mousePx : Px) :
  HitDetector.hitTestPolyline hd points mousePx =
  existsb (segmentHit hd mousePx) (segments points).
Proof.
  unfold HitDetector.hitTestPolyline.
  destruct (length points <? 2)%nat eqn:E.
  - apply Nat.ltb_lt in E.
    destruct points as [| a [| b rest]]; cbn in *; try reflexivity; lia.
  - rewrite <- index_pairs_segments.
    rewrite <- existsb_via_map. reflexivity.
Qed.

Lemma hitTest_line (hd : HitDetector.t) (l : LineItem) (mousePx : Px) :
  HitDetector.hitTest hd (ILine l) mousePx =
  existsb (segmentHit hd mousePx) (segments (map vertexLatLng (l_points l))).
Proof. apply hitTestPolyline_segments. Qed.

(** A polygon is scanned like a line: its vertices in order, no segment
    from the last vertex back to the first. *)
Lemma hitTest_polygon (hd : HitDetector.t) (g : PolygonItem) (mousePx : Px) :
  HitDetector.hitTest hd (IPolygon g) mousePx =
  existsb (segmentHit hd mousePx) (segments (g_points g)).
Proof. apply hitTestPolyline_segments. Qed.





(** A lower bound of the distance to a segment from a lower bound of the
    distance to each of its points. *)
Lemma distToSegment_lower (c : R) (p a b : Px) :
  0 <= c ->
  (forall t, 0 <= t <= 1 ->
     c * c <=
     (x p - (x a + t * (x b - x a))) * (x p - (x a + t * (x b - x a))) +
     (y p - (y a + t * (y b - y a))) * (y p - (y a + t * (y b - y a)))) ->
  c <= distToSegment p a b.
Proof.
  intros Hc Hall. unfold distToSegment.
  destruct (Reqb (x b - x a) 0 && Reqb (y b - y a) 0).
  - apply hypot_lower; [exact Hc |].
    specialize (Hall 0 ltac:(lra)).
    replace (x a + 0 * (x b - x a)) with (x a) in Hall by ring.
    replace (y a + 0 * (y b - y a)) with (y a) in Hall by ring.
    exact Hall.
  - apply hypot_lower; [exact Hc |]. apply Hall. split.
    + apply Rmax_l.
    + apply Rmax_lub; [lra | apply Rmin_l].
Qed.



(** *** The closing segment of a polygon *)

(** C1, at the failing input.  The pointer lies on the closing segment of
    the triangle (at distance 0, within the tolerance of 8), and the hit
    test of the polygon answers [false]: [pick] and [pickForDelete] find
    nothing in a registry that holds the triangle. *)
Theorem polygon_closing_segment_missed :
  distToSegment (flatProjection closingPointer)
                (flatProjection (mkLatLng 80 0))
                (flatProjection (mkLatLng 0 0))
  < HitDetector.tolerance flatDetector /\
  HitDetector.hitTest flatDetector (IPolygon sampleTriangle)
                      (flatProjection closingPointer) = false /\
  HitDetector.pick flatDetector closingPointer
    (ToolManager.getAllTools
       (mainRegistry PointsTool.create PolylineTool.create
          {| PolygonTool.polygons := [sampleTriangle];
             PolygonTool._draft := None; PolygonTool._hover := None |}
          SectorTool.create TextTool.create)) = None.
Proof.
  assert (Hmiss :
    HitDetector.hitTest flatDetector (IPolygon sampleTriangle)
                        (flatProjection closingPointer) = false).
  { rewrite hitTest_polygon.
    cbn [segments sampleTriangle g_points existsb].
    unfold segmentHit. cbn [fst snd flatDetector HitDetector.create
                            HitDetector.latLngToScreen HitDetector.tolerance].
    assert (H1 : 8 <= distToSegment (flatProjection closingPointer)
                        (flatProjection (mkLatLng 0 0))
                        (flatProjection (mkLatLng 0 80))).
    { apply distToSegment_lower; [lra |].
      intros t Ht. unfold flatProjection, closingPointer. cbn [x y lat lng].
      nra. }
    assert (H2 : 8 <= distToSegment (flatProjection closingPointer)
                        (flatProjection (mkLatLng 0 80))
                        (flatProjection (mkLatLng 80 0))).
    { apply distToSegment_lower; [lra |].
      intros t Ht. unfold flatProjection, closingPointer. cbn [x y lat lng].
      pose proof (Rle_0_sqr (4 * t - 3)) as Hsq. unfold Rsqr in Hsq. nra. }
    apply Rltb_false in H1. apply Rltb_false in H2.
    rewrite H1, H2. reflexivity. }
  split; [| split].
  - assert (E : flatProjection closingPointer =
                midpointPx (flatProjection (mkLatLng 80 0))
                           (flatProjection (mkLatLng 0 0))).
    { unfold midpointPx, flatProjection, closingPointer. cbn [x y lat lng].
      f_equal; lra. }
    rewrite E, distToSegment_midpoint. cbn. lra.
  - exact Hmiss.
  - unfold HitDetector.pick.
    change (HitDetector.latLngToScreen flatDetector closingPointer)
      with (flatProjection closingPointer).
    cbn [mainRegistry ToolManager.register ToolManager.create
         ToolManager.set ToolManager.tools String.eqb Ascii.eqb Bool.eqb
         ToolManager.getAllTools ToolManager.entries length seq combine
         flat_map app HitDetector.pickPx HitDetector.extractItems tool_items
         map PointsTool.create PolylineTool.create SectorTool.create
         TextTool.create PointsTool.points PolylineTool.lines
         PolygonTool.polygons SectorTool.sectors TextTool.texts
         HitDetector.firstHit].
    rewrite Hmiss. reflexivity.
Qed.

(** ** Length of a line and its display *)

Lemma fold_left_sumDistances (segs : list (LatLng * LatLng)) (acc : R) :
  fold_left (fun total ab => total + distance (fst ab) (snd ab)) segs acc
  = acc + sumDistances segs.
Proof.
  revert acc. induction segs as [| ab rest IH]; intros acc; cbn [fold_left sumDistances].
  - ring.
  - rewrite IH. ring.
Qed.

Lemma polylineLength_sum (points : list LatLng) :
  polylineLength points = sumDistances (segments points).
Proof.
  unfold polylineLength.
  destruct (length points <? 2)%nat eqn:E.
  - apply Nat.ltb_lt in E.
    destruct points as [| a [| b rest]]; cbn in *; try reflexivity; lia.
  - rewrite <- index_pairs_segments.
    rewrite (fold_left_via_map
               (fun total ab => total + distance (fst ab) (snd ab))
               (fun i => (at_ points i, at_ points (i + 1)))).
    rewrite fold_left_sumDistances. ring.
Qed.


(** ** Draft and commit *)

(** C7. A polygon draft of exactly two vertices is discarded by [finish]
    and the collection stays as it was; a draft of exactly three vertices
    is appended to the collection.  The same holds of the drafts that two
    and three calls of [add] build. *)
Theorem polygon_finish_two_and_three
        (polygons : list PolygonItem) (hover : option LatLng)
        (color : string) (alpha : R) (a b c : LatLng) :
  PolygonTool.finish
    {| PolygonTool.polygons := polygons;
       PolygonTool._draft :=
         Some {| g_points := [a; b]; g_color := color; g_alpha := alpha |};
       PolygonTool._hover := hover |}
  = {| PolygonTool.polygons := polygons;
       PolygonTool._draft := None; PolygonTool._hover := None |} /\
  PolygonTool.finish
    {| PolygonTool.polygons := polygons;
       PolygonTool._draft :=
         Some {| g_points := [a; b; c]; g_color := color; g_alpha := alpha |};
       PolygonTool._hover := hover |}
  = {| PolygonTool.polygons :=
         polygons ++
         [{| g_points := [a; b; c]; g_color := color; g_alpha := alpha |}];
       PolygonTool._draft := None; PolygonTool._hover := None |} /\
  (forall st,
      PolygonTool.polygons
        (PolygonTool.finish
           (PolygonTool.add st b
              (PolygonTool.add st a
                 {| PolygonTool.polygons := polygons;
                    PolygonTool._draft := None;
                    PolygonTool._hover := hover |})))
      = polygons) /\
  (forall st,
      PolygonTool.polygons
        (PolygonTool.finish
           (PolygonTool.add st c
              (PolygonTool.add st b
                 (PolygonTool.add st a
                    {| PolygonTool.polygons := polygons;
                       PolygonTool._draft := None;
                       PolygonTool._hover := hover |}))))
      = polygons ++
        [{| g_points := [mkLatLng (lat a) (lng a); mkLatLng (lat b) (lng b);
                         mkLatLng (lat c) (lng c)];
            g_color := gs_color (StyleManager.polygon st);
            g_alpha := gs_alpha (StyleManager.polygon st) |}]).
Proof. repeat split. Qed.

(** C4, at the failing input.  A text draft fresh from [add] has no
    property [text] (the style snapshot calls it [value]), so [finish]
    raises a [TypeError] and leaves the tool as it was, the draft still
    pending; this holds for every style and every click. *)
Theorem text_finish_fresh_draft_raises
        (st : Styles) (latlng : LatLng) (this : TextTool.t) :
  TextTool.finish (TextTool.add st latlng this)
  = (TextTool.add st latlng this, TypeError) /\
  TextTool._draft (fst (TextTool.finish (TextTool.add st latlng this)))
  <> None.
Proof. split; [reflexivity | discriminate]. Qed.

(** The part of C4 the code keeps: a draft whose [text] is a string that
    trims to nothing is discarded without an error. *)
Lemma text_finish_blank_discards (this : TextTool.t) (d : TextItem) (s : string) :
  TextTool._draft this = Some d ->
  t_text d = Some s ->
  trim s = "" ->
  TextTool.finish this
  = ({| TextTool.texts := TextTool.texts this; TextTool._draft := None |},
     Normal).
Proof.
  intros Hd Ht Hs. unfold TextTool.finish. now rewrite Hd, Ht, Hs.
Qed.

(** ** The registry: reading and writing through references *)

Lemma In_combine_seq {A : Type} (l : list A) (s i : nat) (e : A) :
  In (i, e) (combine (seq s (length l)) l) ->
  (s <= i)%nat /\ nth_error l (i - s) = Some e.
Proof.
  revert s. induction l as [| a l IH]; intros s Hin; [destruct Hin |].
  cbn [length seq combine] in Hin. destruct Hin as [Heq | Hin].
  - injection Heq as <- <-. rewrite Nat.sub_diag. split; [lia | reflexivity].
  - apply IH in Hin. destruct Hin as [Hle Hnth]. split; [lia |].
    replace (i - s)%nat with (S (i - S s)) by lia. exact Hnth.
Qed.

Lemma getAllTools_getTool (tm : ToolManager.t) (ref : ToolRef) (tool : ToolInst) :
  In (ref, tool) (ToolManager.getAllTools tm) ->
  ToolManager.getTool ref tm = Some tool.
Proof.
  unfold ToolManager.getAllTools, ToolManager.entries, ToolManager.getTool.
  intros Hin. apply in_flat_map in Hin.
  destruct Hin as [[i [name [inst |]]] [Hin Hone]]; [| destruct Hone].
  destruct Hone as [Heq | []]. injection Heq as -> ->.
  apply In_combine_seq in Hin. destruct Hin as [_ Hnth].
  rewrite Nat.sub_0_r in Hnth. now rewrite Hnth.
Qed.

Lemma getDrawingTools_getAllTools (tm : ToolManager.t) (o : ToolObj) :
  In o (ToolManager.getDrawingTools tm) -> In o (ToolManager.getAllTools tm).
Proof.
  unfold ToolManager.getDrawingTools, ToolManager.getAllTools.
  intros Hin. apply in_flat_map in Hin. apply in_flat_map.
  destruct Hin as [[i [name [inst |]]] [Hin Hone]]; [| destruct Hone].
  exists (i, (name, Some inst)). split; [exact Hin |].
  destruct (negb (ToolManager.includes name ToolManager.excludeNames));
    [exact Hone | destruct Hone].
Qed.

Lemma nth_error_updateSlot (f : ToolInst -> ToolInst)
      (m : list (string * option ToolInst)) (r ref : nat) :
  nth_error (ToolManager.updateSlot r f m) ref =
  if Nat.eqb ref r
  then option_map (fun e => (fst e, option_map f (snd e))) (nth_error m ref)
  else nth_error m ref.
Proof.
  revert r ref. induction m as [| [k v] m IH]; intros r ref.
  - cbn [ToolManager.updateSlot].
    destruct (Nat.eqb ref r); destruct ref; reflexivity.
  - destruct r as [| r]; destruct ref as [| ref]; cbn; try reflexivity.
    apply IH.
Qed.

Lemma getTool_updateTool (f : ToolInst -> ToolInst) (tm : ToolManager.t)
      (r ref : ToolRef) :
  ToolManager.getTool ref (ToolManager.updateTool r f tm) =
  if Nat.eqb ref r then option_map f (ToolManager.getTool ref tm)
  else ToolManager.getTool ref tm.
Proof.
  unfold ToolManager.getTool, ToolManager.updateTool.
  cbn [ToolManager.tools]. rewrite nth_error_updateSlot.
  destruct (Nat.eqb ref r); [| reflexivity].
  destruct (nth_error (ToolManager.tools tm) ref) as [[k [v |]] |]; reflexivity.
Qed.

Lemma updateSlot_length (f : ToolInst -> ToolInst)
      (m : list (string * option ToolInst)) (r : nat) :
  length (ToolManager.updateSlot r f m) = length m.
Proof.
  revert r. induction m as [| [k v] m IH]; intros [| r]; cbn; auto.
Qed.

(** ** What the hit detector returns *)

Lemma firstHit_sound (hd : HitDetector.t) (mousePx : Px) (items : list Item)
      (i j : nat) (item : Item) :
  HitDetector.firstHit hd mousePx i items = Some (j, item) ->
  (i <= j)%nat /\ nth_error items (j - i) = Some item /\
  HitDetector.hitTest hd item mousePx = true.
Proof.
  revert i. induction items as [| it rest IH]; intros i H; [discriminate |].
  cbn [HitDetector.firstHit] in H.
  destruct (HitDetector.hitTest hd it mousePx) eqn:E.
  - injection H as <- <-. rewrite Nat.sub_diag. auto.
  - apply IH in H. destruct H as [Hle [Hnth Hhit]].
    split; [lia |]. split; [| exact Hhit].
    replace (j - i)%nat with (S (j - S i)) by lia. exact Hnth.
Qed.

Lemma pickPx_sound (hd : HitDetector.t) (mousePx : Px) (tools : list ToolObj)
      (hit : HitDetector.PickHit) :
  HitDetector.pickPx hd mousePx tools = Some hit ->
  exists tool,
    In (HitDetector.ph_tool hit, tool) tools /\
    nth_error (HitDetector.extractItems tool) (HitDetector.ph_index hit)
    = Some (HitDetector.ph_item hit) /\
    HitDetector.hitTest hd (HitDetector.ph_item hit) mousePx = true.
Proof.
  induction tools as [| [ref tool] rest IH]; intros H; [discriminate |].
  cbn [HitDetector.pickPx] in H.
  destruct (HitDetector.firstHit hd mousePx 0 (HitDetector.extractItems tool))
    as [[i item] |] eqn:E.
  - injection H as <-. cbn. apply firstHit_sound in E.
    destruct E as [_ [Hnth Hhit]]. rewrite Nat.sub_0_r in Hnth.
    exists tool. auto.
  - destruct (IH H) as [tool' [Hin Hrest]]. exists tool'. split; [now right | exact Hrest].
Qed.

Lemma pickForDeletePx_sound (hd : HitDetector.t) (mousePx : Px)
      (tools : list ToolObj) (hit : HitDetector.DeleteHit) :
  HitDetector.pickForDeletePx hd mousePx tools = Some hit ->
  exists tool items item,
    In (HitDetector.dh_tool hit, tool) tools /\
    tool_items tool = Some items /\
    nth_error items (HitDetector.dh_index hit) = Some item /\
    HitDetector.hitTest hd item mousePx = true.
Proof.
  induction tools as [| [ref tool] rest IH]; intros H; [discriminate |].
  cbn [HitDetector.pickForDeletePx] in H.
  unfold HitDetector.extractList in H.
  destruct (tool_items tool) as [items |] eqn:Eitems.
  - destruct (HitDetector.firstHit hd mousePx 0 items) as [[i item] |] eqn:E.
    + injection H as <-. cbn. apply firstHit_sound in E.
      destruct E as [_ [Hnth Hhit]]. rewrite Nat.sub_0_r in Hnth.
      exists tool, items, item. auto.
    + destruct (IH H) as [t' [is' [it' [Hin Hrest]]]].
      exists t', is', it'. split; [now right | exact Hrest].
  - destruct (IH H) as [t' [is' [it' [Hin Hrest]]]].
    exists t', is', it'. split; [now right | exact Hrest].
Qed.

(** ** Delete *)

Lemma splice1_map {A B : Type} (f : A -> B) (i : nat) (l : list A) :
  map f (splice1 i l) = splice1 i (map f l).
Proof. unfold splice1. now rewrite map_app, firstn_map, skipn_map. Qed.

Lemma splice1_length {A : Type} (i : nat) (l : list A) :
  (i < length l)%nat -> S (length (splice1 i l)) = length l.
Proof.
  intros Hi. unfold splice1.
  rewrite length_app, length_firstn, length_skipn. lia.
Qed.

Lemma tool_items_spliceItems (i : nat) (tool : ToolInst) :
  tool_items (spliceItems i tool) = option_map (splice1 i) (tool_items tool).
Proof.
  destruct tool; cbn; try reflexivity; now rewrite splice1_map.
Qed.

Lemma tool_draft_spliceItems (i : nat) (tool : ToolInst) :
  tool_draft (spliceItems i tool) = tool_draft tool.
Proof. destruct tool; reflexivity. Qed.

Lemma candidates_getTool (tm : ToolManager.t) (ref : ToolRef) (tool : ToolInst) :
  In (ref, tool) (candidates tm) -> ToolManager.getTool ref tm = Some tool.
Proof.
  unfold candidates. intros Hin. apply filter_In in Hin.
  now apply getAllTools_getTool.
Qed.

(** C8. When [pickForDelete] resolves a hit at an index of a collection,
    the delete action leaves that collection with exactly the entity at
    that index taken out, the others in their order (the entities before
    the index, then the entities after it), and leaves every other tool
    as it was; the draft of the owning tool is untouched.  When nothing is
    hit, the tool manager is unchanged. *)
Theorem delete_removes_exactly_the_hit
        (hd : HitDetector.t) (latlng : LatLng) (tm : ToolManager.t) :
  (forall hit,
      HitDetector.pickForDelete hd latlng (candidates tm) = Some hit ->
      exists tool items item tool',
        ToolManager.getTool (HitDetector.dh_tool hit) tm = Some tool /\
        tool_items tool = Some items /\
        nth_error items (HitDetector.dh_index hit) = Some item /\
        ToolManager.getTool (HitDetector.dh_tool hit)
          (DeleteTool.add hd latlng tm) = Some tool' /\
        tool_items tool' =
          Some (firstn (HitDetector.dh_index hit) items ++
                skipn (S (HitDetector.dh_index hit)) items) /\
        S (length (firstn (HitDetector.dh_index hit) items ++
                   skipn (S (HitDetector.dh_index hit)) items))
          = length items /\
        tool_draft tool' = tool_draft tool /\
        (forall ref, ref <> HitDetector.dh_tool hit ->
           ToolManager.getTool ref (DeleteTool.add hd latlng tm)
           = ToolManager.getTool ref tm)) /\
  (HitDetector.pickForDelete hd latlng (candidates tm) = None ->
   DeleteTool.add hd latlng tm = tm).
Proof.
  split.
  - intros hit Hpick.
    assert (Hadd : DeleteTool.add hd latlng tm =
                   ToolManager.updateTool (HitDetector.dh_tool hit)
                     (spliceItems (HitDetector.dh_index hit)) tm).
    { unfold DeleteTool.add. fold (candidates tm). now rewrite Hpick. }
    unfold HitDetector.pickForDelete in Hpick.
    apply pickForDeletePx_sound in Hpick.
    destruct Hpick as [tool [items [item [Hin [Hitems [Hnth _]]]]]].
    apply candidates_getTool in Hin.
    exists tool, items, item, (spliceItems (HitDetector.dh_index hit) tool).
    rewrite Hadd. repeat split.
    + exact Hin.
    + exact Hitems.
    + exact Hnth.
    + rewrite getTool_updateTool, Nat.eqb_refl, Hin. reflexivity.
    + rewrite tool_items_spliceItems, Hitems. reflexivity.
    + apply (splice1_length (HitDetector.dh_index hit) items).
      apply nth_error_Some. rewrite Hnth. discriminate.
    + apply tool_draft_spliceItems.
    + intros ref Hne. rewrite getTool_updateTool.
      apply Nat.eqb_neq in Hne. now rewrite Hne.
  - intros Hpick. unfold DeleteTool.add. fold (candidates tm).
    now rewrite Hpick.
Qed.

(** ** Drafts and picking *)

Lemma extractItems_sameCommitted (o o' : ToolObj) :
  sameCommitted o o' ->
  HitDetector.extractItems (snd o) = HitDetector.extractItems (snd o').
Proof. intros [_ H]. unfold HitDetector.extractItems. now rewrite H. Qed.

Lemma pickPx_sameCommitted (hd : HitDetector.t) (mousePx : Px)
      (tools tools' : list ToolObj) :
  Forall2 sameCommitted tools tools' ->
  HitDetector.pickPx hd mousePx tools' = HitDetector.pickPx hd mousePx tools.
Proof.
  induction 1 as [| [r t] [r' t'] tools tools' Hsame _ IH]; [reflexivity |].
  cbn [HitDetector.pickPx].
  pose proof (extractItems_sameCommitted _ _ Hsame) as E. cbn [snd] in E.
  destruct Hsame as [Hr _]. cbn in Hr. subst r'. now rewrite <- E, IH.
Qed.

Lemma pickForDeletePx_sameCommitted (hd : HitDetector.t) (mousePx : Px)
      (tools tools' : list ToolObj) :
  Forall2 sameCommitted tools tools' ->
  HitDetector.pickForDeletePx hd mousePx tools'
  = HitDetector.pickForDeletePx hd mousePx tools.
Proof.
  induction 1 as [| [r t] [r' t'] tools tools' Hsame _ IH]; [reflexivity |].
  cbn [HitDetector.pickForDeletePx]. unfold HitDetector.extractList.
  destruct Hsame as [Hr Hi]. cbn in Hr, Hi. subst r'. now rewrite <- Hi, IH.
Qed.

Lemma flat_map_sameCommitted {B : Type} (f : ToolRef -> list Item -> list B)
      (tools tools' : list ToolObj) :
  Forall2 sameCommitted tools tools' ->
  flat_map (fun '(ref, tool) => f ref (HitDetector.extractItems tool)) tools'
  = flat_map (fun '(ref, tool) => f ref (HitDetector.extractItems tool)) tools.
Proof.
  induction 1 as [| [r t] [r' t'] tools tools' Hsame _ IH]; [reflexivity |].
  cbn [flat_map].
  pose proof (extractItems_sameCommitted _ _ Hsame) as E. cbn [snd] in E.
  destruct Hsame as [Hr _]. cbn in Hr. subst r'. now rewrite <- E, IH.
Qed.

Lemma areaHits_committed (keep : Item -> bool) (tools : list ToolObj)
      (h : HitDetector.AreaHit) :
  In h (flat_map
          (fun '(ref, tool) =>
             map (fun item => {| HitDetector.ah_item := item;
                                 HitDetector.ah_tool := ref |})
                 (filter keep (HitDetector.extractItems tool)))
          tools) ->
  exists tool,
    In (HitDetector.ah_tool h, tool) tools /\
    In (HitDetector.ah_item h) (HitDetector.extractItems tool).
Proof.
  intros Hin. apply in_flat_map in Hin.
  destruct Hin as [[ref tool] [Hin Hh]].
  apply in_map_iff in Hh. destruct Hh as [item [<- Hitem]].
  apply filter_In in Hitem. exists tool. cbn. tauto.
Qed.

(** C10. The four picking functions scan committed collections only.
    Their results do not depend on the draft (or hover) state of any tool:
    they are the same on any tools with the same committed collections.
    And whatever they return is stored in the committed collection of one
    of the tools scanned: [pick] and [pickForDelete] return a place inside
    such a collection, [pickAll] and [pickInBounds] members of them. *)
Theorem picks_ignore_drafts (hd : HitDetector.t) (tools : list ToolObj) :
  (forall tools',
      Forall2 sameCommitted tools tools' ->
      (forall latlng,
          HitDetector.pick hd latlng tools' = HitDetector.pick hd latlng tools) /\
      (forall latlng,
          HitDetector.pickForDelete hd latlng tools'
          = HitDetector.pickForDelete hd latlng tools) /\
      (forall latlng,
          HitDetector.pickAll hd latlng tools'
          = HitDetector.pickAll hd latlng tools) /\
      (forall bounds,
          HitDetector.pickInBounds bounds tools'
          = HitDetector.pickInBounds bounds tools)) /\
  Forall2 sameCommitted tools
          (map (fun o => (fst o, tool_cancel (snd o))) tools) /\
  (forall latlng hit,
      HitDetector.pick hd latlng tools = Some hit ->
      exists tool items,
        In (HitDetector.ph_tool hit, tool) tools /\
        tool_items tool = Some items /\
        nth_error items (HitDetector.ph_index hit)
        = Some (HitDetector.ph_item hit)) /\
  (forall latlng hit,
      HitDetector.pickForDelete hd latlng tools = Some hit ->
      exists tool items,
        In (HitDetector.dh_tool hit, tool) tools /\
        tool_items tool = Some items /\
        (HitDetector.dh_index hit < length items)%nat) /\
  (forall latlng h,
      In h (HitDetector.pickAll hd latlng tools) ->
      exists tool items,
        In (HitDetector.ah_tool h, tool) tools /\
        tool_items tool = Some items /\
        In (HitDetector.ah_item h) items) /\
  (forall bounds h,
      In h (HitDetector.pickInBounds bounds tools) ->
      exists tool items,
        In (HitDetector.ah_tool h, tool) tools /\
        tool_items tool = Some items /\
        In (HitDetector.ah_item h) items).
Proof.
  assert (Hitems : forall tool item,
             In item (HitDetector.extractItems tool) ->
             exists items, tool_items tool = Some items /\ In item items).
  { intros tool item. unfold HitDetector.extractItems.
    destruct (tool_items tool) as [items |]; [| intros []].
    intros Hin. now exists items. }
  repeat split.
  - intros latlng. unfold HitDetector.pick. now apply pickPx_sameCommitted.
  - intros latlng. unfold HitDetector.pickForDelete.
    now apply pickForDeletePx_sameCommitted.
  - intros latlng. unfold HitDetector.pickAll.
    apply (flat_map_sameCommitted
             (fun ref items =>
                map (fun item => {| HitDetector.ah_item := item;
                                    HitDetector.ah_tool := ref |})
                    (filter (fun item =>
                               HitDetector.hitTest hd item
                                 (HitDetector.latLngToScreen hd latlng))
                            items))).
    assumption.
  - intros bounds. unfold HitDetector.pickInBounds.
    apply (flat_map_sameCommitted
             (fun ref items =>
                map (fun item => {| HitDetector.ah_item := item;
                                    HitDetector.ah_tool := ref |})
                    (filter (fun item => HitDetector.isInBounds item bounds)
                            items))).
    assumption.
  - induction tools as [| [r t] tools IH]; constructor; [| exact IH].
    split; [reflexivity |]. destruct t; reflexivity.
  - intros latlng hit Hpick. unfold HitDetector.pick in Hpick.
    apply pickPx_sound in Hpick. destruct Hpick as [tool [Hin [Hnth _]]].
    destruct (Hitems tool (HitDetector.ph_item hit)) as [items [Hi _]].
    { eapply nth_error_In. exact Hnth. }
    exists tool, items. repeat split; [exact Hin | exact Hi |].
    unfold HitDetector.extractItems in Hnth. now rewrite Hi in Hnth.
  - intros latlng hit Hpick. unfold HitDetector.pickForDelete in Hpick.
    apply pickForDeletePx_sound in Hpick.
    destruct Hpick as [tool [items [item [Hin [Hi [Hnth _]]]]]].
    exists tool, items. repeat split; [exact Hin | exact Hi |].
    apply nth_error_Some. rewrite Hnth. discriminate.
  - intros latlng h Hin. unfold HitDetector.pickAll in Hin.
    apply areaHits_committed in Hin. destruct Hin as [tool [Hin Hitem]].
    destruct (Hitems _ _ Hitem) as [items [Hi Hmem]].
    now exists tool, items.
  - intros bounds h Hin. unfold HitDetector.pickInBounds in Hin.
    apply areaHits_committed in Hin. destruct Hin as [tool [Hin Hitem]].
    destruct (Hitems _ _ Hitem) as [items [Hi Hmem]].
    now exists tool, items.
Qed.

(** ** Clearing all data *)

Lemma truncateItems_idempotent (tool : ToolInst) :
  truncateItems (truncateItems tool) = truncateItems tool.
Proof. destruct tool; reflexivity. Qed.

Lemma tool_draft_truncateItems (tool : ToolInst) :
  tool_draft (truncateItems tool) = tool_draft tool.
Proof. destruct tool; reflexivity. Qed.

Lemma extractItems_truncateItems (tool : ToolInst) :
  HitDetector.extractItems (truncateItems tool) = [].
Proof. destruct tool; reflexivity. Qed.

(** [BaseTool.clear()], the clear of one tool, empties the collection and
    drops the draft. *)
Lemma tool_clear_drops_draft (tool : ToolInst) :
  HitDetector.extractItems (tool_clear tool) = [] /\
  tool_draft (tool_clear tool) = None.
Proof. destruct tool; split; reflexivity. Qed.

(** The loop of [clearAllData], slot by slot. *)
Lemma clear_loop_getTool (l : list ToolObj) (tm : ToolManager.t) (ref : ToolRef) :
  ToolManager.getTool ref
    (fold_left (fun tm '(r, _) => ToolManager.updateTool r truncateItems tm)
               l tm)
  = if existsb (Nat.eqb ref) (map fst l)
    then option_map truncateItems (ToolManager.getTool ref tm)
    else ToolManager.getTool ref tm.
Proof.
  revert tm. induction l as [| [r t] l IH]; intros tm; [reflexivity |].
  cbn [fold_left map fst existsb]. rewrite IH, getTool_updateTool.
  destruct (Nat.eqb ref r); cbn [orb].
  - destruct (ToolManager.getTool ref tm) as [tool |]; cbn [option_map].
    + rewrite truncateItems_idempotent.
      destruct (existsb (Nat.eqb ref) (map fst l)); reflexivity.
    + destruct (existsb (Nat.eqb ref) (map fst l)); reflexivity.
  - reflexivity.
Qed.

(** C2, at the failing input and in general.  [clearAllData] empties the
    collection of every drawing tool, and it leaves the draft of every tool
    exactly as it was: in the registry of the application, a line tool that
    holds a pending draft still holds it afterwards. *)
Theorem clearAllData_keeps_drafts (tm : ToolManager.t) :
  (forall ref tool,
      In (ref, tool) (ToolManager.getDrawingTools tm) ->
      exists tool',
        ToolManager.getTool ref (ToolManager.clearAllData tm) = Some tool' /\
        HitDetector.extractItems tool' = []) /\
  (forall ref,
      option_map tool_draft
        (ToolManager.getTool ref (ToolManager.clearAllData tm))
      = option_map tool_draft (ToolManager.getTool ref tm)) /\
  ToolManager.clearAllData
    (mainRegistry PointsTool.create lineToolWithDraft PolygonTool.create
                  SectorTool.create TextTool.create)
  = mainRegistry PointsTool.create
      {| PolylineTool.lines := [];
         PolylineTool._draft := Some pendingDraft;
         PolylineTool._hover := None |}
      PolygonTool.create SectorTool.create TextTool.create.
Proof.
  split; [| split].
  - intros ref tool Hin. unfold ToolManager.clearAllData.
    rewrite clear_loop_getTool.
    assert (Hex : existsb (Nat.eqb ref)
                    (map fst (ToolManager.getDrawingTools tm)) = true).
    { apply existsb_exists. exists ref. split; [| apply Nat.eqb_refl].
      apply in_map_iff. now exists (ref, tool). }
    rewrite Hex.
    apply getDrawingTools_getAllTools, getAllTools_getTool in Hin.
    rewrite Hin. exists (truncateItems tool).
    split; [reflexivity | apply extractItems_truncateItems].
  - intros ref. unfold ToolManager.clearAllData. rewrite clear_loop_getTool.
    destruct (existsb (Nat.eqb ref) (map fst (ToolManager.getDrawingTools tm)));
      [| reflexivity].
    destruct (ToolManager.getTool ref tm) as [tool |]; [| reflexivity].
    cbn [option_map]. now rewrite tool_draft_truncateItems.
  - reflexivity.
Qed.

(** ** Moving *)

Lemma unplaced_translate (item : Item) (a b : R) :
  unplaced (translate item a b) = unplaced item.
Proof.
  destruct item as [p | t | l | g | s]; cbn; try reflexivity.
  - now rewrite map_map.
  - now rewrite map_map.
Qed.



Lemma shiftVertices_lines (live origin : list LineVertex) (dLat dLng : R) :
  map (fun v => {| v_lat := 0; v_lng := 0; v_elev := v_elev v |}) live
  = map (fun v => {| v_lat := 0; v_lng := 0; v_elev := v_elev v |}) origin ->
  MoveTool.shiftVertices MoveTool.writeVertex live
    (map vertexLatLng origin) dLat dLng
  = Some (map (translateVertex dLat dLng) origin).
Proof.
  revert origin. induction live as [| v live IH]; intros [| o origin] H;
    try discriminate; [reflexivity |].
  cbn [map] in H. injection H as He Hrest.
  cbn [map MoveTool.shiftVertices]. rewrite (IH origin Hrest).
  unfold MoveTool.writeVertex, translateVertex, vertexLatLng. cbn [lat lng].
  now rewrite He.
Qed.

Lemma shiftVertices_polygons (live origin : list LatLng) (dLat dLng : R) :
  map (fun _ : LatLng => mkLatLng 0 0) live
  = map (fun _ : LatLng => mkLatLng 0 0) origin ->
  MoveTool.shiftVertices MoveTool.writeLatLng live origin dLat dLng
  = Some (map (translateLatLng dLat dLng) origin).
Proof.
  revert origin. induction live as [| v live IH]; intros [| o origin] H;
    try discriminate; [reflexivity |].
  cbn [map] in H. injection H as Hrest.
  cbn [map MoveTool.shiftVertices]. now rewrite (IH origin Hrest).
Qed.

(** [applyDelta] rebuilds the live entity from the origin: whatever moves
    came before, the result is the origin displaced by the delta. *)
Lemma applyDelta_from_origin (live origin : Item) (dLat dLng : R) :
  unplaced live = unplaced origin ->
  MoveTool.applyDelta live origin dLat dLng
  = Some (translate origin dLat dLng).
Proof.
  destruct live as [p | t | l | g | s];
    destruct origin as [p' | t' | l' | g' | s']; cbn [unplaced];
    intros H; try discriminate H; cbn.
  - injection H as -> -> ->. reflexivity.
  - injection H as -> -> -> ->. reflexivity.
  - injection H as Hm -> ->.
    now rewrite (shiftVertices_lines _ _ dLat dLng Hm).
  - injection H as Hm -> ->.
    now rewrite (shiftVertices_polygons _ _ dLat dLng Hm).
  - injection H as -> -> -> -> ->. reflexivity.
Qed.

Lemma nth_error_replaceAt {A : Type} (i : nat) (a : A) (l : list A) :
  (i < length l)%nat -> nth_error (MoveTool.replaceAt i a l) i = Some a.
Proof.
  revert i. induction l as [| b l IH]; intros [| i] Hi; cbn in *; try lia.
  - reflexivity.
  - apply IH. lia.
Qed.

Lemma replaceAt_replaceAt {A : Type} (i : nat) (a b : A) (l : list A) :
  MoveTool.replaceAt i b (MoveTool.replaceAt i a l) = MoveTool.replaceAt i b l.
Proof.
  revert i. induction l as [| c l IH]; intros [| i]; cbn; try reflexivity.
  now rewrite IH.
Qed.

Lemma nth_error_map_Some {A B : Type} (f : A -> B) (l : list A) (i : nat)
      (b : B) :
  nth_error (map f l) i = Some b ->
  exists a, nth_error l i = Some a /\ b = f a /\ (i < length l)%nat.
Proof.
  intros H. rewrite nth_error_map in H.
  destruct (nth_error l i) as [a |] eqn:E; [| discriminate].
  injection H as <-. exists a. repeat split.
  apply nth_error_Some. rewrite E. discriminate.
Qed.

(** The tool that owns an entity stores entities of its kind: a written
    value of the same kind can be read back, and a second write replaces
    the first. *)
Lemma storeItem_stored (tool : ToolInst) (i : nat) (old new : Item) :
  nth_error (HitDetector.extractItems tool) i = Some old ->
  unplaced new = unplaced old ->
  nth_error (HitDetector.extractItems (MoveTool.storeItem i new tool)) i
  = Some new /\
  forall newer, unplaced newer = unplaced old ->
    MoveTool.storeItem i newer (MoveTool.storeItem i new tool)
    = MoveTool.storeItem i newer tool.
Proof.
  intros Hread Hnew.
  destruct tool as [t | t | t | t | t | |];
    cbn [HitDetector.extractItems tool_items] in Hread;
    try (destruct i; discriminate Hread);
    apply nth_error_map_Some in Hread;
    destruct Hread as [e [_ [-> Hlt]]];
    destruct new; try discriminate Hnew;
    (split;
     [ cbn; rewrite nth_error_map, nth_error_replaceAt by exact Hlt;
       reflexivity
     | intros newer Hnewer; destruct newer; try discriminate Hnewer;
       cbn; now rewrite replaceAt_replaceAt ]).
Qed.

Lemma updateSlot_twice (f g : ToolInst -> ToolInst)
      (m : list (string * option ToolInst)) (r : nat) :
  ToolManager.updateSlot r f (ToolManager.updateSlot r g m)
  = ToolManager.updateSlot r (fun tool => f (g tool)) m.
Proof.
  revert r. induction m as [| [k v] m IH]; intros [| r]; cbn; try reflexivity.
  - destruct v; reflexivity.
  - now rewrite IH.
Qed.

Lemma updateSlot_ext (f g : ToolInst -> ToolInst)
      (m : list (string * option ToolInst)) (r : nat) :
  (forall k tool, nth_error m r = Some (k, Some tool) -> f tool = g tool) ->
  ToolManager.updateSlot r f m = ToolManager.updateSlot r g m.
Proof.
  revert r. induction m as [| [k v] m IH]; intros [| r] H; cbn; try reflexivity.
  - destruct v as [tool |]; [| reflexivity].
    cbn. now rewrite (H k tool eq_refl).
  - f_equal. apply IH. intros k' tool Hn. exact (H k' tool Hn).
Qed.

Lemma readItem_inv (tm : ToolManager.t) (target : ToolRef * nat) (item : Item) :
  MoveTool.readItem tm target = Some item ->
  exists tool,
    ToolManager.getTool (fst target) tm = Some tool /\
    nth_error (HitDetector.extractItems tool) (snd target) = Some item.
Proof.
  unfold MoveTool.readItem. intros H.
  destruct (ToolManager.getTool (fst target) tm) as [tool |];
    [| discriminate]. now exists tool.
Qed.

Lemma readItem_writeItem (tm : ToolManager.t) (target : ToolRef * nat)
      (old new : Item) :
  MoveTool.readItem tm target = Some old ->
  unplaced new = unplaced old ->
  MoveTool.readItem (MoveTool.writeItem target new tm) target = Some new.
Proof.
  intros Hread Hnew. apply readItem_inv in Hread.
  destruct Hread as [tool [Htool Hnth]].
  unfold MoveTool.readItem, MoveTool.writeItem.
  rewrite getTool_updateTool, Nat.eqb_refl, Htool. cbn [option_map].
  now destruct (storeItem_stored tool (snd target) old new Hnth Hnew).
Qed.

Lemma writeItem_writeItem (tm : ToolManager.t) (target : ToolRef * nat)
      (old a b : Item) :
  MoveTool.readItem tm target = Some old ->
  unplaced a = unplaced old ->
  unplaced b = unplaced old ->
  MoveTool.writeItem target b (MoveTool.writeItem target a tm)
  = MoveTool.writeItem target b tm.
Proof.
  intros Hread Ha Hb. apply readItem_inv in Hread.
  destruct Hread as [tool [Htool Hnth]].
  unfold MoveTool.writeItem, ToolManager.updateTool.
  cbn [ToolManager.tools ToolManager.activeTool ToolManager.registrationOrder].
  f_equal. rewrite updateSlot_twice. apply updateSlot_ext.
  intros k tool' Hslot.
  unfold ToolManager.getTool in Htool. rewrite Hslot in Htool.
  injection Htool as ->.
  destruct (storeItem_stored tool (snd target) old a Hnth Ha) as [_ Hagain].
  now apply Hagain.
Qed.

(** The pointer-move events of one drag: after any number of them the
    entity is the origin displaced by the last pointer position minus the
    start. *)
Lemma pointerMoves_from_origin
      (target : ToolRef * nat) (origin : Item) (start : LatLng)
      (pre : list LatLng) (q : LatLng) (tm : ToolManager.t) (live : Item) :
  MoveTool.readItem tm target = Some live ->
  unplaced live = unplaced origin ->
  pointerMoves (pre ++ [q])
    {| registry := tm;
       moveTool := {| MoveTool._target := Some target;
                      MoveTool._origin := Some origin;
                      MoveTool._start := Some start |} |}
  = Some {| registry :=
              MoveTool.writeItem target
                (translate origin (lat q - lat start) (lng q - lng start)) tm;
            moveTool := {| MoveTool._target := Some target;
                           MoveTool._origin := Some origin;
                           MoveTool._start := Some start |} |}.
Proof.
  revert tm live. induction pre as [| p pre IH]; intros tm live Hread Hsame.
  - cbn [app pointerMoves]. unfold pointerMove, MoveTool.onMouseMove.
    cbn [registry moveTool MoveTool._target MoveTool._origin MoveTool._start].
    rewrite Hread, (applyDelta_from_origin _ _ _ _ Hsame). reflexivity.
  - cbn [app pointerMoves]. unfold pointerMove at 1, MoveTool.onMouseMove.
    cbn [registry moveTool MoveTool._target MoveTool._origin MoveTool._start].
    rewrite Hread, (applyDelta_from_origin _ _ _ _ Hsame).
    rewrite (IH _ (translate origin (lat p - lat start) (lng p - lng start))).
    + rewrite (writeItem_writeItem tm target live); try reflexivity.
      * exact Hread.
      * now rewrite unplaced_translate.
      * now rewrite unplaced_translate.
    + apply (readItem_writeItem tm target live); [exact Hread |].
      now rewrite unplaced_translate.
    + apply unplaced_translate.
Qed.

Lemma pick_readItem (hd : HitDetector.t) (latlng : LatLng)
      (tm : ToolManager.t) (hit : HitDetector.PickHit) :
  HitDetector.pick hd latlng (candidates tm) = Some hit ->
  MoveTool.readItem tm (HitDetector.ph_tool hit, HitDetector.ph_index hit)
  = Some (HitDetector.ph_item hit).
Proof.
  unfold HitDetector.pick. intros H. apply pickPx_sound in H.
  destruct H as [tool [Hin [Hnth _]]]. apply candidates_getTool in Hin.
  unfold MoveTool.readItem. cbn [fst snd]. now rewrite Hin.
Qed.

(** One complete drag of a hit entity: displaced from where it was at
    pointer-down by the last pointer position minus the first. *)
Lemma drag_result (hd : HitDetector.t) (start : LatLng) (pre : list LatLng)
      (q : LatLng) (w : World) (hit : HitDetector.PickHit) :
  HitDetector.pick hd start (candidates (registry w)) = Some hit ->
  drag hd start (pre ++ [q]) w
  = Some {| registry :=
              MoveTool.writeItem
                (HitDetector.ph_tool hit, HitDetector.ph_index hit)
                (translate (HitDetector.ph_item hit)
                           (lat q - lat start) (lng q - lng start))
                (registry w);
            moveTool := MoveTool.create |}.
Proof.
  intros Hpick. unfold drag, pointerDown, MoveTool.onMouseDown.
  fold (candidates (registry w)). rewrite Hpick. unfold MoveTool.clone.
  rewrite (pointerMoves_from_origin _ _ _ _ _ _ (HitDetector.ph_item hit)).
  - reflexivity.
  - now apply (pick_readItem hd start).
  - reflexivity.
Qed.






(** ** Export and import *)











Lemma mainRegistry_getDrawingTools a b c d e :
  ToolManager.getDrawingTools (mainRegistry a b c d e)
  = [(1%nat, TPoints a); (2%nat, TPolyline b); (3%nat, TPolygon c);
     (4%nat, TSector d); (5%nat, TText e)].
Proof. reflexivity. Qed.







(** ** The loop of [sectorCoordinates] ends by its own condition *)

Lemma sectorArc_past_end (n more : nat) (center : LatLng)
      (radius brg a hi : R) :
  hi < a + 3 * INR n ->
  sectorArc (n + more) center radius brg a hi
  = sectorArc n center radius brg a hi.
Proof.
  revert a. induction n as [| n IH]; intros a Hpast.
  - cbn [INR] in Hpast. cbn [Nat.add sectorArc].
    destruct more as [| more]; [reflexivity |]. cbn [sectorArc].
    assert (E : Rleb a hi = false).
    { unfold Rleb. destruct (Rle_dec a hi); [lra | reflexivity]. }
    now rewrite E.
  - cbn [Nat.add sectorArc]. destruct (Rleb a hi); [| reflexivity].
    cbv zeta. f_equal. apply IH. rewrite S_INR in Hpast. lra.
Qed.

(** More turns than [sectorSteps] allows change nothing: the bound on the
    loop of [sectorCoordinates] is never what stops it. *)
Lemma sectorSteps_enough (more : nat) (center : LatLng)
      (radius brg angle : R) :
  sectorArc (sectorSteps angle + more) center radius brg
            (- angle / 2) (angle / 2)
  = sectorArc (sectorSteps angle) center radius brg (- angle / 2) (angle / 2).
Proof.
  apply sectorArc_past_end. unfold sectorSteps, Rltb.
  destruct (Rlt_dec angle 0) as [Hneg | Hpos].
  - cbn [INR]. lra.
  - destruct (base_Int_part (angle / 3)) as [Hlo Hhi].
    assert (Hk : (0 <= Int_part (angle / 3))%Z).
    { apply Z.lt_succ_r. apply lt_IZR. rewrite succ_IZR. lra. }
    rewrite S_INR, INR_IZR_INZ, Z2Nat.id by exact Hk. lra.
Qed.

(** * Further properties of the code *)

(** ** utils/geometry.js *)

Lemma atan2_nonneg (y x : R) : 0 <= y -> 0 <= x -> 0 <= atan2 y x.
Proof.
  intros Hy Hx. unfold atan2.
  destruct (Rlt_dec 0 x) as [Hpos | Hnpos].
  - destruct (Req_dec y 0) as [-> | Hne].
    + unfold Rdiv. rewrite Rmult_0_l, atan_0. lra.
    + left. rewrite <- atan_0. apply atan_increasing.
      apply Rdiv_lt_0_compat; lra.
  - destruct (Rlt_dec x 0); [lra |].
    destruct (Rlt_dec 0 y); [pose proof PI_RGT_0; lra |].
    destruct (Rlt_dec y 0); lra.
Qed.

Lemma toRad_opp_half (u v : R) : toRad (u - v) / 2 = - (toRad (v - u) / 2).
Proof. unfold toRad. field. Qed.

Lemma distance_haversine (a b : LatLng) :
  distance a b
  = 2 * EARTH_RADIUS * atan2 (sqrt (haversine a b)) (sqrt (1 - haversine a b)).
Proof. reflexivity. Qed.

Lemma haversine_sym (a b : LatLng) : haversine a b = haversine b a.
Proof.
  unfold haversine.
  rewrite (toRad_opp_half (lat b) (lat a)), (toRad_opp_half (lng b) (lng a)).
  rewrite !sin_neg. ring.
Qed.

Lemma distance_sym (a b : LatLng) : distance a b = distance b a.
Proof. now rewrite !distance_haversine, haversine_sym. Qed.

Lemma distance_nonneg (a b : LatLng) : 0 <= distance a b.
Proof.
  rewrite distance_haversine.
  assert (0 <= atan2 (sqrt (haversine a b)) (sqrt (1 - haversine a b)))
    by (apply atan2_nonneg; apply sqrt_pos).
  unfold EARTH_RADIUS. nra.
Qed.

Lemma distance_same (a : LatLng) : distance a a = 0.
Proof.
  rewrite distance_haversine.
  assert (H : haversine a a = 0).
  { unfold haversine, toRad.
    replace ((lat a - lat a) * PI / 180 / 2) with 0 by field.
    replace ((lng a - lng a) * PI / 180 / 2) with 0 by field.
    rewrite sin_0. ring. }
  rewrite H, Rminus_0_r, sqrt_0, sqrt_1. unfold atan2.
  destruct (Rlt_dec 0 1); [| lra].
  unfold Rdiv. rewrite Rmult_0_l, atan_0. ring.
Qed.

Lemma cos_toRad_nonneg (d : R) : -90 <= d <= 90 -> 0 <= cos (toRad d).
Proof.
  intros [Hlo Hhi]. pose proof PI_RGT_0 as HPI.
  apply cos_ge_0; unfold toRad; nra.
Qed.

Lemma sin_sqr_bounds (u : R) : 0 <= sin u * sin u <= 1.
Proof. pose proof (SIN_bound u). nra. Qed.

Lemma haversine_bounds (a b : LatLng) :
  -90 <= lat a <= 90 -> -90 <= lat b <= 90 -> 0 <= haversine a b <= 1.
Proof.
  intros Ha Hb.
  pose proof (cos_toRad_nonneg _ Ha) as Hca.
  pose proof (cos_toRad_nonneg _ Hb) as Hcb.
  unfold haversine.
  set (s := sin (toRad (lat b - lat a) / 2)).
  set (t := sin (toRad (lng b - lng a) / 2)).
  pose proof (sin_sqr_bounds (toRad (lat b - lat a) / 2)) as Hs.
  pose proof (sin_sqr_bounds (toRad (lng b - lng a) / 2)) as Ht.
  fold s in Hs. fold t in Ht.
  assert (Hk : 0 <= cos (toRad (lat a)) * cos (toRad (lat b))) by nra.
  set (k := cos (toRad (lat a)) * cos (toRad (lat b))) in *.
  assert (Hsk : s * s + k <= 1).
  { assert (E1 : cos (toRad (lat b) - toRad (lat a)) = 1 - 2 * s * s).
    { replace (toRad (lat b) - toRad (lat a)) with (2 * (toRad (lat b - lat a) / 2))
        by (unfold toRad; field).
      apply cos_2a_sin. }
    rewrite cos_minus in E1.
    pose proof (COS_bound (toRad (lat b) + toRad (lat a))) as Hc.
    rewrite cos_plus in Hc. unfold k. nra. }
  split.
  - replace (s * s + k * t * t) with (s * s + k * (t * t)) by ring. nra.
  - replace (s * s + k * t * t) with (s * s + k * (t * t)) by ring. nra.
Qed.

(** X1.  For places whose latitudes lie between -90 and 90 degrees the
    quantity under the square roots of [distance] lies between 0 and 1 (both
    roots are real), the great-circle distance is never negative, it is the
    same in both directions, and the distance from a place to itself is 0. *)
Theorem distance_metric_like (a b : LatLng) :
  -90 <= lat a <= 90 -> -90 <= lat b <= 90 ->
  0 <= haversine a b <= 1 /\
  0 <= distance a b /\ distance a b = distance b a /\ distance a a = 0.
Proof.
  intros Ha Hb.
  split; [now apply haversine_bounds |].
  split; [apply distance_nonneg |].
  split; [apply distance_sym | apply distance_same].
Qed.

Lemma distance_metric_like_witness :
  0 <= haversine (mkLatLng 10 20) (mkLatLng 30 40) <= 1 /\
  0 <= distance (mkLatLng 10 20) (mkLatLng 30 40) /\
  distance (mkLatLng 10 20) (mkLatLng 30 40) = distance (mkLatLng 30 40) (mkLatLng 10 20) /\
  distance (mkLatLng 10 20) (mkLatLng 10 20) = 0.
Proof. apply distance_metric_like; cbn [lat]; lra. Defined.

Lemma segments_snoc {A : Type} (l : list A) (p q : A) :
  segments (l ++ [p; q]) = segments (l ++ [p]) ++ [(p, q)].
Proof.
  induction l as [| a l IH]; [reflexivity |].
  destruct l as [| b l'].
  - reflexivity.
  - change (segments ((a :: b :: l') ++ [p; q]))
      with ((a, b) :: segments ((b :: l') ++ [p; q])).
    change (segments ((a :: b :: l') ++ [p]))
      with ((a, b) :: segments ((b :: l') ++ [p])).
    rewrite IH. reflexivity.
Qed.

Lemma sumDistances_app (s1 s2 : list (LatLng * LatLng)) :
  sumDistances (s1 ++ s2) = sumDistances s1 + sumDistances s2.
Proof.
  induction s1 as [| ab s1 IH]; cbn [app sumDistances]; [lra | rewrite IH; lra].
Qed.

Lemma sumDistances_nonneg (segs : list (LatLng * LatLng)) : 0 <= sumDistances segs.
Proof.
  induction segs as [| ab rest IH]; cbn [sumDistances]; [lra |].
  pose proof (distance_nonneg (fst ab) (snd ab)). lra.
Qed.

Lemma polylineLength_snoc (pts : list LatLng) (p q : LatLng) :
  polylineLength (pts ++ [p; q]) = polylineLength (pts ++ [p]) + distance p q.
Proof.
  rewrite !polylineLength_sum, segments_snoc, sumDistances_app.
  cbn [sumDistances fst snd]. lra.
Qed.

Lemma polylineLength_rev (pts : list LatLng) :
  polylineLength (rev pts) = polylineLength pts.
Proof.
  induction pts as [| a pts IH]; [reflexivity |].
  destruct pts as [| b rest]; [reflexivity |].
  cbn [rev]. rewrite <- app_assoc.
  change ([b] ++ [a]) with [b; a].
  rewrite polylineLength_snoc.
  change (rev rest ++ [b]) with (rev (b :: rest)).
  rewrite IH, !polylineLength_sum.
  change (segments (a :: b :: rest)) with ((a, b) :: segments (b :: rest)).
  cbn [sumDistances fst snd]. rewrite (distance_sym b a). lra.
Qed.

(** X2.  The length of a path is never negative, does not depend on the
    direction in which its vertices are listed, and grows by exactly the
    distance of the new segment when a vertex is appended. *)
Theorem polylineLength_reverse_and_extend (pts : list LatLng) (p q : LatLng) :
  0 <= polylineLength pts /\
  polylineLength (rev pts) = polylineLength pts /\
  polylineLength (pts ++ [p; q]) = polylineLength (pts ++ [p]) + distance p q.
Proof.
  split; [rewrite polylineLength_sum; apply sumDistances_nonneg |].
  split; [apply polylineLength_rev | apply polylineLength_snoc].
Qed.














(** X6.  For the rectangle between two latitudes and two longitudes the
    test is membership in the half-open box: the south and west sides
    belong to the rectangle, the north and east sides do not. *)
Theorem pointInPolygon_rectangle (point : LatLng) (south west north east : R) :
  south < north -> west < east ->
  pointInPolygon point (rectangle south west north east)
  = (Rleb south (lat point) && Rltb (lat point) north) &&
    (Rleb west (lng point) && Rltb (lng point) east).
Proof.
  intros Hsn Hwe. unfold pointInPolygon, rectangle.
  cbn [length seq fold_left at_ nth Nat.sub lat lng].
  replace ((west - west) * (lat point - south) / (north - south) + west)
    with west by (field; lra).
  replace ((east - east) * (lat point - north) / (south - north) + east)
    with east by (field; lra).
  unfold Rltb, Rleb.
  repeat match goal with
         | |- context [Rlt_dec ?a ?b] => destruct (Rlt_dec a b)
         | |- context [Rle_dec ?a ?b] => destruct (Rle_dec a b)
         end; cbn [xorb andb negb]; try reflexivity; exfalso; lra.
Qed.

Lemma pointInPolygon_rectangle_witness :
  pointInPolygon (mkLatLng 0 0) (rectangle 0 0 1 1)
  = (Rleb 0 (lat (mkLatLng 0 0)) && Rltb (lat (mkLatLng 0 0)) 1) &&
    (Rleb 0 (lng (mkLatLng 0 0)) && Rltb (lng (mkLatLng 0 0)) 1).
Proof. apply pointInPolygon_rectangle; lra. Defined.




Lemma atan2_bounds (y x : R) : - PI <= atan2 y x <= PI.
Proof.
  pose proof PI_RGT_0 as HPI. unfold atan2.
  destruct (Rlt_dec 0 x) as [Hpos | Hnpos].
  - pose proof (atan_bound (y / x)). lra.
  - destruct (Rlt_dec x 0) as [Hneg | Hnneg].
    + pose proof (atan_bound (y / x)) as B.
      assert (Hinv : / x < 0) by now apply Rinv_lt_0_compat.
      destruct (Rle_dec 0 y) as [Hy | Hy].
      * assert (atan (y / x) <= 0).
        { rewrite <- atan_0.
          destruct (Req_dec y 0) as [-> | Hne].
          - unfold Rdiv. rewrite Rmult_0_l. lra.
          - left. apply atan_increasing. unfold Rdiv. nra. }
        lra.
      * assert (0 < atan (y / x)).
        { rewrite <- atan_0. apply atan_increasing. unfold Rdiv. nra. }
        lra.
    + destruct (Rlt_dec 0 y); [lra |]. destruct (Rlt_dec y 0); lra.
Qed.

Lemma jsRem_range (a b : R) : 0 <= a -> 0 < b -> 0 <= jsRem a b < b.
Proof.
  intros Ha Hb. unfold jsRem, truncate.
  assert (Hq : 0 <= a / b)
    by (unfold Rdiv; apply Rmult_le_pos;
        [lra | left; apply Rinv_0_lt_compat; lra]).
  destruct (Rle_dec 0 (a / b)) as [_ | C]; [| contradiction].
  destruct (base_Int_part (a / b)) as [Hlo Hhi].
  assert (E : a / b * b = a) by (field; lra).
  split; nra.
Qed.

(** X8.  A bearing is always reported in the half-open range from 0 up to,
    not including, 360 degrees; the bearing from a place to itself is 0. *)
Theorem bearing_range (a b : LatLng) :
  0 <= bearing a b < 360 /\ bearing a a = 0.
Proof.
  pose proof PI_RGT_0 as HPI. split.
  - unfold bearing. cbv zeta. apply jsRem_range; [| lra].
    match goal with |- context [atan2 ?y ?x] =>
      pose proof (atan2_bounds y x) as B; set (r := atan2 y x) in * end.
    unfold toDeg.
    assert (E : r * 180 / PI * PI = r * 180) by (field; lra).
    nra.
  - unfold bearing. cbv zeta.
    replace (toRad (lng a - lng a)) with 0 by (unfold toRad; field).
    rewrite sin_0, cos_0, Rmult_0_l.
    replace (cos (toRad (lat a)) * sin (toRad (lat a)) -
             sin (toRad (lat a)) * cos (toRad (lat a)) * 1) with 0 by ring.
    unfold atan2.
    destruct (Rlt_dec 0 0); [lra |]. destruct (Rlt_dec 0 0); [lra |].
    unfold toDeg, jsRem, truncate.
    replace (0 * 180 / PI + 360) with 360 by (field; lra).
    replace (360 / 360) with 1 by field.
    destruct (Rle_dec 0 1); [| lra].
    destruct (base_Int_part 1) as [Hlo Hhi].
    assert (Ek : Int_part 1 = 1%Z).
    { assert (0 < Int_part 1)%Z by (apply lt_IZR; lra).
      assert (Int_part 1 <= 1)%Z by (apply le_IZR; lra).
      lia. }
    rewrite Ek. lra.
Qed.






Lemma sectorArc_length (n : nat) (center : LatLng) (radius brg a hi : R) :
  (forall k, (k < n)%nat -> a + 3 * INR k <= hi) ->
  length (sectorArc n center radius brg a hi) = n.
Proof.
  revert a. induction n as [| n IH]; intros a H; [reflexivity |].
  cbn [sectorArc].
  assert (E : Rleb a hi = true).
  { unfold Rleb. destruct (Rle_dec a hi) as [_ | C]; [reflexivity |].
    exfalso. apply C. specialize (H O ltac:(lia)). cbn [INR] in H. lra. }
  rewrite E. cbv zeta. cbn [length]. f_equal. apply IH.
  intros k Hk. specialize (H (S k) ltac:(lia)). rewrite S_INR in H. lra.
Qed.

(** X10.  The outline of a sector starts and ends at its centre.  For an
    opening angle that is not negative it has one arc point for every
    multiple of 3 degrees that fits in the angle, so [3 + floor (angle / 3)]
    coordinates in all; for a negative angle it is the centre twice. *)
Theorem sectorCoordinates_shape (center : LatLng) (radius brg angle : R) :
  hd_error (sectorCoordinates center radius brg angle) = Some (lng center, lat center) /\
  last (sectorCoordinates center radius brg angle) (0, 0) = (lng center, lat center) /\
  length (sectorCoordinates center radius brg angle)
  = (if Rltb angle 0 then 2 else 3 + Z.to_nat (Int_part (angle / 3)))%nat.
Proof.
  unfold sectorCoordinates. split; [reflexivity |].
  split.
  - change ([(lng center, lat center)] ++ ?l) with ((lng center, lat center) :: l).
    rewrite app_comm_cons. apply last_last.
  - rewrite !length_app. cbn [length].
    rewrite sectorArc_length.
    + unfold sectorSteps. destruct (Rltb angle 0); lia.
    + unfold sectorSteps. intros k Hk.
      destruct (Rltb angle 0) eqn:E; [lia |].
      apply Rltb_false in E.
      destruct (base_Int_part (angle / 3)) as [Hlo Hhi].
      assert (Hk0 : (0 <= Int_part (angle / 3))%Z).
      { apply Z.lt_succ_r. apply lt_IZR. rewrite succ_IZR. lra. }
      assert (INR k <= IZR (Int_part (angle / 3))).
      { rewrite INR_IZR_INZ. apply IZR_le. lia. }
      lra.
Qed.





(** ** utils/drawing.js and utils/hitDetection.js *)













Lemma distancePx_nonneg (a b : Px) : 0 <= HitDetector.distancePx a b.
Proof. apply sqrt_pos. Qed.

Lemma existsb_none {A : Type} (f : A -> bool) (l : list A) :
  (forall a, In a l -> f a = false) -> existsb f l = false.
Proof.
  intros H. induction l as [| a l IH]; [reflexivity |].
  cbn [existsb]. rewrite (H a (or_introl eq_refl)). apply IH.
  intros a' Ha'. apply H. now right.
Qed.

Lemma hitTest_cases (hd : HitDetector.t) (item : Item) (mousePx : Px) :
  HitDetector.hitTest hd item mousePx =
  match item with
  | IPoint p =>
      Rltb (HitDetector.distancePx mousePx
              (HitDetector.latLngToScreen hd (mkLatLng (p_lat p) (p_lng p))))
           (HitDetector.tolerance hd)
  | IText t =>
      Rltb (HitDetector.distancePx mousePx
              (HitDetector.latLngToScreen hd (mkLatLng (t_lat t) (t_lng t))))
           (HitDetector.tolerance hd)
  | ISector s =>
      Rltb (HitDetector.distancePx mousePx
              (HitDetector.latLngToScreen hd (s_center s)))
           (HitDetector.tolerance hd)
  | ILine l =>
      existsb (segmentHit hd mousePx) (segments (map vertexLatLng (l_points l)))
  | IPolygon g => existsb (segmentHit hd mousePx) (segments (g_points g))
  end.
Proof.
  destruct item as [p | t | l | g | s]; try reflexivity.
  - apply hitTest_line.
  - apply hitTest_polygon.
Qed.

Lemma hitTest_no_tolerance (hd : HitDetector.t) (item : Item) (mousePx : Px) :
  HitDetector.tolerance hd <= 0 -> HitDetector.hitTest hd item mousePx = false.
Proof.
  intros Htol. rewrite hitTest_cases.
  assert (Hpx : forall q, Rltb (HitDetector.distancePx mousePx q)
                               (HitDetector.tolerance hd) = false).
  { intros q. apply Rltb_false. pose proof (distancePx_nonneg mousePx q). lra. }
  assert (Hseg : forall ab, segmentHit hd mousePx ab = false).
  { intros ab. unfold segmentHit. apply Rltb_false.
    pose proof (distToSegment_nonneg mousePx
                  (HitDetector.latLngToScreen hd (fst ab))
                  (HitDetector.latLngToScreen hd (snd ab))). lra. }
  destruct item; try apply Hpx; apply existsb_none; intros; apply Hseg.
Qed.

Lemma firstHit_none (hd : HitDetector.t) (mousePx : Px) (i : nat)
      (items : list Item) :
  (forall item, In item items -> HitDetector.hitTest hd item mousePx = false) ->
  HitDetector.firstHit hd mousePx i items = None.
Proof.
  revert i. induction items as [| item rest IH]; intros i H; [reflexivity |].
  cbn [HitDetector.firstHit]. rewrite (H item (or_introl eq_refl)).
  apply IH. intros item' Hin. apply H. now right.
Qed.

Lemma filter_none {A : Type} (f : A -> bool) (l : list A) :
  (forall a, In a l -> f a = false) -> filter f l = [].
Proof.
  intros H. induction l as [| a l IH]; [reflexivity |].
  cbn [filter]. rewrite (H a (or_introl eq_refl)). apply IH.
  intros a' Ha'. apply H. now right.
Qed.

Lemma areaHits_none (keep : Item -> bool) (tools : list ToolObj) :
  (forall item, keep item = false) ->
  flat_map
    (fun '(ref, tool) =>
       map (fun item => {| HitDetector.ah_item := item;
                           HitDetector.ah_tool := ref |})
           (filter keep (HitDetector.extractItems tool)))
    tools = [].
Proof.
  intros H. induction tools as [| [ref tool] rest IH]; [reflexivity |].
  cbn [flat_map]. rewrite IH, filter_none by (intros; apply H). reflexivity.
Qed.

(** X14.  With a tolerance of 0 or less nothing can be hit: the hit test
    fails for every entity at every pointer position, [pick] and
    [pickForDelete] find nothing and [pickAll] is empty, whatever the tools
    hold. *)
Theorem no_tolerance_no_hit (hd : HitDetector.t) (item : Item) (mousePx : Px)
      (latlng : LatLng) (tools : list ToolObj) :
  HitDetector.tolerance hd <= 0 ->
  HitDetector.hitTest hd item mousePx = false /\
  HitDetector.pick hd latlng tools = None /\
  HitDetector.pickForDelete hd latlng tools = None /\
  HitDetector.pickAll hd latlng tools = [].
Proof.
  intros Htol. split; [now apply hitTest_no_tolerance |].
  unfold HitDetector.pick, HitDetector.pickForDelete, HitDetector.pickAll.
  cbv zeta. set (px := HitDetector.latLngToScreen hd latlng).
  split; [| split].
  - induction tools as [| [ref tool] rest IH]; [reflexivity |].
    cbn [HitDetector.pickPx].
    rewrite firstHit_none by (intros; now apply hitTest_no_tolerance). exact IH.
  - induction tools as [| [ref tool] rest IH]; [reflexivity |].
    cbn [HitDetector.pickForDeletePx].
    destruct (HitDetector.extractList tool); [| exact IH].
    rewrite firstHit_none by (intros; now apply hitTest_no_tolerance). exact IH.
  - apply areaHits_none. intros it. now apply hitTest_no_tolerance.
Qed.

Lemma no_tolerance_no_hit_witness :
  HitDetector.hitTest (HitDetector.setTolerance 0 flatDetector)
                      (IPoint samplePoint) (mkPx 0 0) = false /\
  HitDetector.pick (HitDetector.setTolerance 0 flatDetector) (mkLatLng 0 0)
                   (candidates (registry sampleWorld)) = None /\
  HitDetector.pickForDelete (HitDetector.setTolerance 0 flatDetector)
                   (mkLatLng 0 0) (candidates (registry sampleWorld)) = None /\
  HitDetector.pickAll (HitDetector.setTolerance 0 flatDetector) (mkLatLng 0 0)
                   (candidates (registry sampleWorld)) = [].
Proof. apply no_tolerance_no_hit. cbn [HitDetector.setTolerance HitDetector.tolerance]. lra. Defined.

Lemma hitTest_wider (hd : HitDetector.t) (tol tol' : R) (item : Item)
      (mousePx : Px) :
  tol <= tol' ->
  HitDetector.hitTest (HitDetector.setTolerance tol hd) item mousePx = true ->
  HitDetector.hitTest (HitDetector.setTolerance tol' hd) item mousePx = true.
Proof.
  intros Hle. rewrite !hitTest_cases.
  cbn [HitDetector.setTolerance HitDetector.tolerance HitDetector.latLngToScreen].
  assert (Hpx : forall d, Rltb d tol = true -> Rltb d tol' = true).
  { intros d H. apply Rltb_true in H. apply Rltb_true. lra. }
  assert (Hsegs : forall segs,
             existsb (segmentHit (HitDetector.setTolerance tol hd) mousePx) segs = true ->
             existsb (segmentHit (HitDetector.setTolerance tol' hd) mousePx) segs = true).
  { intros segs H. apply existsb_exists in H. destruct H as (ab & Hin & Hhit).
    apply existsb_exists. exists ab. split; [exact Hin |].
    unfold segmentHit in *.
    cbn [HitDetector.setTolerance HitDetector.tolerance HitDetector.latLngToScreen] in *.
    now apply Hpx. }
  destruct item; try apply Hpx; apply Hsegs.
Qed.

(** X15.  Widening the tolerance with [setTolerance] never loses a hit: an
    entity hit at a tolerance is hit at every larger one, and every entry of
    [pickAll] at the smaller tolerance is an entry at the larger. *)
Theorem wider_tolerance_keeps_hits (hd : HitDetector.t) (tol tol' : R)
      (item : Item) (mousePx : Px) (latlng : LatLng) (tools : list ToolObj) :
  tol <= tol' ->
  (HitDetector.hitTest (HitDetector.setTolerance tol hd) item mousePx = true ->
   HitDetector.hitTest (HitDetector.setTolerance tol' hd) item mousePx = true) /\
  incl (HitDetector.pickAll (HitDetector.setTolerance tol hd) latlng tools)
       (HitDetector.pickAll (HitDetector.setTolerance tol' hd) latlng tools).
Proof.
  intros Hle. split; [now apply hitTest_wider |].
  unfold HitDetector.pickAll. cbv zeta.
  cbn [HitDetector.setTolerance HitDetector.latLngToScreen].
  intros h Hin. apply in_flat_map in Hin. destruct Hin as ([ref tool] & Hin & Hh).
  apply in_flat_map. exists (ref, tool). split; [exact Hin |].
  apply in_map_iff in Hh. destruct Hh as (it & <- & Hit).
  apply in_map_iff. exists it. split; [reflexivity |].
  apply filter_In in Hit. destruct Hit as [Hit Hhit].
  apply filter_In. split; [exact Hit |].
  now apply (hitTest_wider hd tol tol').
Qed.

Lemma wider_tolerance_keeps_hits_witness :
  (HitDetector.hitTest (HitDetector.setTolerance 8 flatDetector)
                       (IPoint samplePoint) (mkPx 0 0) = true ->
   HitDetector.hitTest (HitDetector.setTolerance 20 flatDetector)
                       (IPoint samplePoint) (mkPx 0 0) = true) /\
  incl (HitDetector.pickAll (HitDetector.setTolerance 8 flatDetector)
          (mkLatLng 0 0) (candidates (registry sampleWorld)))
       (HitDetector.pickAll (HitDetector.setTolerance 20 flatDetector)
          (mkLatLng 0 0) (candidates (registry sampleWorld))).
Proof. apply wider_tolerance_keeps_hits. lra. Defined.

Lemma firstHit_filter (hd : HitDetector.t) (mousePx : Px) (i : nat)
      (items : list Item) :
  option_map snd (HitDetector.firstHit hd mousePx i items)
  = hd_error (filter (fun item => HitDetector.hitTest hd item mousePx) items).
Proof.
  revert i. induction items as [| item rest IH]; intros i; [reflexivity |].
  cbn [HitDetector.firstHit filter].
  destruct (HitDetector.hitTest hd item mousePx); [reflexivity | apply IH].
Qed.

Lemma pickPx_first_of_all (hd : HitDetector.t) (mousePx : Px)
      (tools : list ToolObj) :
  option_map pickFound (HitDetector.pickPx hd mousePx tools)
  = hd_error
      (map areaFound
         (flat_map
            (fun '(ref, tool) =>
               map (fun item => {| HitDetector.ah_item := item;
                                   HitDetector.ah_tool := ref |})
                   (filter (fun item => HitDetector.hitTest hd item mousePx)
                           (HitDetector.extractItems tool)))
            tools)).
Proof.
  induction tools as [| [ref tool] rest IH]; [reflexivity |].
  cbn [HitDetector.pickPx flat_map]. rewrite map_app.
  pose proof (firstHit_filter hd mousePx 0 (HitDetector.extractItems tool)) as F.
  destruct (HitDetector.firstHit hd mousePx 0 (HitDetector.extractItems tool))
    as [[i item] |].
  - cbn [option_map snd] in F.
    destruct (filter _ (HitDetector.extractItems tool)) as [| it its];
      [discriminate |].
    cbn [hd_error] in F. injection F as <-. reflexivity.
  - cbn [option_map] in F.
    destruct (filter _ (HitDetector.extractItems tool)) as [| it its];
      [| discriminate].
    exact IH.
Qed.

Lemma pickPx_pickForDeletePx (hd : HitDetector.t) (mousePx : Px)
      (tools : list ToolObj) :
  option_map pickPlace (HitDetector.pickPx hd mousePx tools)
  = option_map deletePlace (HitDetector.pickForDeletePx hd mousePx tools).
Proof.
  induction tools as [| [ref tool] rest IH]; [reflexivity |].
  cbn [HitDetector.pickPx HitDetector.pickForDeletePx].
  unfold HitDetector.extractItems, HitDetector.extractList.
  destruct (tool_items tool) as [items |]; [| exact IH].
  destruct (HitDetector.firstHit hd mousePx 0 items) as [[i item] |];
    [reflexivity | exact IH].
Qed.

(** X16.  [pick] returns the first entry [pickAll] would return (the first
    hit entity of the first tool that has one), and [pickForDelete] finds
    the same place as [pick]: the same tool and the same index in its
    collection, or nothing when [pick] finds nothing. *)
Theorem pick_is_first_of_pickAll (hd : HitDetector.t) (latlng : LatLng)
      (tools : list ToolObj) :
  option_map pickFound (HitDetector.pick hd latlng tools)
  = hd_error (map areaFound (HitDetector.pickAll hd latlng tools)) /\
  option_map pickPlace (HitDetector.pick hd latlng tools)
  = option_map deletePlace (HitDetector.pickForDelete hd latlng tools).
Proof.
  split; [apply pickPx_first_of_all | apply pickPx_pickForDeletePx].
Qed.

Lemma pointInBounds_inverted (point : LatLng) (bounds : HitDetector.Bounds) :
  HitDetector.maxLat bounds < HitDetector.minLat bounds \/
  HitDetector.maxLng bounds < HitDetector.minLng bounds ->
  HitDetector.pointInBounds point bounds = false.
Proof.
  intros H. unfold HitDetector.pointInBounds, Rleb.
  repeat match goal with
         | |- context [Rle_dec ?a ?b] => destruct (Rle_dec a b)
         end; cbn [andb]; try reflexivity; exfalso; lra.
Qed.

Lemma isInBounds_inverted (item : Item) (bounds : HitDetector.Bounds) :
  HitDetector.maxLat bounds < HitDetector.minLat bounds \/
  HitDetector.maxLng bounds < HitDetector.minLng bounds ->
  HitDetector.isInBounds item bounds = false.
Proof.
  intros H.
  destruct item as [p | t | l | g | s];
    cbn [HitDetector.isInBounds item_lat item_points item_center isSome andb negb];
    try (now apply pointInBounds_inverted);
    apply existsb_none; intros; now apply pointInBounds_inverted.
Qed.

(** X17.  A selection box whose upper latitude is below its lower one, or
    whose upper longitude is below its lower one, contains nothing:
    [isInBounds] fails for every entity and [pickInBounds] is empty. *)
Theorem inverted_bounds_select_nothing (bounds : HitDetector.Bounds)
      (item : Item) (tools : list ToolObj) :
  HitDetector.maxLat bounds < HitDetector.minLat bounds \/
  HitDetector.maxLng bounds < HitDetector.minLng bounds ->
  HitDetector.isInBounds item bounds = false /\
  HitDetector.pickInBounds bounds tools = [].
Proof.
  intros H. split; [now apply isInBounds_inverted |].
  apply areaHits_none. intros it. now apply isInBounds_inverted.
Qed.

Lemma inverted_bounds_select_nothing_witness :
  HitDetector.isInBounds (IPoint samplePoint)
    {| HitDetector.minLat := 1; HitDetector.maxLat := -1;
       HitDetector.minLng := -1; HitDetector.maxLng := 1 |} = false /\
  HitDetector.pickInBounds
    {| HitDetector.minLat := 1; HitDetector.maxLat := -1;
       HitDetector.minLng := -1; HitDetector.maxLng := 1 |}
    (candidates (registry sampleWorld)) = [].
Proof.
  apply inverted_bounds_select_nothing. left.
  cbn [HitDetector.minLat HitDetector.maxLat]. lra.
Defined.

(** ** core/ToolManager.js *)

Lemma includes_has (name : string) (m : list (string * option ToolInst)) :
  ToolManager.includes name (map fst m) = ToolManager.has name m.
Proof.
  unfold ToolManager.includes, ToolManager.has.
  induction m as [| [k v] m IH]; [reflexivity |].
  cbn [map existsb fst]. now rewrite IH, String.eqb_sym.
Qed.

Lemma has_In (name : string) (m : list (string * option ToolInst)) :
  ToolManager.has name m = true <-> In name (map fst m).
Proof.
  unfold ToolManager.has. induction m as [| [k v] m IH]; cbn [existsb map fst In].
  - split; [discriminate | tauto].
  - rewrite orb_true_iff, IH, String.eqb_eq. tauto.
Qed.

Lemma keys_set (name : string) (tool : option ToolInst)
      (m : list (string * option ToolInst)) :
  map fst (ToolManager.set name tool m)
  = if ToolManager.has name m then map fst m else map fst m ++ [name].
Proof.
  unfold ToolManager.has.
  induction m as [| [k v] m IH]; [reflexivity |].
  cbn [ToolManager.set existsb fst].
  destruct (String.eqb k name) eqn:E; [reflexivity |].
  cbn [map fst orb]. rewrite IH.
  destruct (existsb _ m); reflexivity.
Qed.

Lemma keys_delete (name : string) (m : list (string * option ToolInst)) :
  map fst (ToolManager.delete name m)
  = filter (fun n => negb (String.eqb n name)) (map fst m).
Proof.
  unfold ToolManager.delete.
  induction m as [| [k v] m IH]; [reflexivity |].
  cbn [filter map fst]. destruct (String.eqb k name); cbn [negb map fst];
    now rewrite IH.
Qed.

Lemma filter_absent (name : string) (names : list string) :
  ~ In name names ->
  filter (fun n => negb (String.eqb n name)) names = names.
Proof.
  induction names as [| n names IH]; intros Hnot; [reflexivity |].
  cbn [filter]. destruct (String.eqb n name) eqn:E.
  - apply String.eqb_eq in E. exfalso. apply Hnot. now left.
  - cbn [negb]. f_equal. apply IH. intros Hin. apply Hnot. now right.
Qed.

(** On a list without repetitions, [indexOf] and [splice] take out the one
    entry equal to [name]. *)
Lemma splice_indexOf (name : string) (names : list string) :
  NoDup names ->
  match ToolManager.indexOf name names with
  | Some index => splice1 index names
  | None => names
  end = filter (fun n => negb (String.eqb n name)) names.
Proof.
  induction 1 as [| n names Hnot Hnd IH]; [reflexivity |].
  cbn [ToolManager.indexOf filter].
  destruct (String.eqb n name) eqn:E.
  - apply String.eqb_eq in E. subst n. cbn [negb].
    unfold splice1. cbn [firstn skipn app].
    symmetry. now apply filter_absent.
  - cbn [negb]. rewrite <- IH.
    destruct (ToolManager.indexOf name names) as [i |]; reflexivity.
Qed.

Lemma NoDup_filter {A : Type} (f : A -> bool) (l : list A) :
  NoDup l -> NoDup (filter f l).
Proof.
  induction 1 as [| a l Hnot Hnd IH]; [constructor |].
  cbn [filter]. destruct (f a); [| exact IH].
  constructor; [| exact IH]. intros Hin. apply filter_In in Hin. tauto.
Qed.

Lemma has_set_same (name : string) (tool : option ToolInst)
      (m : list (string * option ToolInst)) :
  ToolManager.has name (ToolManager.set name tool m) = true.
Proof.
  apply has_In. rewrite keys_set.
  destruct (ToolManager.has name m) eqn:E.
  - now apply has_In.
  - apply in_or_app. right. now left.
Qed.

Lemma has_set_keeps (a name : string) (tool : option ToolInst)
      (m : list (string * option ToolInst)) :
  ToolManager.has a m = true ->
  ToolManager.has a (ToolManager.set name tool m) = true.
Proof.
  intros H. apply has_In. apply has_In in H. rewrite keys_set.
  destruct (ToolManager.has name m); [exact H |].
  apply in_or_app. now left.
Qed.

Lemma consistent_register (name : string) (tool : option ToolInst)
      (tm : ToolManager.t) :
  consistent tm -> consistent (ToolManager.register name tool tm).
Proof.
  intros (Horder & Hnd & Hactive).
  unfold consistent, ToolManager.getAllToolNames, ToolManager.getActiveName,
    ToolManager.hasTool in *.
  cbn [ToolManager.register ToolManager.tools ToolManager.registrationOrder
       ToolManager.activeTool].
  rewrite keys_set, Horder, includes_has.
  split; [reflexivity |]. split.
  - destruct (ToolManager.has name (ToolManager.tools tm)) eqn:E.
    + now rewrite <- Horder.
    + rewrite <- Horder. apply NoDup_app; [exact Hnd | repeat constructor; tauto |].
      intros n Hin [<- | []]. rewrite Horder in Hin. apply has_In in Hin. congruence.
  - destruct (ToolManager.activeTool tm) as [a |]; [| apply has_set_same].
    destruct a as [| c a']; [apply has_set_same |].
    now apply has_set_keeps.
Qed.

Lemma consistent_unregister (name : string) (tm : ToolManager.t) :
  consistent tm -> consistent (ToolManager.unregister name tm).
Proof.
  intros (Horder & Hnd & Hactive). unfold ToolManager.unregister.
  destruct (ToolManager.has name (ToolManager.tools tm)) eqn:Ehas;
    cbn [negb]; [| now repeat split].
  unfold consistent, ToolManager.getAllToolNames, ToolManager.getActiveName,
    ToolManager.hasTool in *.
  cbv zeta.
  cbn [ToolManager.tools ToolManager.registrationOrder ToolManager.activeTool].
  rewrite (splice_indexOf name _ Hnd), keys_delete, Horder.
  split; [reflexivity |]. split.
  - apply NoDup_filter. now rewrite <- Horder.
  - assert (Hkeep : forall a,
               String.eqb a name = false ->
               ToolManager.has a (ToolManager.tools tm) = true ->
               ToolManager.has a (ToolManager.delete name (ToolManager.tools tm))
               = true).
    { intros a Hne Ha. apply has_In. rewrite keys_delete.
      apply filter_In. split; [now apply has_In |]. now rewrite Hne. }
    unfold ToolManager.isActive.
    destruct (ToolManager.activeTool tm) as [a |]; [| exact I].
    destruct (String.eqb a name) eqn:Ea; [| now apply Hkeep].
    unfold ToolManager.firstOrNull.
    destruct (filter _ (map fst (ToolManager.tools tm))) as [| first rest] eqn:Ef;
      [exact I |].
    destruct (String.eqb first "") eqn:E0; [exact I |].
    apply has_In. rewrite keys_delete, Ef. now left.
Qed.

Lemma consistent_setActive (name : string) (tm : ToolManager.t) :
  consistent tm -> consistent (fst (fst (ToolManager.setActive name tm))).
Proof.
  intros (Horder & Hnd & Hactive). unfold ToolManager.setActive.
  destruct (ToolManager.has name (ToolManager.tools tm)) eqn:Ehas;
    cbn [negb fst]; now repeat split.
Qed.

Lemma consistent_calls (cs : list RegistryCall) (tm : ToolManager.t) :
  consistent tm -> consistent (fold_left (fun tm c => call c tm) cs tm).
Proof.
  revert tm. induction cs as [| c cs IH]; intros tm H; [exact H |].
  cbn [fold_left]. apply IH. destruct c; cbn [call].
  - now apply consistent_register.
  - now apply consistent_unregister.
  - now apply consistent_setActive.
Qed.

Lemma get_unique (m : list (string * option ToolInst)) (e : string * option ToolInst) :
  NoDup (map fst m) -> In e m -> ToolManager.get (fst e) m = Some (snd e).
Proof.
  unfold ToolManager.get.
  induction m as [| [k v] m IH]; intros Hnd Hin; [contradiction |].
  cbn [map fst] in Hnd. inversion Hnd as [| ? ? Hnot Hnd']. subst.
  cbn [find fst]. destruct Hin as [<- | Hin].
  - cbn [fst snd]. now rewrite String.eqb_refl.
  - destruct (String.eqb k (fst e)) eqn:E; [| now apply IH].
    apply String.eqb_eq in E. subst k. exfalso. apply Hnot.
    now apply in_map.
Qed.

(** X18.  Whatever sequence of [register], [unregister] and [setActive]
    calls is made on a new registry, the registration order lists exactly
    the names of the map, in the order of the map and each once; the number
    of tools is the length of that list; [getToolsInOrder] lists the entries
    of the map; and the active name, when there is one, is registered. *)
Theorem registry_stays_consistent (cs : list RegistryCall) :
  let tm := calls cs in
  ToolManager.registrationOrder tm = ToolManager.getAllToolNames tm /\
  NoDup (ToolManager.registrationOrder tm) /\
  ToolManager.getToolCount tm = length (ToolManager.registrationOrder tm) /\
  ToolManager.getToolsInOrder tm
  = map (fun e => (fst e, Some (snd e))) (ToolManager.tools tm) /\
  match ToolManager.getActiveName tm with
  | Some a => ToolManager.hasTool a tm = true
  | None => True
  end.
Proof.
  intros tm.
  assert (H : consistent tm).
  { apply consistent_calls. repeat split; constructor. }
  destruct H as (Horder & Hnd & Hactive).
  split; [exact Horder |]. split; [exact Hnd |]. split; [| split; [| exact Hactive]].
  - unfold ToolManager.getToolCount. rewrite Horder.
    unfold ToolManager.getAllToolNames. now rewrite length_map.
  - unfold ToolManager.getToolsInOrder. rewrite Horder.
    unfold ToolManager.getAllToolNames. rewrite map_map.
    apply map_ext_in. intros e He. f_equal.
    apply get_unique; [| exact He].
    rewrite Horder in Hnd. exact Hnd.
Qed.

Lemma get_set_same (name : string) (tool : option ToolInst)
      (m : list (string * option ToolInst)) :
  ToolManager.get name (ToolManager.set name tool m) = Some tool.
Proof.
  unfold ToolManager.get.
  induction m as [| [k v] m IH]; cbn [ToolManager.set find fst snd].
  - now rewrite String.eqb_refl.
  - destruct (String.eqb k name) eqn:E; cbn [find fst snd]; rewrite E;
      [reflexivity | exact IH].
Qed.

Lemma get_set_other (name name' : string) (tool : option ToolInst)
      (m : list (string * option ToolInst)) :
  name' <> name ->
  ToolManager.get name' (ToolManager.set name tool m) = ToolManager.get name' m.
Proof.
  intros Hne. apply String.eqb_neq in Hne. unfold ToolManager.get.
  induction m as [| [k v] m IH]; cbn [ToolManager.set find fst snd].
  - rewrite String.eqb_sym, Hne. reflexivity.
  - destruct (String.eqb k name) eqn:E; cbn [find fst snd].
    + apply String.eqb_eq in E. subst k.
      rewrite String.eqb_sym, Hne. reflexivity.
    + destruct (String.eqb k name'); [reflexivity | exact IH].
Qed.

Lemma length_set (name : string) (tool : option ToolInst)
      (m : list (string * option ToolInst)) :
  length (ToolManager.set name tool m)
  = if ToolManager.has name m then length m else S (length m).
Proof.
  rewrite <- (length_map fst), keys_set.
  destruct (ToolManager.has name m); rewrite ?length_app, !length_map;
    cbn [length]; lia.
Qed.

(** X19.  After [register(name, tool)] the name is registered and looking
    it up returns the tool just given (also when it replaces an earlier one);
    every other name looks up as before; the number of tools grows by one
    exactly when the name is new. *)
Theorem register_then_lookup (name name' : string) (tool : option ToolInst)
      (tm : ToolManager.t) :
  ToolManager.hasTool name (ToolManager.register name tool tm) = true /\
  ToolManager.getToolByName name (ToolManager.register name tool tm) = tool /\
  (name' <> name ->
   ToolManager.getToolByName name' (ToolManager.register name tool tm)
   = ToolManager.getToolByName name' tm) /\
  ToolManager.getToolCount (ToolManager.register name tool tm)
  = if ToolManager.hasTool name tm then ToolManager.getToolCount tm
    else S (ToolManager.getToolCount tm).
Proof.
  unfold ToolManager.hasTool, ToolManager.getToolByName, ToolManager.getToolCount.
  cbn [ToolManager.register ToolManager.tools].
  split; [apply has_set_same |]. split; [| split].
  - rewrite get_set_same. now destruct tool.
  - intros Hne. now rewrite get_set_other.
  - apply length_set.
Qed.

Lemma get_delete_same (name : string) (m : list (string * option ToolInst)) :
  ToolManager.get name (ToolManager.delete name m) = None.
Proof.
  unfold ToolManager.get, ToolManager.delete.
  induction m as [| [k v] m IH]; [reflexivity |].
  cbn [filter fst]. destruct (String.eqb k name) eqn:E; cbn [negb]; [exact IH |].
  cbn [find fst]. now rewrite E.
Qed.

Lemma get_delete_other (name name' : string)
      (m : list (string * option ToolInst)) :
  name' <> name ->
  ToolManager.get name' (ToolManager.delete name m) = ToolManager.get name' m.
Proof.
  intros Hne. unfold ToolManager.get, ToolManager.delete.
  induction m as [| [k v] m IH]; [reflexivity |].
  cbn [filter fst find]. destruct (String.eqb k name) eqn:E; cbn [negb].
  - apply String.eqb_eq in E. subst k.
    apply String.eqb_neq in Hne. rewrite String.eqb_sym, Hne. exact IH.
  - cbn [find fst]. destruct (String.eqb k name'); [reflexivity | exact IH].
Qed.

Lemma has_delete_same (name : string) (m : list (string * option ToolInst)) :
  ToolManager.has name (ToolManager.delete name m) = false.
Proof.
  destruct (ToolManager.has name (ToolManager.delete name m)) eqn:E;
    [| reflexivity].
  apply has_In in E. rewrite keys_delete in E. apply filter_In in E.
  destruct E as [_ E]. rewrite String.eqb_refl in E. discriminate.
Qed.

(** X20.  After [unregister(name)] the name is no longer registered and
    looks up as [null]; every other name looks up as before; unregistering a
    name that is not registered changes nothing; and when the active tool is
    the one unregistered, the first remaining name in registration order
    becomes active ([null] when none remains or that name is empty). *)
Theorem unregister_then_lookup (name name' : string) (tm : ToolManager.t) :
  ToolManager.hasTool name (ToolManager.unregister name tm) = false /\
  ToolManager.getToolByName name (ToolManager.unregister name tm) = None /\
  (name' <> name ->
   ToolManager.getToolByName name' (ToolManager.unregister name tm)
   = ToolManager.getToolByName name' tm) /\
  (ToolManager.hasTool name tm = false -> ToolManager.unregister name tm = tm) /\
  (ToolManager.hasTool name tm = true ->
   ToolManager.getActiveName (ToolManager.unregister name tm)
   = if ToolManager.isActive name tm
     then ToolManager.firstOrNull
            (ToolManager.registrationOrder (ToolManager.unregister name tm))
     else ToolManager.getActiveName tm).
Proof.
  unfold ToolManager.hasTool, ToolManager.getToolByName, ToolManager.unregister,
    ToolManager.getActiveName.
  destruct (ToolManager.has name (ToolManager.tools tm)) eqn:Ehas; cbn [negb].
  - cbv zeta. cbn [ToolManager.tools ToolManager.activeTool
                   ToolManager.registrationOrder].
    split; [apply has_delete_same |]. split; [| split; [| split]].
    + now rewrite get_delete_same.
    + intros Hne. now rewrite get_delete_other.
    + discriminate.
    + intros _. unfold ToolManager.isActive.
      cbn [ToolManager.activeTool]. reflexivity.
  - split; [exact Ehas |]. split; [| split; [| split]].
    + unfold ToolManager.get.
      destruct (find _ (ToolManager.tools tm)) as [e |] eqn:Ef; [| reflexivity].
      apply find_some in Ef. destruct Ef as [Hin He].
      apply String.eqb_eq in He.
      assert (ToolManager.has name (ToolManager.tools tm) = true).
      { apply has_In. rewrite <- He. now apply in_map. }
      congruence.
    + reflexivity.
    + reflexivity.
    + discriminate.
Qed.

(** ** core/AppState.js *)

(** X21.  After [setMode(mode)] the mode is [mode].  When [mode] is a
    registered tool name and the mode and the active tool were in step, they
    still are; when it is not registered, the mode changes all the same while
    the registry, and so the active tool, stays as it was. *)
Theorem setMode_mode_and_tool (mode : string) (this : AppState.t) :
  let this' := fst (fst (AppState.setMode mode this)) in
  AppState.getMode this' = mode /\
  (ToolManager.hasTool mode (AppState.toolManager this) = true ->
   ToolManager.getActiveName (AppState.toolManager this)
   = Some (AppState.getMode this) ->
   ToolManager.getActiveName (AppState.toolManager this') = Some mode) /\
  (ToolManager.hasTool mode (AppState.toolManager this) = false ->
   AppState.toolManager this' = AppState.toolManager this).
Proof.
  cbv zeta. unfold AppState.setMode, AppState.getMode, ToolManager.setActive,
    ToolManager.hasTool, ToolManager.getActiveName.
  destruct (String.eqb (AppState.currentMode this) mode) eqn:E.
  - apply String.eqb_eq in E. cbn [fst].
    split; [exact E |]. split; [| reflexivity].
    intros _ H. now rewrite H, E.
  - destruct (ToolManager.has mode (ToolManager.tools (AppState.toolManager this)));
      cbn [negb fst AppState.currentMode AppState.toolManager
           ToolManager.activeTool];
      (split; [reflexivity |]); split; intros; try reflexivity; discriminate.
Qed.

(** X22.  [AppState.clearAll] leaves every tool of the registry with an
    empty collection and with the draft it had.  In the application it does
    what [ToolManager.clearAllData] does, the drawing tools of [AppState]
    are those of [ToolManager], [getStats] reports the size of each of the
    five collections and their sum as the total, and all six numbers are 0
    after [clearAll]. *)
Theorem clearAll_and_getStats (this : AppState.t) (mode : string)
      (a : PointsTool.t) (b : PolylineTool.t) (c : PolygonTool.t)
      (d : SectorTool.t) (e : TextTool.t) :
  (forall ref tool,
      In (ref, tool) (ToolManager.getAllTools (AppState.toolManager this)) ->
      ToolManager.getTool ref (AppState.toolManager (AppState.clearAll this))
      = Some (truncateItems tool) /\
      tool_items (truncateItems tool) = option_map (fun _ => []) (tool_items tool) /\
      tool_draft (truncateItems tool) = tool_draft tool) /\
  AppState.toolManager (AppState.clearAll (application mode a b c d e))
  = ToolManager.clearAllData (mainRegistry a b c d e) /\
  AppState.getDrawingTools (application mode a b c d e)
  = ToolManager.getDrawingTools (mainRegistry a b c d e) /\
  AppState.getStats (application mode a b c d e)
  = {| AppState.st_points := length (PointsTool.points a);
       AppState.st_lines := length (PolylineTool.lines b);
       AppState.st_polygons := length (PolygonTool.polygons c);
       AppState.st_sectors := length (SectorTool.sectors d);
       AppState.st_texts := length (TextTool.texts e);
       AppState.st_total :=
         length (PointsTool.points a) + length (PolylineTool.lines b) +
         length (PolygonTool.polygons c) + length (SectorTool.sectors d) +
         length (TextTool.texts e) |} /\
  AppState.getStats (AppState.clearAll (application mode a b c d e))
  = {| AppState.st_points := 0; AppState.st_lines := 0;
       AppState.st_polygons := 0; AppState.st_sectors := 0;
       AppState.st_texts := 0; AppState.st_total := 0 |}.
Proof.
  split; [| split; [| split; [| split]]].
  - intros ref tool Hin. split; [| split].
    + unfold AppState.clearAll. cbn [AppState.toolManager].
      rewrite clear_loop_getTool.
      assert (Hex : existsb (Nat.eqb ref)
                      (map fst (ToolManager.getAllTools
                                  (AppState.toolManager this))) = true).
      { apply existsb_exists. exists ref. split; [| apply Nat.eqb_refl].
        apply in_map_iff. now exists (ref, tool). }
      rewrite Hex. apply getAllTools_getTool in Hin. now rewrite Hin.
    + destruct tool; reflexivity.
    + destruct tool; reflexivity.
  - reflexivity.
  - reflexivity.
  - unfold AppState.getStats. cbv zeta.
    change (AppState.getDrawingTools (application mode a b c d e))
      with [(1%nat, TPoints a); (2%nat, TPolyline b); (3%nat, TPolygon c);
            (4%nat, TSector d); (5%nat, TText e)].
    unfold AppState._countItems.
    cbn [find snd tool_collection tool_items isSome fold_left].
    rewrite !length_map. cbn [Nat.add]. reflexivity.
  - reflexivity.
Qed.

(** ** tools *)

(** X23.  [finish] on any tool either completes normally, and then no draft
    is pending, the collection is as it was or has the former draft appended
    as its last entity, and a second [finish] changes nothing more; or it
    raises, which only the text tool does, with a draft that has no text, and
    then nothing has changed at all.  The delete tool has no [finish].  After
    [cancel], [finish] commits nothing. *)
Theorem finish_commits_at_most_the_draft (tool : ToolInst) :
  match tool_finish tool with
  | Some (tool', Normal) =>
      tool_draft tool' = None /\
      (tool_items tool' = tool_items tool \/
       exists d, tool_draft tool = Some d /\
                 tool_items tool'
                 = option_map (fun items => items ++ [d]) (tool_items tool)) /\
      tool_finish tool' = Some (tool', Normal)
  | Some (tool', TypeError) =>
      tool' = tool /\
      exists t d, tool = TText t /\ TextTool._draft t = Some d /\ t_text d = None
  | None => tool = TDelete
  end /\
  match tool_finish (tool_cancel tool) with
  | Some (tool', completion) =>
      completion = Normal /\ tool_items tool' = tool_items tool
  | None => tool = TDelete
  end.
Proof.
  split.
  - destruct tool as [t | t | t | t | t | |]; cbn [tool_finish].
    + repeat split. now left.
    + unfold PolylineTool.finish.
      destruct (PolylineTool._draft t) as [d |] eqn:Ed.
      * destruct (1 <? length (l_points d))%nat; cbn [tool_draft tool_items
          PolylineTool._draft PolylineTool.lines option_map].
        -- repeat split. right. exists (ILine d). rewrite Ed. cbn [option_map].
           split; [reflexivity |]. now rewrite map_app.
        -- repeat split. now left.
      * repeat split. now left.
    + unfold PolygonTool.finish.
      destruct (PolygonTool._draft t) as [d |] eqn:Ed.
      * destruct (2 <? length (g_points d))%nat; cbn [tool_draft tool_items
          PolygonTool._draft PolygonTool.polygons option_map].
        -- repeat split. right. exists (IPolygon d). rewrite Ed. cbn [option_map].
           split; [reflexivity |]. now rewrite map_app.
        -- repeat split. now left.
      * repeat split. now left.
    + unfold SectorTool.finish.
      destruct (SectorTool._draft t) as [d |] eqn:Ed.
      * cbn [tool_draft tool_items SectorTool._draft SectorTool.sectors option_map].
        repeat split. right. exists (ISector d). rewrite Ed. cbn [option_map].
        split; [reflexivity |]. now rewrite map_app.
      * repeat split;
          [cbn [tool_draft]; now rewrite Ed | now left | now rewrite Ed].
    + unfold TextTool.finish.
      destruct (TextTool._draft t) as [d |] eqn:Ed.
      * destruct (t_text d) as [s |] eqn:Es.
        -- destruct (negb (String.eqb (trim s) "")); cbn [fst snd tool_draft
             tool_items TextTool._draft TextTool.texts option_map].
           ++ repeat split. right. exists (IText d). rewrite Ed. cbn [option_map].
              split; [reflexivity |]. now rewrite map_app.
           ++ repeat split. now left.
        -- cbn [fst snd]. split; [reflexivity |]. now exists t, d.
      * cbn [fst snd]. repeat split. now left.
    + repeat split. now left.
    + reflexivity.
  - destruct tool as [t | t | t | t | t | |]; cbn [tool_cancel tool_finish];
      try (split; reflexivity); reflexivity.
Qed.

Lemma line_session_from_draft (es : list DrawEvent) (tool : PolylineTool.t)
      (d : LineItem) :
  PolylineTool._draft tool = Some d ->
  PolylineTool.lines (fold_left lineEvent es tool) = PolylineTool.lines tool /\
  PolylineTool._draft (fold_left lineEvent es tool)
  = Some {| l_points := l_points d ++ map vertexAt (clicked es);
            l_color := l_color d; l_style := l_style d |}.
Proof.
  revert tool d. induction es as [| e es IH]; intros tool d Hd.
  - cbn [fold_left clicked map]. rewrite app_nil_r. split; [reflexivity |].
    rewrite Hd. now destruct d.
  - cbn [fold_left]. destruct e as [st p | p].
    + destruct (IH (PolylineTool.add st p tool)
                   {| l_points := l_points d ++ [vertexAt p];
                      l_color := l_color d; l_style := l_style d |})
        as [Hl Hdr].
      { unfold PolylineTool.add. cbv zeta. now rewrite Hd. }
      cbn [lineEvent]. rewrite Hl, Hdr. split; [reflexivity |].
      cbn [clicked map l_points l_color l_style]. now rewrite <- app_assoc.
    + destruct (IH (PolylineTool.onMouseMove p tool) d) as [Hl Hdr].
      { unfold PolylineTool.onMouseMove. now rewrite Hd. }
      cbn [lineEvent]. rewrite Hl, Hdr. split; [| reflexivity].
      unfold PolylineTool.onMouseMove. now rewrite Hd.
Qed.

Lemma line_session (es : list DrawEvent) (tool : PolylineTool.t) :
  PolylineTool._draft tool = None ->
  PolylineTool.lines (fold_left lineEvent es tool) = PolylineTool.lines tool /\
  PolylineTool._draft (fold_left lineEvent es tool) = drawnLine es.
Proof.
  revert tool. induction es as [| e es IH]; intros tool Hd.
  - now split.
  - cbn [fold_left]. destruct e as [st p | p].
    + destruct (line_session_from_draft es (PolylineTool.add st p tool)
                  {| l_points := [vertexAt p];
                     l_color := ls_color (StyleManager.line st);
                     l_style := ls_style (StyleManager.line st) |})
        as [Hl Hdr].
      { unfold PolylineTool.add. cbv zeta. now rewrite Hd. }
      cbn [lineEvent]. rewrite Hl, Hdr. split; reflexivity.
    + cbn [lineEvent]. unfold PolylineTool.onMouseMove. rewrite Hd.
      cbn [isSome]. unfold drawnLine. cbn [firstStyles clicked].
      now apply IH.
Qed.

Lemma polygon_session_from_draft (es : list DrawEvent) (tool : PolygonTool.t)
      (d : PolygonItem) :
  PolygonTool._draft tool = Some d ->
  PolygonTool.polygons (fold_left polygonEvent es tool)
  = PolygonTool.polygons tool /\
  PolygonTool._draft (fold_left polygonEvent es tool)
  = Some {| g_points :=
              g_points d ++ map (fun p => mkLatLng (lat p) (lng p)) (clicked es);
            g_color := g_color d; g_alpha := g_alpha d |}.
Proof.
  revert tool d. induction es as [| e es IH]; intros tool d Hd.
  - cbn [fold_left clicked map]. rewrite app_nil_r. split; [reflexivity |].
    rewrite Hd. now destruct d.
  - cbn [fold_left]. destruct e as [st p | p].
    + destruct (IH (PolygonTool.add st p tool)
                   {| g_points := g_points d ++ [mkLatLng (lat p) (lng p)];
                      g_color := g_color d; g_alpha := g_alpha d |})
        as [Hl Hdr].
      { unfold PolygonTool.add. cbv zeta. now rewrite Hd. }
      cbn [polygonEvent]. rewrite Hl, Hdr. split; [reflexivity |].
      cbn [clicked map g_points g_color g_alpha]. now rewrite <- app_assoc.
    + destruct (IH (PolygonTool.onMouseMove p tool) d) as [Hl Hdr].
      { unfold PolygonTool.onMouseMove. now rewrite Hd. }
      cbn [polygonEvent]. rewrite Hl, Hdr. split; [| reflexivity].
      unfold PolygonTool.onMouseMove. now rewrite Hd.
Qed.

Lemma polygon_session (es : list DrawEvent) (tool : PolygonTool.t) :
  PolygonTool._draft tool = None ->
  PolygonTool.polygons (fold_left polygonEvent es tool)
  = PolygonTool.polygons tool /\
  PolygonTool._draft (fold_left polygonEvent es tool) = drawnPolygon es.
Proof.
  revert tool. induction es as [| e es IH]; intros tool Hd.
  - now split.
  - cbn [fold_left]. destruct e as [st p | p].
    + destruct (polygon_session_from_draft es (PolygonTool.add st p tool)
                  {| g_points := [mkLatLng (lat p) (lng p)];
                     g_color := gs_color (StyleManager.polygon st);
                     g_alpha := gs_alpha (StyleManager.polygon st) |})
        as [Hl Hdr].
      { unfold PolygonTool.add. cbv zeta. now rewrite Hd. }
      cbn [polygonEvent]. rewrite Hl, Hdr. split; reflexivity.
    + cbn [polygonEvent]. unfold PolygonTool.onMouseMove. rewrite Hd.
      cbn [isSome]. unfold drawnPolygon. cbn [firstStyles clicked].
      now apply IH.
Qed.

(** X24.  A drawing session on a line or polygon tool without a pending
    draft: whatever clicks and pointer moves it is made of, [finish] then
    leaves no draft and no hover position, and the collection has gained
    exactly one entity when the session had at least two clicks (three for a
    polygon), none otherwise.  The entity has the places clicked as its
    vertices, in order, with no elevation yet, and the colour and style the
    style manager held at the first click; pointer moves and later changes
    of style leave no trace. *)
Theorem drawing_session_commits (es : list DrawEvent)
      (lineTool : PolylineTool.t) (polygonTool : PolygonTool.t) :
  PolylineTool._draft lineTool = None ->
  PolygonTool._draft polygonTool = None ->
  PolylineTool.finish (fold_left lineEvent es lineTool)
  = {| PolylineTool.lines :=
         PolylineTool.lines lineTool ++
         match drawnLine es with
         | Some l => if (2 <=? length (clicked es))%nat then [l] else []
         | None => []
         end;
       PolylineTool._draft := None; PolylineTool._hover := None |} /\
  PolygonTool.finish (fold_left polygonEvent es polygonTool)
  = {| PolygonTool.polygons :=
         PolygonTool.polygons polygonTool ++
         match drawnPolygon es with
         | Some g => if (3 <=? length (clicked es))%nat then [g] else []
         | None => []
         end;
       PolygonTool._draft := None; PolygonTool._hover := None |}.
Proof.
  intros Hl Hg. split.
  - destruct (line_session es lineTool Hl) as [Hlines Hdraft].
    unfold PolylineTool.finish. rewrite Hdraft, Hlines.
    unfold drawnLine. destruct (firstStyles es) as [st |];
      [| now rewrite app_nil_r].
    cbn [l_points]. rewrite length_map.
    change (1 <? length (clicked es))%nat
      with (2 <=? length (clicked es))%nat.
    destruct (2 <=? length (clicked es))%nat; [reflexivity |].
    now rewrite app_nil_r.
  - destruct (polygon_session es polygonTool Hg) as [Hpolys Hdraft].
    unfold PolygonTool.finish. rewrite Hdraft, Hpolys.
    unfold drawnPolygon. destruct (firstStyles es) as [st |];
      [| now rewrite app_nil_r].
    cbn [g_points]. rewrite length_map.
    change (2 <? length (clicked es))%nat
      with (3 <=? length (clicked es))%nat.
    destruct (3 <=? length (clicked es))%nat; [reflexivity |].
    now rewrite app_nil_r.
Qed.

Lemma drawing_session_commits_witness :
  PolylineTool.finish
    (fold_left lineEvent
       [Click getDefaults (mkLatLng 0 0); Hover (mkLatLng 0 1);
        Click getDefaults (mkLatLng 1 1)] PolylineTool.create)
  = {| PolylineTool.lines :=
         PolylineTool.lines PolylineTool.create ++
         match drawnLine [Click getDefaults (mkLatLng 0 0); Hover (mkLatLng 0 1);
                          Click getDefaults (mkLatLng 1 1)] with
         | Some l =>
             if (2 <=? length (clicked [Click getDefaults (mkLatLng 0 0);
                                        Hover (mkLatLng 0 1);
                                        Click getDefaults (mkLatLng 1 1)]))%nat
             then [l] else []
         | None => []
         end;
       PolylineTool._draft := None; PolylineTool._hover := None |} /\
  PolygonTool.finish
    (fold_left polygonEvent
       [Click getDefaults (mkLatLng 0 0); Hover (mkLatLng 0 1);
        Click getDefaults (mkLatLng 1 1)] PolygonTool.create)
  = {| PolygonTool.polygons :=
         PolygonTool.polygons PolygonTool.create ++
         match drawnPolygon [Click getDefaults (mkLatLng 0 0);
                             Hover (mkLatLng 0 1);
                             Click getDefaults (mkLatLng 1 1)] with
         | Some g =>
             if (3 <=? length (clicked [Click getDefaults (mkLatLng 0 0);
                                        Hover (mkLatLng 0 1);
                                        Click getDefaults (mkLatLng 1 1)]))%nat
             then [g] else []
         | None => []
         end;
       PolygonTool._draft := None; PolygonTool._hover := None |}.
Proof. apply drawing_session_commits; reflexivity. Defined.

Lemma lastAim_default (es : list SectorEvent) (m : LatLng) :
  lastAim es (Some m)
  = match lastAim es None with Some x => Some x | None => Some m end.
Proof.
  revert m. induction es as [| e es IH]; intros m; [reflexivity |].
  destruct e as [p | deg]; cbn [lastAim]; [| apply IH].
  rewrite (IH p). now destruct (lastAim es None).
Qed.

Lemma sector_session_from_draft (es : list SectorEvent) (st : Styles)
      (tool : SectorTool.t) (d : SectorItem) :
  SectorTool._draft tool = Some d ->
  let after := fold_left sectorEvent es (st, tool) in
  SectorTool.sectors (snd after) = SectorTool.sectors tool /\
  SectorTool._draft (snd after)
  = Some {| s_center := s_center d;
            s_radius := match lastAim es None with
                        | Some m => distance (s_center d) m
                        | None => s_radius d
                        end;
            s_bearing := match lastAim es None with
                         | Some m => bearing (s_center d) m
                         | None => s_bearing d
                         end;
            s_elev := s_elev d;
            s_color := s_color d;
            s_angle := lastAngle es (s_angle d) |} /\
  ss_angle (StyleManager.sector (fst after))
  = lastAngle es (ss_angle (StyleManager.sector st)) /\
  ss_color (StyleManager.sector (fst after)) = ss_color (StyleManager.sector st).
Proof.
  revert st tool d. induction es as [| e es IH]; intros st tool d Hd; cbv zeta.
  - cbn [fold_left snd fst lastAim lastAngle]. rewrite Hd.
    repeat split. now destruct d.
  - cbn [fold_left]. destruct e as [p | deg]; cbn [sectorEvent fst snd].
    + specialize (IH st (SectorTool.onMouseMove p tool)
                     {| s_center := s_center d;
                        s_radius := distance (s_center d) p;
                        s_bearing := bearing (s_center d) p;
                        s_elev := s_elev d; s_color := s_color d;
                        s_angle := s_angle d |}).
      cbv zeta in IH.
      destruct IH as (Hs & Hdr & Ha & Hc).
      { unfold SectorTool.onMouseMove. now rewrite Hd. }
      rewrite Hs, Hdr, Ha, Hc. cbn [lastAim lastAngle s_center s_radius
        s_bearing s_elev s_color s_angle].
      rewrite lastAim_default.
      split; [unfold SectorTool.onMouseMove; now rewrite Hd |].
      split; [| split; reflexivity].
      now destruct (lastAim es None).
    + specialize (IH (fst (SectorTool.setAngle deg st tool))
                     (snd (SectorTool.setAngle deg st tool))
                     {| s_center := s_center d;
                        s_radius := s_radius d;
                        s_bearing := s_bearing d;
                        s_elev := s_elev d; s_color := s_color d;
                        s_angle := deg |}).
      cbv zeta in IH.
      destruct IH as (Hs & Hdr & Ha & Hc).
      { unfold SectorTool.setAngle. cbn [snd]. now rewrite Hd. }
      rewrite <- surjective_pairing in Hs, Hdr, Ha, Hc.
      rewrite Hs, Hdr, Ha, Hc. cbn [lastAim lastAngle s_center s_radius
        s_bearing s_elev s_color s_angle].
      split; [unfold SectorTool.setAngle; cbn [snd]; now rewrite Hd |].
      split; [reflexivity |]. split; reflexivity.
Qed.

(** X25.  A sector is made by two clicks.  On a sector tool without a
    pending draft, after a first click, any pointer moves and changes of the
    opening angle, and a second click, the collection has gained exactly one
    sector and no draft is pending.  Its centre is the place of the first
    click; its radius and bearing are the distance and the bearing from the
    centre to the last place the pointer moved to (0 and 0 when it did not
    move); its colour is the one the style manager held at the first click;
    its angle is the last one set, otherwise the one of the first click.
    The place of the second click plays no role. *)
Theorem sector_two_clicks (st st2 : Styles) (tool : SectorTool.t)
      (c p2 : LatLng) (es : list SectorEvent) :
  SectorTool._draft tool = None ->
  SectorTool.add st2 p2
    (snd (fold_left sectorEvent es (st, SectorTool.add st c tool)))
  = {| SectorTool.sectors :=
         SectorTool.sectors tool ++
         [ {| s_center := c;
              s_radius := match lastAim es None with
                          | Some m => distance c m
                          | None => 0
                          end;
              s_bearing := match lastAim es None with
                           | Some m => bearing c m
                           | None => 0
                           end;
              s_elev := None;
              s_color := ss_color (StyleManager.sector st);
              s_angle := lastAngle es (ss_angle (StyleManager.sector st)) |} ];
       SectorTool._draft := None |}.
Proof.
  intros Hd.
  pose proof (sector_session_from_draft es st (SectorTool.add st c tool)
                {| s_center := mkLatLng (lat c) (lng c);
                   s_radius := 0; s_bearing := 0; s_elev := None;
                   s_color := ss_color (StyleManager.sector st);
                   s_angle := ss_angle (StyleManager.sector st) |}) as H.
  cbv zeta in H. destruct H as (Hs & Hdr & _ & _).
  { unfold SectorTool.add. now rewrite Hd. }
  unfold SectorTool.add at 1. rewrite Hdr, Hs.
  unfold SectorTool.add. rewrite Hd.
  cbn [SectorTool.sectors s_center s_radius s_bearing s_elev s_color s_angle].
  now destruct c.
Qed.

Lemma sector_two_clicks_witness :
  SectorTool.add getDefaults (mkLatLng 9 9)
    (snd (fold_left sectorEvent [Aim (mkLatLng 0 1); Angle 90]
            (getDefaults, SectorTool.add getDefaults (mkLatLng 0 0)
                                         SectorTool.create)))
  = {| SectorTool.sectors :=
         SectorTool.sectors SectorTool.create ++
         [ {| s_center := mkLatLng 0 0;
              s_radius := match lastAim [Aim (mkLatLng 0 1); Angle 90] None with
                          | Some m => distance (mkLatLng 0 0) m
                          | None => 0
                          end;
              s_bearing := match lastAim [Aim (mkLatLng 0 1); Angle 90] None with
                           | Some m => bearing (mkLatLng 0 0) m
                           | None => 0
                           end;
              s_elev := None;
              s_color := ss_color (StyleManager.sector getDefaults);
              s_angle := lastAngle [Aim (mkLatLng 0 1); Angle 90]
                                   (ss_angle (StyleManager.sector getDefaults)) |} ];
       SectorTool._draft := None |}.
Proof. apply sector_two_clicks. reflexivity. Defined.

(** ** tools/MoveTool.js *)

Lemma translate_zero (item : Item) : translate item 0 0 = item.
Proof.
  assert (Hv : forall l, map (translateVertex 0 0) l = l).
  { intros l. rewrite <- (map_id l) at 2. apply map_ext.
    intros [la ln el]. unfold translateVertex. cbn [v_lat v_lng v_elev].
    f_equal; lra. }
  assert (Hp : forall l, map (translateLatLng 0 0) l = l).
  { intros l. rewrite <- (map_id l) at 2. apply map_ext.
    intros [la ln]. unfold translateLatLng. cbn [lat lng]. f_equal; lra. }
  destruct item as [p | t | l | g | s]; cbn [translate].
  - destruct p. cbn. do 2 f_equal; lra.
  - destruct t. cbn. do 2 f_equal; lra.
  - rewrite Hv. now destruct l.
  - rewrite Hp. now destruct g.
  - destruct s as [[la ln] r b e c a]. unfold translateLatLng. cbn.
    do 3 f_equal; lra.
Qed.

Lemma replaceAt_same {A : Type} (i : nat) (a : A) (l : list A) :
  nth_error l i = Some a -> MoveTool.replaceAt i a l = l.
Proof.
  revert i. induction l as [| b l IH]; intros [| i] H; cbn in *;
    try discriminate.
  - now injection H as ->.
  - f_equal. now apply IH.
Qed.

Lemma replaceAt_length {A : Type} (i : nat) (a : A) (l : list A) :
  length (MoveTool.replaceAt i a l) = length l.
Proof.
  revert i. induction l as [| b l IH]; intros [| i]; cbn; auto.
Qed.

Lemma replaceAt_other {A : Type} (i j : nat) (a : A) (l : list A) :
  j <> i -> nth_error (MoveTool.replaceAt i a l) j = nth_error l j.
Proof.
  revert i j. induction l as [| b l IH]; intros [| i] [| j] H; cbn;
    try reflexivity; try congruence.
  apply IH. congruence.
Qed.

Lemma storeItem_same (tool : ToolInst) (i : nat) (item : Item) :
  nth_error (HitDetector.extractItems tool) i = Some item ->
  MoveTool.storeItem i item tool = tool.
Proof.
  intros H.
  destruct tool as [t | t | t | t | t | |];
    cbn [HitDetector.extractItems tool_items] in H;
    try (destruct i; discriminate H);
    rewrite nth_error_map in H;
    match type of H with
    | option_map _ (nth_error ?l i) = _ =>
        destruct (nth_error l i) as [x |] eqn:E; [| discriminate H]
    end;
    cbn [option_map] in H; injection H as <-; cbn [MoveTool.storeItem];
    rewrite (replaceAt_same _ _ _ E); now destruct t.
Qed.

Lemma storeItem_frame (tool : ToolInst) (i : nat) (item : Item) :
  tool_draft (MoveTool.storeItem i item tool) = tool_draft tool /\
  tool_getItemCount (MoveTool.storeItem i item tool) = tool_getItemCount tool /\
  forall j, j <> i ->
    nth_error (HitDetector.extractItems (MoveTool.storeItem i item tool)) j
    = nth_error (HitDetector.extractItems tool) j.
Proof.
  unfold tool_getItemCount, HitDetector.extractItems.
  destruct tool as [t | t | t | t | t | |], item as [p | x | l | g | s];
    cbn [MoveTool.storeItem tool_draft tool_items
         PointsTool.points PolylineTool.lines PolylineTool._draft
         PolygonTool.polygons PolygonTool._draft SectorTool.sectors
         SectorTool._draft TextTool.texts TextTool._draft];
    (split; [reflexivity |]); (split; [| intros j Hj]);
    rewrite ?length_map, ?replaceAt_length, ?nth_error_map,
      ?(replaceAt_other _ _ _ _ Hj); reflexivity.
Qed.

Lemma updateSlot_same (f : ToolInst -> ToolInst)
      (m : list (string * option ToolInst)) (r : nat) :
  (forall k tool, nth_error m r = Some (k, Some tool) -> f tool = tool) ->
  ToolManager.updateSlot r f m = m.
Proof.
  revert r. induction m as [| [k v] m IH]; intros [| r] H; cbn; try reflexivity.
  - destruct v as [tool |]; [| reflexivity].
    cbn. now rewrite (H k tool eq_refl).
  - f_equal. apply IH. intros k' tool Hn. exact (H k' tool Hn).
Qed.

Lemma writeItem_same (tm : ToolManager.t) (target : ToolRef * nat)
      (item : Item) :
  MoveTool.readItem tm target = Some item ->
  MoveTool.writeItem target item tm = tm.
Proof.
  intros H. apply readItem_inv in H. destruct H as [tool [Htool Hnth]].
  unfold MoveTool.writeItem, ToolManager.updateTool.
  rewrite updateSlot_same; [now destruct tm |].
  intros k tool' Hk. unfold ToolManager.getTool in Htool. rewrite Hk in Htool.
  injection Htool as ->. now apply storeItem_same.
Qed.

Lemma pointerMoves_idle (path : list LatLng) (w : World) :
  MoveTool._target (moveTool w) = None -> pointerMoves path w = Some w.
Proof.
  intros H. induction path as [| p path IH]; [reflexivity |].
  cbn [pointerMoves]. unfold pointerMove, MoveTool.onMouseMove.
  rewrite H. destruct w. exact IH.
Qed.

(** X26.  A drag with the move tool changes the entity under the pointer
    and nothing else.  When nothing is under the pointer at pointer-down
    (and no earlier drag is pending), the registry is unchanged whatever the
    pointer does.  When an entity is hit: a drag that ends where it started
    leaves the registry exactly as it was, whatever the path in between;
    and after any drag every draft is as before, every collection has as
    many entities as before, and every entity other than the one hit is as
    it was. *)
Theorem drag_changes_only_the_target (hd : HitDetector.t) (w : World)
      (start q : LatLng) (pre path : list LatLng) :
  (HitDetector.pick hd start (candidates (registry w)) = None ->
   MoveTool._target (moveTool w) = None ->
   drag hd start path w
   = Some {| registry := registry w; moveTool := MoveTool.create |}) /\
  (forall hit,
      HitDetector.pick hd start (candidates (registry w)) = Some hit ->
      drag hd start (pre ++ [start]) w
      = Some {| registry := registry w; moveTool := MoveTool.create |} /\
      exists w',
        drag hd start (pre ++ [q]) w = Some w' /\
        forall ref,
          option_map tool_draft (ToolManager.getTool ref (registry w'))
          = option_map tool_draft (ToolManager.getTool ref (registry w)) /\
          option_map tool_getItemCount (ToolManager.getTool ref (registry w'))
          = option_map tool_getItemCount (ToolManager.getTool ref (registry w)) /\
          forall index,
            (ref, index) <> (HitDetector.ph_tool hit, HitDetector.ph_index hit) ->
            MoveTool.readItem (registry w') (ref, index)
            = MoveTool.readItem (registry w) (ref, index)).
Proof.
  split.
  - intros Hpick Hidle. unfold drag, pointerDown, MoveTool.onMouseDown.
    fold (candidates (registry w)). rewrite Hpick.
    rewrite pointerMoves_idle by exact Hidle. reflexivity.
  - intros hit Hpick. split.
    + rewrite (drag_result hd start pre start w hit Hpick).
      replace (lat start - lat start) with 0 by ring.
      replace (lng start - lng start) with 0 by ring.
      rewrite translate_zero, writeItem_same; [reflexivity |].
      now apply (pick_readItem hd start).
    + rewrite (drag_result hd start pre q w hit Hpick).
      eexists. split; [reflexivity |].
      cbn [registry]. intros ref. unfold MoveTool.writeItem, MoveTool.readItem.
      cbn [fst snd]. rewrite getTool_updateTool.
      destruct (Nat.eqb ref (HitDetector.ph_tool hit)) eqn:E.
      * apply Nat.eqb_eq in E. subst ref.
        destruct (ToolManager.getTool (HitDetector.ph_tool hit) (registry w))
          as [tool |]; cbn [option_map]; [| repeat split].
        destruct (storeItem_frame tool (HitDetector.ph_index hit)
                    (translate (HitDetector.ph_item hit)
                       (lat q - lat start) (lng q - lng start)))
          as (Hd & Hc & Hn).
        rewrite Hd, Hc. repeat split.
        intros index Hne. apply Hn. congruence.
      * repeat split.
Qed.

(** ** ui/KeyboardShortcuts.js *)

Lemma shortcut_cases (key : string) :
  KeyboardShortcuts.shortcut key =
  if String.eqb "e" key then Some "explore"
  else if String.eqb "p" key then Some "points"
  else if String.eqb "s" key then Some "sector"
  else if String.eqb "l" key then Some "line"
  else if String.eqb "o" key then Some "polygon"
  else if String.eqb "t" key then Some "text"
  else if String.eqb "m" key then Some "move"
  else if String.eqb "d" key then Some "delete"
  else None.
Proof.
  unfold KeyboardShortcuts.shortcut, KeyboardShortcuts.toolShortcuts.
  cbn [find fst snd].
  repeat match goal with
         | |- context [String.eqb ?a key] => destruct (String.eqb a key)
         end; reflexivity.
Qed.

Lemma handleKey_redo (key : string) (e : KeyboardShortcuts.KeyEvent) :
  KeyboardShortcuts.handleKey key e = Some KeyboardShortcuts.Redo <->
  (KeyboardShortcuts.ctrlKey e || KeyboardShortcuts.metaKey e = true /\
   key = "y").
Proof.
  split.
  - unfold KeyboardShortcuts.handleKey.
    destruct (String.eqb key "enter" || String.eqb key "escape");
      [discriminate |].
    destruct (KeyboardShortcuts.shortcut key); [discriminate |].
    destruct (KeyboardShortcuts.ctrlKey e || KeyboardShortcuts.metaKey e);
      cbn [andb].
    + destruct (String.eqb key "z") eqn:Ez; [discriminate |].
      rewrite andb_false_r, orb_false_r.
      destruct (String.eqb key "y") eqn:Ey.
      * apply String.eqb_eq in Ey. now split.
      * destruct (String.eqb key "delete" || String.eqb key "backspace");
          [discriminate |].
        destruct (KeyboardShortcuts.shiftKey e && String.eqb key "delete");
          discriminate.
    + destruct (String.eqb key "delete" || String.eqb key "backspace");
        discriminate.
  - intros [Hmod ->]. unfold KeyboardShortcuts.handleKey.
    rewrite shortcut_cases, Hmod. reflexivity.
Qed.

(** X27.  What the keyboard can do.  Enter and Escape both finish the
    current drawing, and each of the eight tool letters switches the mode,
    whatever modifier keys are held.  With Ctrl or Cmd, Z is always undo,
    also with Shift, so redo is reached by Ctrl/Cmd+Y only.  Delete and
    Backspace are always "delete selected", also with Ctrl+Shift: no key
    leads to "clear all".  No key is handled while the shortcuts are
    disabled or the user types in an input field. *)
Theorem shortcuts_dispatch (key : string) (e : KeyboardShortcuts.KeyEvent) :
  KeyboardShortcuts.handleKey "enter" e = Some KeyboardShortcuts.StopDrawing /\
  KeyboardShortcuts.handleKey "escape" e = Some KeyboardShortcuts.StopDrawing /\
  (forall mode, In (key, mode) KeyboardShortcuts.toolShortcuts ->
     KeyboardShortcuts.handleKey key e = Some (KeyboardShortcuts.SetMode mode)) /\
  (KeyboardShortcuts.ctrlKey e || KeyboardShortcuts.metaKey e = true ->
   KeyboardShortcuts.handleKey "z" e = Some KeyboardShortcuts.Undo) /\
  (KeyboardShortcuts.handleKey key e = Some KeyboardShortcuts.Redo <->
   (KeyboardShortcuts.ctrlKey e || KeyboardShortcuts.metaKey e = true /\
    key = "y")) /\
  KeyboardShortcuts.handleKey "delete" e
  = Some KeyboardShortcuts.DeleteSelected /\
  match KeyboardShortcuts.handleKey key e with
  | Some KeyboardShortcuts.ClearAll => False
  | _ => True
  end /\
  (forall enabled typingInInput,
     KeyboardShortcuts.handleKeyDown enabled typingInInput key e
     = if enabled && negb typingInInput
       then KeyboardShortcuts.handleKey key e else None).
Proof.
  split; [reflexivity |]. split; [reflexivity |].
  split; [| split; [| split; [| split; [| split]]]];
    [| | | | | intros [|] [|]; reflexivity].
  - intros mode Hin. unfold KeyboardShortcuts.toolShortcuts in Hin.
    cbn [In] in Hin.
    repeat (destruct Hin as [Hin | Hin];
            [injection Hin as <- <-; reflexivity |]).
    destruct Hin.
  - intros Hmod. unfold KeyboardShortcuts.handleKey.
    rewrite shortcut_cases, Hmod. reflexivity.
  - apply handleKey_redo.
  - unfold KeyboardShortcuts.handleKey. rewrite shortcut_cases. cbn.
    destruct (KeyboardShortcuts.ctrlKey e || KeyboardShortcuts.metaKey e);
      cbn [andb]; rewrite ?andb_false_r; reflexivity.
  - unfold KeyboardShortcuts.handleKey.
    destruct (String.eqb key "enter" || String.eqb key "escape"); [exact I |].
    destruct (KeyboardShortcuts.shortcut key); [exact I |].
    destruct ((KeyboardShortcuts.ctrlKey e || KeyboardShortcuts.metaKey e) &&
              String.eqb key "z"); [exact I |].
    destruct ((KeyboardShortcuts.ctrlKey e || KeyboardShortcuts.metaKey e) &&
              (String.eqb key "y" ||
               KeyboardShortcuts.shiftKey e && String.eqb key "z"));
      [exact I |].
    destruct (String.eqb key "delete") eqn:Ed; cbn [orb]; [exact I |].
    rewrite andb_false_r.
    destruct (String.eqb key "backspace"); exact I.
Qed.

(** ** GeoJSON support of the tools and io/IOManager.js *)

(** X28.  No feature is accepted by two classes of tools, so the tool an
    imported feature goes to does not depend on the order of the tools; and
    a Point feature whose [properties.type] is truthy but not ['text'] is
    accepted by none (the import passes over it). *)
Theorem accepts_at_most_one_class (f : json) (tool tool' : ToolInst) :
  GeoJSON.accepts tool f && GeoJSON.accepts tool' f &&
  negb (String.eqb (toolClass tool) (toolClass tool')) = false /\
  (isStr "Point" (GeoJSON.geometryType f) = true ->
   falsy (GeoJSON.propertiesType f) = false ->
   isStr "text" (GeoJSON.propertiesType f) = false ->
   GeoJSON.accepts tool f = false).
Proof.
  assert (Hgeo : forall a b, String.eqb a b = false ->
            isStr a (GeoJSON.geometryType f) && isStr b (GeoJSON.geometryType f)
            = false).
  { intros a b Hab. unfold isStr.
    destruct (GeoJSON.geometryType f) as [[| | | s | |] |]; try reflexivity.
    destruct (String.eqb s a) eqn:Ea; [| reflexivity].
    apply String.eqb_eq in Ea. subst s. now rewrite Hab. }
  pose proof (Hgeo "Point" "LineString" eq_refl) as PL.
  pose proof (Hgeo "Point" "Polygon" eq_refl) as PG.
  pose proof (Hgeo "LineString" "Polygon" eq_refl) as LG.
  assert (Htext : isStr "text" (GeoJSON.propertiesType f) = true ->
                  falsy (GeoJSON.propertiesType f) = false).
  { unfold isStr, falsy.
    destruct (GeoJSON.propertiesType f) as [[| | | s | |] |]; try discriminate.
    intros H. apply String.eqb_eq in H. now subst s. }
  split.
  - destruct tool, tool'; cbn [GeoJSON.accepts toolClass andb negb String.eqb
                              Ascii.eqb Bool.eqb];
      unfold GeoJSON.PointsTool_accepts, GeoJSON.TextTool_accepts,
        GeoJSON.PolylineTool_accepts, GeoJSON.PolygonTool_accepts,
        GeoJSON.SectorTool_accepts;
      rewrite ?andb_false_r; try reflexivity;
      destruct (isStr "Point" (GeoJSON.geometryType f));
      destruct (isStr "LineString" (GeoJSON.geometryType f));
      destruct (isStr "Polygon" (GeoJSON.geometryType f));
      cbn [andb] in *; try discriminate; try reflexivity;
      destruct (isStr "text" (GeoJSON.propertiesType f));
      try (rewrite (Htext eq_refl)); cbn [andb negb];
      rewrite ?andb_false_r; try reflexivity;
      destruct (isStr "sector" (GeoJSON.propertiesType f)); reflexivity.
  - intros Hp Hf Ht.
    destruct tool; cbn [GeoJSON.accepts];
      unfold GeoJSON.PointsTool_accepts, GeoJSON.TextTool_accepts,
        GeoJSON.PolylineTool_accepts, GeoJSON.PolygonTool_accepts,
        GeoJSON.SectorTool_accepts;
      rewrite ?Hf, ?Ht, ?andb_false_r; try reflexivity;
      rewrite Hp in PL, PG; cbn [andb] in PL, PG; rewrite ?PL, ?PG;
      reflexivity.
Qed.

Ltac fromGeoJSON_cases H :=
  repeat match type of H with
         | context [match ?x with _ => _ end] =>
             destruct x eqn:?; try discriminate H
         | context [if ?x then _ else _] =>
             destruct x eqn:?; try discriminate H
         end.

(** A feature handed to a tool leaves its draft alone and at most appends
    to its collection. *)
Lemma fromGeoJSON_appends (f : json) (tool tool' : ToolInst) :
  GeoJSON.fromGeoJSON f tool = Some tool' ->
  tool_draft tool' = tool_draft tool /\
  exists added,
    tool_items tool' = option_map (fun items => items ++ added) (tool_items tool).
Proof.
  intros H.
  destruct tool as [t | t | t | t | t | |]; cbn [GeoJSON.fromGeoJSON] in H.
  - destruct (GeoJSON.PointsTool_fromGeoJSON f t) as [t' |] eqn:E;
      [| discriminate H].
    injection H as <-. unfold GeoJSON.PointsTool_fromGeoJSON in E.
    fromGeoJSON_cases E; injection E as <-; (split; [reflexivity |]).
    + exists []. cbn [tool_items option_map]. now rewrite app_nil_r.
    + eexists. cbn [tool_items option_map PointsTool.points].
      now rewrite map_app.
  - destruct (GeoJSON.PolylineTool_fromGeoJSON f t) as [t' |] eqn:E;
      [| discriminate H].
    injection H as <-. unfold GeoJSON.PolylineTool_fromGeoJSON in E.
    fromGeoJSON_cases E; injection E as <-; (split; [reflexivity |]).
    + exists []. cbn [tool_items option_map]. now rewrite app_nil_r.
    + eexists. cbn [tool_items option_map PolylineTool.lines].
      now rewrite map_app.
  - destruct (GeoJSON.PolygonTool_fromGeoJSON f t) as [t' |] eqn:E;
      [| discriminate H].
    injection H as <-. unfold GeoJSON.PolygonTool_fromGeoJSON in E.
    fromGeoJSON_cases E; injection E as <-; (split; [reflexivity |]).
    + exists []. cbn [tool_items option_map]. now rewrite app_nil_r.
    + eexists. cbn [tool_items option_map PolygonTool.polygons].
      now rewrite map_app.
  - destruct (GeoJSON.SectorTool_fromGeoJSON f t) as [t' |] eqn:E;
      [| discriminate H].
    injection H as <-. unfold GeoJSON.SectorTool_fromGeoJSON in E.
    fromGeoJSON_cases E; injection E as <-; (split; [reflexivity |]).
    + exists []. cbn [tool_items option_map]. now rewrite app_nil_r.
    + eexists. cbn [tool_items option_map SectorTool.sectors].
      now rewrite map_app.
  - destruct (GeoJSON.TextTool_fromGeoJSON f t) as [t' |] eqn:E;
      [| discriminate H].
    injection H as <-. unfold GeoJSON.TextTool_fromGeoJSON in E.
    fromGeoJSON_cases E; injection E as <-; (split; [reflexivity |]).
    + exists []. cbn [tool_items option_map]. now rewrite app_nil_r.
    + eexists. cbn [tool_items option_map TextTool.texts].
      now rewrite map_app.
  - injection H as <-. split; [reflexivity |]. now exists [].
  - injection H as <-. split; [reflexivity |]. now exists [].
Qed.

Lemma appendedTo_refl (tool : ToolInst) : appendedTo tool tool.
Proof.
  split; [reflexivity |]. exists [].
  destruct (tool_items tool); cbn [option_map]; [now rewrite app_nil_r | reflexivity].
Qed.

Lemma appendedTo_trans (a b c : ToolInst) :
  appendedTo a b -> appendedTo b c -> appendedTo a c.
Proof.
  intros [Hd1 [x1 H1]] [Hd2 [x2 H2]]. split; [congruence |].
  exists (x1 ++ x2). rewrite H2, H1.
  destruct (tool_items a); cbn [option_map]; [now rewrite app_assoc | reflexivity].
Qed.

Lemma grownFrom_refl (tm : ToolManager.t) : grownFrom tm tm.
Proof.
  repeat split. intros ref.
  destruct (ToolManager.getTool ref tm) as [tool |] eqn:E; [| reflexivity].
  exists tool. split; [reflexivity | apply appendedTo_refl].
Qed.

Lemma grownFrom_trans (a b c : ToolManager.t) :
  grownFrom a b -> grownFrom b c -> grownFrom a c.
Proof.
  intros (N1 & O1 & A1 & T1) (N2 & O2 & A2 & T2).
  split; [congruence |]. split; [congruence |]. split; [congruence |].
  intros ref. specialize (T1 ref). specialize (T2 ref).
  destruct (ToolManager.getTool ref a) as [ta |].
  - destruct T1 as (tb & Hb & Hab). rewrite Hb in T2.
    destruct T2 as (tc & Hc & Hbc). exists tc.
    split; [exact Hc | now apply (appendedTo_trans ta tb tc)].
  - now rewrite T1 in T2.
Qed.

Lemma keys_updateSlot (f : ToolInst -> ToolInst)
      (m : list (string * option ToolInst)) (r : nat) :
  map fst (ToolManager.updateSlot r f m) = map fst m.
Proof.
  revert r. induction m as [| [k v] m IH]; intros [| r]; cbn; try reflexivity.
  now rewrite IH.
Qed.

Lemma firstAccepting_In (f : json) (tools : list ToolObj) (o : ToolObj) :
  IOManager.firstAccepting f tools = IOManager.Found o ->
  In o tools /\ GeoJSON.accepts (snd o) f = true.
Proof.
  induction tools as [| [ref tool] rest IH]; intros H; [discriminate |].
  cbn [IOManager.firstAccepting] in H.
  destruct (GeoJSON.hasAccepts tool && isNull f); [discriminate |].
  destruct (GeoJSON.accepts tool f) eqn:E.
  - injection H as <-. split; [now left | exact E].
  - destruct (IH H) as [Hin Ha]. split; [now right | exact Ha].
Qed.

Lemma import_step_grows (f : json) (tm : ToolManager.t) (ref : ToolRef)
      (tool tool' : ToolInst) :
  ToolManager.getTool ref tm = Some tool ->
  GeoJSON.fromGeoJSON f tool = Some tool' ->
  grownFrom tm (ToolManager.updateTool ref (fun _ => tool') tm).
Proof.
  intros Hget Hfrom. unfold grownFrom, ToolManager.getAllToolNames,
    ToolManager.getActiveName.
  cbn [ToolManager.updateTool ToolManager.tools ToolManager.activeTool
       ToolManager.registrationOrder].
  split; [apply keys_updateSlot |]. split; [reflexivity |].
  split; [reflexivity |].
  intros r. rewrite getTool_updateTool.
  destruct (Nat.eqb r ref) eqn:E.
  - apply Nat.eqb_eq in E. subst r. rewrite Hget. cbn [option_map].
    exists tool'. split; [reflexivity |].
    now apply (fromGeoJSON_appends f).
  - destruct (ToolManager.getTool r tm) as [t |]; [| reflexivity].
    exists t. split; [reflexivity | apply appendedTo_refl].
Qed.

Lemma importFeatures_grows (features : list json) (tm tm' : ToolManager.t)
      (count n : nat) :
  IOManager.importFeatures features tm count = Some (tm', n) ->
  grownFrom tm tm' /\ (count <= n <= count + length features)%nat.
Proof.
  revert tm count. induction features as [| f rest IH]; intros tm count H.
  - cbn in H. injection H as <- <-. split; [apply grownFrom_refl | cbn; lia].
  - cbn [IOManager.importFeatures] in H.
    destruct (IOManager.firstAccepting f (ToolManager.getAllTools tm))
      as [[ref tool] | |] eqn:Ef; [| | discriminate].
    + apply firstAccepting_In in Ef. destruct Ef as [Hin _].
      apply getAllTools_getTool in Hin.
      destruct (GeoJSON.fromGeoJSON f tool) as [tool1 |] eqn:Efrom;
        [| discriminate].
      apply IH in H. destruct H as [Hg Hn].
      split; [| cbn [length]; lia].
      eapply grownFrom_trans; [| exact Hg].
      now apply (import_step_grows f tm ref tool tool1).
    + apply IH in H. destruct H as [Hg Hn]. split; [exact Hg | cbn [length]; lia].
Qed.

(** X29.  An import only adds.  When [importGeoJSON] returns, the registry
    has the names and the active tool it had, every tool has the draft it
    had, and every collection is the former collection followed by what was
    imported into it; the number returned is at most the number of features
    of the document.  A document that [validateGeoJSON] rejects changes
    nothing and counts 0. *)
Theorem import_only_appends (geojson : json) (tm tm' : ToolManager.t) (n : nat) :
  IOManager.importGeoJSON geojson tm = Some (tm', n) ->
  grownFrom tm tm' /\
  match prop "features" (Some geojson) with
  | Some (JArr features) => (n <= length features)%nat
  | _ => n = O
  end /\
  (IOManager.validateGeoJSON geojson = false -> tm' = tm /\ n = O).
Proof.
  unfold IOManager.importGeoJSON, IOManager.validateGeoJSON. intros H.
  destruct (isStr "FeatureCollection" (prop "type" (Some geojson))) eqn:Etype;
    cbn [negb] in H.
  - destruct (prop "features" (Some geojson)) as [[| | | | features |] |] eqn:Ef;
      try discriminate H.
    apply importFeatures_grows in H. destruct H as [Hg Hn].
    split; [exact Hg |]. split; [lia |].
    destruct geojson; try discriminate Etype. cbn [andb]. discriminate.
  - injection H as <- <-. split; [apply grownFrom_refl |].
    split; [| now split].
    destruct (prop "features" (Some geojson)) as [[| | | | features |] |];
      try reflexivity. cbn [length]. lia.
Qed.

Lemma import_only_appends_witness :
  grownFrom freshRegistry
    (mainRegistry {| PointsTool.points := [
                       {| p_lat := 2; p_lng := 1; p_elev := None;
                          p_color := "black"; p_symbol := "circle" |} ] |}
                  PolylineTool.create PolygonTool.create SectorTool.create
                  TextTool.create) /\
  match prop "features" (Some (collection [pointFeature 1 2])) with
  | Some (JArr features) => (1 <= length features)%nat
  | _ => 1%nat = O
  end /\
  (IOManager.validateGeoJSON (collection [pointFeature 1 2]) = false ->
   mainRegistry {| PointsTool.points := [
                     {| p_lat := 2; p_lng := 1; p_elev := None;
                        p_color := "black"; p_symbol := "circle" |} ] |}
                PolylineTool.create PolygonTool.create SectorTool.create
                TextTool.create = freshRegistry /\ 1%nat = O).
Proof.
  apply (import_only_appends (collection [pointFeature 1 2]) freshRegistry).
  reflexivity.
Defined.

Lemma traverse_app_None {A B : Type} (f : A -> option B) (l : list A) (a : A) :
  f a = None -> traverse f (l ++ [a]) = None.
Proof.
  intros H. induction l as [| b l IH]; cbn [app traverse].
  - now rewrite H.
  - rewrite IH. now destruct (f b).
Qed.

(** X30.  A polygon without vertices can be imported but never exported.
    A Polygon feature whose ring holds at most one position is accepted and
    counted by the import, and leaves the polygon tool with one more
    polygon, which has no vertices; from then on [export] fails (it reports
    the error and returns [null]), whatever else the tools hold. *)
Theorem empty_ring_import_breaks_export
      (a : PointsTool.t) (b : PolylineTool.t) (c : PolygonTool.t)
      (d : SectorTool.t) (e : TextTool.t) (ring : list json) (now : string) :
  (length ring <= 1)%nat ->
  let grown :=
    mainRegistry a b
      {| PolygonTool.polygons :=
           PolygonTool.polygons c ++
           [{| g_points := []; g_color := "green"; g_alpha := 25 / 100 |}];
         PolygonTool._draft := PolygonTool._draft c;
         PolygonTool._hover := PolygonTool._hover c |}
      d e in
  IOManager.importGeoJSON (collection [ringFeature ring])
                          (mainRegistry a b c d e)
  = Some (grown, 1%nat) /\
  IOManager.export now grown = None.
Proof.
  intros Hring. cbv zeta. split.
  - destruct ring as [| x [| y ring]]; [reflexivity | reflexivity |].
    cbn [length] in Hring. lia.
  - unfold IOManager.export.
    rewrite mainRegistry_getDrawingTools.
    cbn [traverse snd GeoJSON.toGeoJSON].
    unfold GeoJSON.PolygonTool_toGeoJSON. cbn [PolygonTool.polygons].
    rewrite traverse_app_None by reflexivity. reflexivity.
Qed.

Lemma empty_ring_import_breaks_export_witness :
  IOManager.importGeoJSON (collection [ringFeature []]) freshRegistry
  = Some (mainRegistry PointsTool.create PolylineTool.create
            {| PolygonTool.polygons :=
                 PolygonTool.polygons PolygonTool.create ++
                 [{| g_points := []; g_color := "green"; g_alpha := 25 / 100 |}];
               PolygonTool._draft := PolygonTool._draft PolygonTool.create;
               PolygonTool._hover := PolygonTool._hover PolygonTool.create |}
            SectorTool.create TextTool.create, 1%nat) /\
  IOManager.export "2026-01-01T00:00:00.000Z"
    (mainRegistry PointsTool.create PolylineTool.create
       {| PolygonTool.polygons :=
            PolygonTool.polygons PolygonTool.create ++
            [{| g_points := []; g_color := "green"; g_alpha := 25 / 100 |}];
          PolygonTool._draft := PolygonTool._draft PolygonTool.create;
          PolygonTool._hover := PolygonTool._hover PolygonTool.create |}
       SectorTool.create TextTool.create) = None.
Proof.
  apply (empty_ring_import_breaks_export
           PointsTool.create PolylineTool.create PolygonTool.create
           SectorTool.create TextTool.create [] "2026-01-01T00:00:00.000Z").
  cbn [length]. lia.
Defined.
